(** * LiveCTD: the countdown page script (script.js)

    A shallow embedding of the page script: the countdown renderer
    [updateCountdown], the particle generator [createParticles] and the
    image cache-busting step [bustImageCache], together with the small
    part of the JavaScript runtime they rely on (Numbers restricted to
    integral values and NaN, string padding, property access on an object
    literal, writes to DOM nodes, TypeError on a null receiver, and the
    binary64 arithmetic of the random attributes). *)

From Stdlib Require Import ZArith QArith Qround Qpower Lia Lqa Ascii.
From Stdlib Require String.
From stdpp Require Import base option list strings gmap.

Local Open Scope Z_scope.

(** ** Numbers

    Time values are integral Numbers of magnitude at most 8.64e15 (or NaN
    for an invalid Date).  The script's arithmetic on them is rendered by
    the integer operations of [Z]: on integral operands [-] and [%] are
    exact as long as the result stays below 2^53 in magnitude, and
    [Math.floor] of the rounded quotient of a non-negative integer below
    2^53 by a positive integer is the floor of the exact quotient.  The
    difference of a target and a clock reading stays below 2^53 whenever
    the clock reads a time after the epoch.  [%] takes the sign of the
    dividend ([Z.rem]); the floor of a quotient by a positive constant is
    [Z.div]. *)

Inductive Number : Type :=
| NaN
| Int (z : Z).

#[global] Instance Number_eq_dec : EqDecision Number.
Proof. solve_decision. Defined.

(** [a - b] *)
Definition Nsub (a b : Number) : Number :=
  match a, b with
  | Int x, Int y => Int (x - y)
  | _, _ => NaN
  end.

(** [a <= 0]; every comparison with NaN is false. *)
Definition Nle0 (a : Number) : bool :=
  match a with
  | Int x => x <=? 0
  | NaN => false
  end.

(** [a % c] for a non-zero integral constant [c]. *)
Definition Nrem (a : Number) (c : Z) : Number :=
  match a with
  | Int x => Int (Z.rem x c)
  | NaN => NaN
  end.

(** [Math.floor(a / c)] for a positive integral constant [c]. *)
Definition Math_floor_div (a : Number) (c : Z) : Number :=
  match a with
  | Int x => Int (x / c)
  | NaN => NaN
  end.

(** ** Strings *)

Definition digit_char (d : Z) : ascii := ascii_of_nat (48 + Z.to_nat d).

(** Decimal digits of a non-negative integer, most significant first.
    The fuel bounds the number of digits. *)
Fixpoint digits_aux (fuel : nat) (n : Z) (acc : string) : string :=
  match fuel with
  | O => acc
  | S fuel' =>
      let acc' := String (digit_char (n mod 10)) acc in
      if n <? 10 then acc' else digits_aux fuel' (n / 10) acc'
  end.

Definition digits (n : Z) : string :=
  digits_aux (S (Z.to_nat (Z.log2 n))) n "".

(** [String(x)] on the Numbers above (integers print in plain decimal
    notation below 1e21). *)
Definition ToString (x : Number) : string :=
  match x with
  | NaN => "NaN"
  | Int z => if z <? 0 then String "-" (digits (- z)) else digits z
  end.

(** The first [n] characters of [fill] repeated, continuing from [cur]. *)
Fixpoint fill_to (n : nat) (cur fill : string) : string :=
  match n with
  | O => ""
  | S n' =>
      match cur with
      | String c rest => String c (fill_to n' rest fill)
      | EmptyString =>
          match fill with
          | String c rest => String c (fill_to n' rest fill)
          | EmptyString => ""
          end
      end
  end.

(** [s.padStart(targetLength, fillString)] *)
Definition padStart (targetLength : nat) (fillString : string) (s : string) : string :=
  if (targetLength <=? String.length s)%nat then s
  else fill_to (targetLength - String.length s) fillString fillString +:+ s.

(** Reading a decimal numeral back (used to state that nothing is lost). *)
Definition digit_val (c : ascii) : Z := Z.of_nat (nat_of_ascii c) - 48.

Fixpoint parse_from (v : Z) (s : string) : Z :=
  match s with
  | EmptyString => v
  | String c rest => parse_from (10 * v + digit_val c) rest
  end.

Definition parse_decimal (s : string) : Z := parse_from 0 s.

Definition is_digit (c : ascii) : bool :=
  let n := nat_of_ascii c in ((48 <=? n) && (n <=? 57))%nat.

Fixpoint all_digits (s : string) : bool :=
  match s with
  | EmptyString => true
  | String c rest => is_digit c && all_digits rest
  end.

(** ** The page: DOM nodes, the window and the runtime's completions *)

(** Handle of a DOM element. *)
Definition Elem := nat.

(** What a property of the script's objects can hold: nothing, [null]
    (an id that [document.getElementById] did not find) or an element. *)
Inductive Value : Type :=
| undefined
| null
| node (el : Elem).

#[global] Instance Value_eq_dec : EqDecision Value.
Proof. solve_decision. Defined.

(** ToBoolean: [undefined] and [null] are falsy, an object is truthy. *)
Definition truthy (v : Value) : bool :=
  match v with
  | node _ => true
  | _ => false
  end.

(** An object literal: its own properties in the order [Object.values]
    enumerates them (the keys of an object are pairwise distinct; no
    result below depends on it). *)
Definition Obj := list (string * Value).

(** [o.k] *)
Fixpoint get (o : Obj) (k : string) : Value :=
  match o with
  | [] => undefined
  | (k', v) :: rest => if decide (k' = k) then v else get rest k
  end.

(** [Object.values(o)] *)
Definition Object_values (o : Obj) : list Value := map snd o.

(** The inline style of a particle.  Lengths, times and opacity are kept
    as numbers (the unit is fixed per field: [%] for left/top, [px] for
    width/height, [s] for the animation times): each is the double the
    script computes, as the rational it denotes. *)
Record Style : Type := mkStyle {
  style_left : Q;
  style_top : Q;
  style_width : Q;
  style_height : Q;
  style_animationDuration : Q;
  style_animationDelay : Q;
  style_opacity : Q;
  style_background : option string
}.

(** A freshly created, not yet attached element. *)
Record Particle : Type := mkParticle {
  tagName : string;
  classList : list string;
  style : Style
}.

Inductive Event : Type :=
| SetTextContent (el : Elem) (s : string)
| SetSrc (el : Elem) (s : string)
| AppendChild (parent : Elem) (child : Particle).

Record Page : Type := mkPage {
  ids : gmap string Elem;               (* document.getElementById *)
  innerWidth : Z;                       (* window.innerWidth *)
  textContent : gmap Elem string;
  src : gmap Elem string;
  childNodes : gmap Elem (list Particle);
  draws : nat;                          (* calls of Math.random so far *)
  trace : list Event                    (* writes performed, oldest first *)
}.

Inductive Error : Type :=
| TypeError (msg : string).

Inductive Completion (A : Type) : Type :=
| Normal (a : A) (p : Page)
| Throw (e : Error) (p : Page).
Arguments Normal {A} a p.
Arguments Throw {A} e p.

Definition JS (A : Type) : Type := Page -> Completion A.

#[global] Instance JS_ret : MRet JS := fun A a p => Normal a p.

#[global] Instance JS_bind : MBind JS := fun A B f m p =>
  match m p with
  | Normal a p' => f a p'
  | Throw e p' => Throw e p'
  end.

Definition throw {A} (e : Error) : JS A := fun p => Throw e p.

(** [if (c) body] *)
Definition when (c : bool) (body : JS unit) : JS unit :=
  if c then body else mret tt.

(** [xs.forEach(f)] *)
Fixpoint forEach {A} (xs : list A) (f : A -> JS unit) : JS unit :=
  match xs with
  | [] => mret tt
  | x :: rest => f x ;; forEach rest f
  end.

(** The page after [el.textContent = s]. *)
Definition write_text (el : Elem) (s : string) (p : Page) : Page :=
  mkPage (ids p) (innerWidth p) (<[el := s]> (textContent p)) (src p)
         (childNodes p) (draws p) (trace p ++ [SetTextContent el s]).

(** [v.textContent = s] *)
Definition set_textContent (v : Value) (s : string) : JS unit :=
  match v with
  | node el => fun p => Normal tt (write_text el s p)
  | _ => throw (TypeError "Cannot set properties of null (setting 'textContent')")
  end.

(** ** Countdown logic *)

(** The completion marker (U+1F389, in UTF-8). *)
Definition marker : string := "🎉".

Definition MS_DAY : Z := 1000 * 60 * 60 * 24.
Definition MS_HOUR : Z := 1000 * 60 * 60.
Definition MS_MINUTE : Z := 1000 * 60.

Definition days (diff : Number) : Number := Math_floor_div diff MS_DAY.
Definition hours (diff : Number) : Number := Math_floor_div (Nrem diff MS_DAY) MS_HOUR.
Definition minutes (diff : Number) : Number := Math_floor_div (Nrem diff MS_HOUR) MS_MINUTE.
Definition seconds (diff : Number) : Number := Math_floor_div (Nrem diff MS_MINUTE) 1000.

(** [updateCountdown(targetDate, elements)]; [now] is the time value that
    [new Date()] samples in this call, [targetDate] the time value of the
    target (NaN for an invalid Date). *)
Definition updateCountdown (now : Z) (targetDate : Number) (elements : Obj) : JS unit :=
  let diff := Nsub targetDate (Int now) in
  if Nle0 diff then
    forEach (Object_values elements) (fun el =>
      when (truthy el) (set_textContent el marker))
  else
    when (truthy (get elements "days"))
      (set_textContent (get elements "days") (padStart 2 "0" (ToString (days diff)))) ;;
    when (truthy (get elements "hours"))
      (set_textContent (get elements "hours") (padStart 2 "0" (ToString (hours diff)))) ;;
    when (truthy (get elements "minutes"))
      (set_textContent (get elements "minutes") (padStart 2 "0" (ToString (minutes diff)))) ;;
    when (truthy (get elements "seconds"))
      (set_textContent (get elements "seconds") (padStart 2 "0" (ToString (seconds diff)))).

(** The target dates, as the time values their literals denote
    (2026-03-26T17:00:00+02:00, 2026-06-07T00:00:00+02:00 and
    2026-05-04T00:00:00+02:00). *)
Definition WEDDING_DATE : Number := Int 1774537200000.
Definition USA_DATE : Number := Int 1780783200000.
Definition DOLOMITES_DATE : Number := Int 1777845600000.

(** [document.getElementById(id)] *)
Definition getElementById (id : string) : JS Value := fun p =>
  Normal (match ids p !! id with Some el => node el | None => null end) p.

(** The three slot sets of [startCountdowns]. *)
Definition weddingEls : JS Obj :=
  d ← getElementById "wDays";
  h ← getElementById "wHours";
  m ← getElementById "wMinutes";
  s ← getElementById "wSeconds";
  mret [("days", d); ("hours", h); ("minutes", m); ("seconds", s)].

Definition usaEls : JS Obj :=
  d ← getElementById "uDays";
  h ← getElementById "uHours";
  m ← getElementById "uMinutes";
  mret [("days", d); ("hours", h); ("minutes", m)].

Definition dolomitesEls : JS Obj :=
  d ← getElementById "dDays";
  h ← getElementById "dHours";
  m ← getElementById "dMinutes";
  mret [("days", d); ("hours", h); ("minutes", m)].

(** One round of updates (the immediate one and every timer tick); each
    call of the renderer samples the clock itself. *)
Definition updateAll (now_w now_u now_d : Z) (w u d : Obj) : JS unit :=
  updateCountdown now_w WEDDING_DATE w ;;
  updateCountdown now_u USA_DATE u ;;
  updateCountdown now_d DOLOMITES_DATE d.

(** [startCountdowns()] up to the first round of updates; the slot sets
    it returns are the ones the timer callback keeps passing to
    [updateAll]. *)
Definition startCountdowns (now_w now_u now_d : Z) : JS (Obj * Obj * Obj) :=
  w ← weddingEls;
  u ← usaEls;
  d ← dolomitesEls;
  updateAll now_w now_u now_d w u d ;;
  mret (w, u, d).

(** ** Doubles

    [Math.random()] returns a double in [0,1) and the script multiplies
    and adds doubles.  A finite double is the rational it denotes; the
    result of [*] and [+] is the exact result rounded to the nearest
    double, ties to the even significand (53 bits, least exponent -1074).
    No magnitude here comes near the overflow threshold. *)

Definition pow2 (k : Z) : Q := ((2 # 1) ^ k)%Q.

(** The nearest integer, ties to even. *)
Definition round_half_even (m : Q) : Z :=
  let f := Qfloor m in
  match (m - inject_Z f ?= 1 # 2)%Q with
  | Lt => f
  | Gt => f + 1
  | Eq => if Z.even f then f else f + 1
  end.

(** The binary exponent of a positive number: [2^e <= x < 2^(e+1)]. *)
Definition ilog2 (x : Q) : Z :=
  let e0 := Z.log2 (Qnum x) - Z.log2 (Zpos (Qden x)) in
  if Qle_bool (pow2 e0) x then e0 else e0 - 1.

(** The exponent of the last place of the doubles around [x]. *)
Definition quantum (x : Q) : Z := Z.max (ilog2 x - 52) (-1074).

Definition round64_pos (x : Q) : Q :=
  Qred (inject_Z (round_half_even (x / pow2 (quantum x))) * pow2 (quantum x)).

(** The double nearest to [x]. *)
Definition round64 (x : Q) : Q :=
  match (x ?= 0)%Q with
  | Eq => 0%Q
  | Gt => round64_pos x
  | Lt => (- round64_pos (- x))%Q
  end.

(** [a * b] and [a + b] on doubles. *)
Definition fmul (a b : Q) : Q := round64 (a * b).
Definition fadd (a b : Q) : Q := round64 (a + b).

(** The double a decimal literal of the script denotes. *)
Definition lit (x : Q) : Q := round64 x.

Definition is_double (x : Q) : Prop := (round64 x == x)%Q.

(** The largest double below 1. *)
Definition max_draw : Q := 9007199254740991 # 9007199254740992.

(** ** Particles background *)

Section Particles.

(** [rand n] is the value of the [n]-th call of [Math.random()]. *)
Variable rand : nat -> Q.

Definition Math_random : JS Q := fun p =>
  Normal (rand (draws p))
         (mkPage (ids p) (innerWidth p) (textContent p) (src p)
                 (childNodes p) (S (draws p)) (trace p)).

Definition colors : list string :=
  ["rgba(255, 215, 0, 0.4)"; "rgba(255, 107, 157, 0.3)"; "rgba(255, 255, 255, 0.2)"].

(** The page after [parent.appendChild(child)]. *)
Definition push_child (parent : Elem) (child : Particle) (p : Page) : Page :=
  mkPage (ids p) (innerWidth p) (textContent p) (src p)
         (<[parent := default [] (childNodes p !! parent) ++ [child]]> (childNodes p))
         (draws p) (trace p ++ [AppendChild parent child]).

(** [container.appendChild(child)] *)
Definition appendChild (container : Value) (child : Particle) : JS unit :=
  match container with
  | node el => fun p => Normal tt (push_child el child p)
  | _ => throw (TypeError "Cannot read properties of null (reading 'appendChild')")
  end.

(** The element one iteration of the loop builds before attaching it. *)
Definition new_particle : JS Particle :=
  r_left ← Math_random;
  r_top ← Math_random;
  r_width ← Math_random;
  r_duration ← Math_random;
  r_delay ← Math_random;
  r_opacity ← Math_random;
  r_color ← Math_random;
  let width := fadd (fmul r_width 3) 1 in
  mret (mkParticle "div" ["particle"]
          (mkStyle (fmul r_left 100) (fmul r_top 100) width width
                   (fadd (fmul r_duration 15) 10) (fmul r_delay 10)
                   (fadd (fmul r_opacity (lit (5 # 10))) (lit (1 # 10)))
                   (colors !! Z.to_nat (Qfloor (fmul r_color (inject_Z (Z.of_nat (length colors)))))))).

Definition particle_count (width : Z) : nat :=
  if width <? 768 then 30%nat else 60%nat.

(** [for (let i = 0; i < count; i++) body(i)] *)
Definition for_loop (count : nat) (body : nat -> JS unit) : JS unit :=
  forEach (seq 0 count) body.

Definition createParticles : JS unit :=
  container ← getElementById "particles";
  count ← (fun p => Normal (particle_count (innerWidth p)) p);
  for_loop count (fun _ =>
    particle ← new_particle;
    appendChild container particle).

End Particles.

(** ** Image cache bust *)

(** [s.split(sep)[0]] for a one-character separator. *)
Fixpoint split_head (sep : ascii) (s : string) : string :=
  match s with
  | EmptyString => ""
  | String c rest => if decide (c = sep) then "" else String c (split_head sep rest)
  end.

(** The page after [el.src = s]. *)
Definition write_src (el : Elem) (s : string) (p : Page) : Page :=
  mkPage (ids p) (innerWidth p) (textContent p) (<[el := s]> (src p))
         (childNodes p) (draws p) (trace p ++ [SetSrc el s]).

(** [v.src = s] *)
Definition set_src (v : Value) (s : string) : JS unit :=
  match v with
  | node el => fun p => Normal tt (write_src el s p)
  | _ => throw (TypeError "Cannot set properties of null (setting 'src')")
  end.

Section CacheBust.

(** [toISOString t] is [new Date(t).toISOString()], the runtime's
    rendering of a time value as [YYYY-MM-DDTHH:mm:ss.sssZ]. *)
Variable toISOString : Z -> string.

Definition bustImageCache (now : Z) : JS unit :=
  let today := split_head "T" (toISOString now) in
  usaImg ← getElementById "usaImage";
  dolImg ← getElementById "dolomitesImage";
  when (truthy usaImg) (set_src usaImg ("images/usa-honeymoon.png?v=" +:+ today)) ;;
  when (truthy dolImg) (set_src dolImg ("images/dolomites-minimoon.png?v=" +:+ today)).

End CacheBust.

(** A reference rendering of [Date.prototype.toISOString] (the runtime's,
    not the script's): proleptic Gregorian calendar in UTC, four-digit
    years from 0 to 9999 and signed six-digit years outside.  It
    instantiates [toISOString] in the examples. *)
Definition civil_from_days (z0 : Z) : Z * Z * Z :=
  let z := z0 + 719468 in
  let era := z / 146097 in
  let doe := z - era * 146097 in
  let yoe := (doe - doe / 1460 + doe / 36524 - doe / 146096) / 365 in
  let doy := doe - (365 * yoe + yoe / 4 - yoe / 100) in
  let mp := (5 * doy + 2) / 153 in
  let d := doy - (153 * mp + 2) / 5 + 1 in
  let m := if mp <? 10 then mp + 3 else mp - 9 in
  let y := yoe + era * 400 + (if m <=? 2 then 1 else 0) in
  (y, m, d).

(** The day number (days since 1 January 1970) of the day [d] of the
    month [m] of the year [y] in the proleptic Gregorian calendar, and
    the length of a month. *)
Definition days_from_civil (y m d : Z) : Z :=
  let y' := if m <=? 2 then y - 1 else y in
  let era := y' / 400 in
  let yoe := y' - era * 400 in
  let mp := if 2 <? m then m - 3 else m + 9 in
  let doy := (153 * mp + 2) / 5 + d - 1 in
  let doe := yoe * 365 + yoe / 4 - yoe / 100 + doy in
  era * 146097 + doe - 719468.

Definition is_leap (y : Z) : bool :=
  (y mod 4 =? 0) && (negb (y mod 100 =? 0) || (y mod 400 =? 0)).

Definition days_in_month (y m : Z) : Z :=
  if m =? 2 then (if is_leap y then 29 else 28)
  else if (m =? 4) || (m =? 6) || (m =? 9) || (m =? 11) then 30 else 31.

Definition pad0 (n : nat) (v : Z) : string := padStart n "0" (digits v).

Definition iso_year (y : Z) : string :=
  if (0 <=? y) && (y <=? 9999) then pad0 4 y
  else if y <? 0 then String "-" (pad0 6 (- y))
  else String "+" (pad0 6 y).

Definition toISOString_utc (t : Z) : string :=
  let '(y, m, d) := civil_from_days (t / MS_DAY) in
  let r := t mod MS_DAY in
  iso_year y +:+ "-" +:+ pad0 2 m +:+ "-" +:+ pad0 2 d +:+ "T" +:+
  pad0 2 (r / MS_HOUR) +:+ ":" +:+ pad0 2 (r mod MS_HOUR / MS_MINUTE) +:+ ":" +:+
  pad0 2 (r mod MS_MINUTE / 1000) +:+ "." +:+ pad0 3 (r mod 1000) +:+ "Z".


(** ** The writes of one call of the renderer

    The effect of a call on the page, as the list of (element, text)
    assignments it performs in program order. *)

Definition slot_write (v : Value) (s : string) : list (Elem * string) :=
  match v with
  | node el => [(el, s)]
  | _ => []
  end.

Definition elapsed_writes (elements : Obj) : list (Elem * string) :=
  flat_map (fun v => slot_write v marker) (Object_values elements).

Definition numeric_writes (elements : Obj) (td th tm ts : string) : list (Elem * string) :=
  slot_write (get elements "days") td ++
  slot_write (get elements "hours") th ++
  slot_write (get elements "minutes") tm ++
  slot_write (get elements "seconds") ts.

Definition countdown_writes (now : Z) (targetDate : Number) (elements : Obj)
  : list (Elem * string) :=
  let diff := Nsub targetDate (Int now) in
  if Nle0 diff then elapsed_writes elements
  else numeric_writes elements
         (padStart 2 "0" (ToString (days diff))) (padStart 2 "0" (ToString (hours diff)))
         (padStart 2 "0" (ToString (minutes diff))) (padStart 2 "0" (ToString (seconds diff))).

Fixpoint apply_writes (w : list (Elem * string)) (p : Page) : Page :=
  match w with
  | [] => p
  | (el, s) :: rest => apply_writes rest (write_text el s p)
  end.

Definition text_event (w : Elem * string) : Event := SetTextContent w.1 w.2.

(** The text last assigned to [el] by [w], if any. *)
Fixpoint last_write (el : Elem) (w : list (Elem * string)) : option string :=
  match w with
  | [] => None
  | (e, s) :: rest =>
      match last_write el rest with
      | Some s' => Some s'
      | None => if decide (e = el) then Some s else None
      end
  end.

(** The elements a slot set holds. *)
Definition present (elements : Obj) : list Elem :=
  flat_map (fun v => match v with node el => [el] | _ => [] end) (Object_values elements).

(** Successive calls of the renderer for one event, one per clock sample. *)
Definition renders (nows : list Z) (targetDate : Number) (elements : Obj) : JS unit :=
  forEach nows (fun now => updateCountdown now targetDate elements).

(** ** Sample pages and slot sets *)

(** A page with no element and no history. *)
Definition blank_page (width : Z) : Page := mkPage ∅ width ∅ ∅ ∅ 0%nat [].

(** A fully wired slot set, one with only days and hours, and one whose
    minutes and seconds were not found on the page. *)
Definition full_slots : Obj :=
  [("days", node 1%nat); ("hours", node 2%nat); ("minutes", node 3%nat); ("seconds", node 4%nat)].

Definition days_hours_slots : Obj := [("days", node 1%nat); ("hours", node 2%nat)].

Definition unwired_slots : Obj :=
  [("days", node 1%nat); ("hours", node 2%nat); ("minutes", null); ("seconds", null)].

(** A slot set with a key outside the four unit names. *)
Definition extra_slots : Obj := [("days", node 1%nat); ("weeks", node 5%nat)].

(** The four unit names the numeric branch reads. *)
Definition unit_names : list string := ["days"; "hours"; "minutes"; "seconds"].

(** ** The effect of the particle loop and of the cache bust *)

(** The page after [k] more calls of [Math.random()]. *)
Definition advance (k : nat) (p : Page) : Page :=
  mkPage (ids p) (innerWidth p) (textContent p) (src p) (childNodes p)
         (draws p + k)%nat (trace p).

(** The particle built from the seven draws [n], ..., [n + 6]. *)
Definition particle_at (rand : nat -> Q) (n : nat) : Particle :=
  let width := fadd (fmul (rand (n + 2)%nat) 3) 1 in
  mkParticle "div" ["particle"]
    (mkStyle (fmul (rand n) 100) (fmul (rand (n + 1)%nat) 100) width width
             (fadd (fmul (rand (n + 3)%nat) 15) 10) (fmul (rand (n + 4)%nat) 10)
             (fadd (fmul (rand (n + 5)%nat) (lit (5 # 10))) (lit (1 # 10)))
             (colors !! Z.to_nat (Qfloor (fmul (rand (n + 6)%nat)
                                            (inject_Z (Z.of_nat (length colors))))))).

Fixpoint particles_from (rand : nat -> Q) (start count : nat) : list Particle :=
  match count with
  | O => []
  | S count' => particle_at rand start :: particles_from rand (start + 7) count'
  end.

(** The page after [count] iterations of the loop on a container [c]. *)
Fixpoint attach (rand : nat -> Q) (c : Elem) (count : nat) (p : Page) : Page :=
  match count with
  | O => p
  | S count' =>
      attach rand c count' (push_child c (particle_at rand (draws p)) (advance 7 p))
  end.

(** The assignment to the [src] of the image with the given id, if any. *)
Definition img_write (p : Page) (id url : string) : list Event :=
  match ids p !! id with
  | Some el => [SetSrc el url]
  | None => []
  end.

(** The calendar date of the reference rendering. *)
Definition iso_date (t : Z) : string :=
  let '(y, m, d) := civil_from_days (t / MS_DAY) in
  iso_year y +:+ "-" +:+ pad0 2 m +:+ "-" +:+ pad0 2 d.

(** [s] is the UTC calendar date of the time value [t], written
    [YYYY-MM-DD]: year, month and day of the day that contains [t]. *)
Definition calendar_date (t : Z) (s : string) : Prop :=
  exists y m d,
    1 <= m <= 12 /\ 1 <= d <= days_in_month y m /\
    days_from_civil y m d = t / MS_DAY /\
    s = iso_year y +:+ "-" +:+ pad0 2 m +:+ "-" +:+ pad0 2 d.

(** A source of draws used in the examples: the doubles 0, 1/8, ..., 7/8
    in turn. *)
Definition sample_rand (n : nat) : Q := (Z.of_nat (n mod 8) # 8).

(** A page that has the particle container and the two images. *)
Definition sample_page (width : Z) : Page :=
  mkPage (list_to_map [("particles", 9%nat); ("usaImage", 10%nat); ("dolomitesImage", 11%nat)])
         width ∅ ∅ ∅ 0%nat [].

(** A page that has the two images and no particle container. *)
Definition images_only_page : Page :=
  mkPage (list_to_map [("usaImage", 10%nat); ("dolomitesImage", 11%nat)]) 1024 ∅ ∅ ∅ 0%nat [].

(** The characters of a calendar date: digits, and the sign of a year
    outside 0..9999. *)
Fixpoint date_chars (s : string) : bool :=
  match s with
  | EmptyString => true
  | String c rest =>
      (is_digit c || bool_decide (c = "-"%char) || bool_decide (c = "+"%char))
      && date_chars rest
  end.

(** The writes recorded by a completion, and the text an element shows
    after it. *)
Definition trace_of {A} (c : Completion A) : list Event :=
  match c with
  | Normal _ p => trace p
  | Throw _ p => trace p
  end.

Definition shown {A} (c : Completion A) (el : Elem) : option string :=
  match c with
  | Normal _ p => textContent p !! el
  | Throw _ p => textContent p !! el
  end.

Definition is_normal {A} (c : Completion A) : bool :=
  match c with
  | Normal _ _ => true
  | Throw _ _ => false
  end.

(** The page a completion leaves. *)
Definition page_of {A} (c : Completion A) : Page :=
  match c with
  | Normal _ p => p
  | Throw _ p => p
  end.

(** ** Floating hearts, scroll reveal and start-up

    The rest of the script registers callbacks with the host: two
    interval timers, one [animationend] listener per heart and one
    intersection observer.  The state they act on extends the page. *)

(** A heart as [spawnHeart] builds it. *)
Record Heart : Type := mkHeart {
  heart_tagName : string;
  heart_classList : list string;
  heart_textContent : option string;      (* [None]: [undefined] was assigned *)
  heart_left : Q;                         (* % *)
  heart_fontSize : Q;                     (* px *)
  heart_animationDuration : Q;            (* s *)
  heart_opacity : Q
}.

(** An attached heart: its parent, the number of the span (spans are
    numbered in creation order) and the heart itself. *)
Record HeartNode : Type := mkHeartNode {
  parent : Elem;
  serial : nat;
  body : Heart
}.

(** The two closures handed to [setInterval], with what they capture. *)
Inductive Callback : Type :=
| SpawnHeart (container : Value)
| CountdownTick (w u d : Obj).

Record Observer : Type := mkObserver {
  threshold : Q;
  rootMargin : string;
  targets : list Elem
}.

Record Entry : Type := mkEntry {
  isIntersecting : bool;
  target : Elem
}.

Record World : Type := mkWorld {
  page : Page;
  document_order : list Elem;             (* the elements of the document, in order *)
  classes : gmap Elem (list string);      (* classList of the document's elements *)
  intervals : list (Callback * Z);        (* setInterval registrations, oldest first *)
  created : nat;                          (* spans created by spawnHeart so far *)
  floating : list HeartNode;              (* attached hearts, oldest first *)
  listeners : list nat;                   (* spans with an animationend listener *)
  observers : list Observer
}.

Definition set_page (p : Page) (w : World) : World :=
  mkWorld p (document_order w) (classes w) (intervals w) (created w)
          (floating w) (listeners w) (observers w).

Definition set_classes (c : gmap Elem (list string)) (w : World) : World :=
  mkWorld (page w) (document_order w) c (intervals w) (created w)
          (floating w) (listeners w) (observers w).

Definition set_intervals (i : list (Callback * Z)) (w : World) : World :=
  mkWorld (page w) (document_order w) (classes w) i (created w)
          (floating w) (listeners w) (observers w).

Definition set_created (n : nat) (w : World) : World :=
  mkWorld (page w) (document_order w) (classes w) (intervals w) n
          (floating w) (listeners w) (observers w).

Definition set_floating (f : list HeartNode) (w : World) : World :=
  mkWorld (page w) (document_order w) (classes w) (intervals w) (created w)
          f (listeners w) (observers w).

Definition set_listeners (l : list nat) (w : World) : World :=
  mkWorld (page w) (document_order w) (classes w) (intervals w) (created w)
          (floating w) l (observers w).

Definition set_observers (o : list Observer) (w : World) : World :=
  mkWorld (page w) (document_order w) (classes w) (intervals w) (created w)
          (floating w) (listeners w) o.

Inductive Outcome (A : Type) : Type :=
| Done (a : A) (w : World)
| Raised (e : Error) (w : World).
Arguments Done {A} a w.
Arguments Raised {A} e w.

Definition App (A : Type) : Type := World -> Outcome A.

#[global] Instance App_ret : MRet App := fun A a w => Done a w.

#[global] Instance App_bind : MBind App := fun A B f m w =>
  match m w with
  | Done a w' => f a w'
  | Raised e w' => Raised e w'
  end.

Definition raise {A} (e : Error) : App A := fun w => Raised e w.

(** A computation on the page, run inside the larger state. *)
Definition lift {A} (m : JS A) : App A := fun w =>
  match m (page w) with
  | Normal a p => Done a (set_page p w)
  | Throw e p => Raised e (set_page p w)
  end.

(** [xs.forEach(f)] *)
Fixpoint for_each {A} (xs : list A) (f : A -> App unit) : App unit :=
  match xs with
  | [] => mret tt
  | x :: rest => f x ;; for_each rest f
  end.

(** [setInterval(cb, ms)] *)
Definition setInterval (cb : Callback) (ms : Z) : App unit := fun w =>
  Done tt (set_intervals (intervals w ++ [(cb, ms)]) w).

(** [startCountdowns()]: the first round of updates, then the timer. *)
Definition startCountdowns_timer (now_w now_u now_d : Z) : App unit :=
  els ← lift (startCountdowns now_w now_u now_d);
  setInterval (CountdownTick els.1.1 els.1.2 els.2) 1000.

(** *** Floating hearts *)

Definition hearts : list string := ["💕"; "💖"; "💗"; "❤️"; "💘"; "🤍"].

(** [document.createElement('span')]: the number of the new span. *)
Definition createSpan : App nat := fun w =>
  Done (created w) (set_created (S (created w)) w).

(** The text and style [spawnHeart] gives the span, from five draws. *)
Definition new_heart (rand : nat -> Q) : JS Heart :=
  r_text ← Math_random rand;
  r_left ← Math_random rand;
  r_size ← Math_random rand;
  r_duration ← Math_random rand;
  r_opacity ← Math_random rand;
  mret (mkHeart "span" ["floating-heart"]
          (hearts !! Z.to_nat (Qfloor (fmul r_text (inject_Z (Z.of_nat (length hearts))))))
          (fmul r_left 100) (fadd (fmul r_size 14) 8) (fadd (fmul r_duration 6) 6)
          (fadd (fmul r_opacity (lit (4 # 10))) (lit (1 # 10)))).

(** [container.appendChild(heart)] *)
Definition appendHeart (container : Value) (s : nat) (h : Heart) : App unit :=
  match container with
  | node c => fun w => Done tt (set_floating (floating w ++ [mkHeartNode c s h]) w)
  | _ => raise (TypeError "Cannot read properties of null (reading 'appendChild')")
  end.

(** [heart.addEventListener('animationend', () => heart.remove())] *)
Definition addAnimationEndListener (s : nat) : App unit := fun w =>
  Done tt (set_listeners (listeners w ++ [s]) w).

(** [heart.remove()]: detaches the span if it is attached. *)
Definition heart_remove (s : nat) : App unit := fun w =>
  Done tt (set_floating (filter (fun n => serial n <> s) (floating w)) w).

Definition spawnHeart (rand : nat -> Q) (container : Value) : App unit :=
  s ← createSpan;
  h ← lift (new_heart rand);
  appendHeart container s h ;;
  addAnimationEndListener s.

Definition createFloatingHearts : App unit :=
  container ← lift (getElementById "particles");
  setInterval (SpawnHeart container) 800.

(** *** Scroll reveal *)

Definition classList_of (w : World) (el : Elem) : list string :=
  default [] (classes w !! el).

(** [el.classList.add(token)]: a token already present is not repeated. *)
Definition classList_add (el : Elem) (token : string) : App unit := fun w =>
  if decide (token ∈ classList_of w el) then Done tt w
  else Done tt (set_classes (<[el := classList_of w el ++ [token]]> (classes w)) w).

(** The observer's callback. *)
Definition reveal (entries : list Entry) : App unit :=
  for_each entries (fun entry =>
    if isIntersecting entry then classList_add (target entry) "visible" else mret tt).

(** [new IntersectionObserver(reveal, {threshold, rootMargin})]: the
    index of the new observer. *)
Definition new_IntersectionObserver (th : Q) (margin : string) : App nat := fun w =>
  Done (length (observers w)) (set_observers (observers w ++ [mkObserver th margin []]) w).

(** [document.querySelectorAll('.' + cls)] *)
Definition querySelectorAll_class (cls : string) : App (list Elem) := fun w =>
  Done (filter (fun el => cls ∈ classList_of w el) (document_order w)) w.

Definition add_target (el : Elem) (o : Observer) : Observer :=
  if decide (el ∈ targets o) then o
  else mkObserver (threshold o) (rootMargin o) (targets o ++ [el]).

(** [observer.observe(el)]: a target already observed is not added again. *)
Definition observe (k : nat) (el : Elem) : App unit := fun w =>
  Done tt (set_observers (alter (add_target el) k (observers w)) w).

Definition initScrollReveal : App unit :=
  observer ← new_IntersectionObserver (15 # 100) "0px 0px -50px 0px";
  cards ← querySelectorAll_class "trip-card";
  for_each cards (fun card => observe observer card).

(** *** Start-up and the host's deliveries *)

(** The [DOMContentLoaded] handler.  The clock samples are those of the
    three calls of the renderer and of the cache bust. *)
Definition init (rand : nat -> Q) (toISOString : Z -> string)
           (now_w now_u now_d now_b : Z) : App unit :=
  lift (createParticles rand) ;;
  createFloatingHearts ;;
  startCountdowns_timer now_w now_u now_d ;;
  initScrollReveal ;;
  lift (bustImageCache toISOString now_b).

(** What the host delivers after start-up: an interval timer fires (with
    the clock samples its callback will take), the animation of a span
    ends, or an observer reports entries for targets it observes. *)
Inductive Input : Type :=
| TimerFires (i : nat) (now_w now_u now_d : Z)
| AnimationEnds (s : nat)
| Intersects (k : nat) (entries : list Entry).

Definition run_callback (rand : nat -> Q) (cb : Callback) (now_w now_u now_d : Z) : App unit :=
  match cb with
  | SpawnHeart container => spawnHeart rand container
  | CountdownTick w u d => lift (updateAll now_w now_u now_d w u d)
  end.

Definition deliver (rand : nat -> Q) (inp : Input) : App unit := fun w =>
  match inp with
  | TimerFires i now_w now_u now_d =>
      match intervals w !! i with
      | Some (cb, _) => run_callback rand cb now_w now_u now_d w
      | None => Done tt w
      end
  | AnimationEnds s =>
      if decide (s ∈ listeners w) then heart_remove s w else Done tt w
  | Intersects k entries =>
      match observers w !! k with
      | Some o => reveal (filter (fun e => target e ∈ targets o) entries) w
      | None => Done tt w
      end
  end.

(** The state a delivery leaves; an error thrown by a callback is not
    caught by the script and ends that callback only. *)
Definition world_of {A} (o : Outcome A) : World :=
  match o with
  | Done _ w => w
  | Raised _ w => w
  end.

Definition succeeded {A} (o : Outcome A) : bool :=
  match o with
  | Done _ _ => true
  | Raised _ _ => false
  end.

Definition host_step (rand : nat -> Q) (w : World) (inp : Input) : World :=
  world_of (deliver rand inp w).

Definition host_run (rand : nat -> Q) (inps : list Input) (w : World) : World :=
  fold_left (host_step rand) inps w.

(** The world before start-up of a document with the given page, element
    order and class lists. *)
Definition initial_world (p : Page) (order : list Elem) (cls : gmap Elem (list string)) : World :=
  mkWorld p order cls [] 0%nat [] [] [].

(** *** Names and samples used in the statements *)

(** The value [document.getElementById(id)] returns on a page. *)
Definition found (p : Page) (id : string) : Value :=
  match ids p !! id with
  | Some el => node el
  | None => null
  end.

(** The ids [startCountdowns] looks up. *)
Definition countdown_ids : list string :=
  ["wDays"; "wHours"; "wMinutes"; "wSeconds";
   "uDays"; "uHours"; "uMinutes"; "dDays"; "dHours"; "dMinutes"].

(** Slot sets of two further events, disjoint from [full_slots]. *)
Definition usa_slots : Obj :=
  [("days", node 5%nat); ("hours", node 6%nat); ("minutes", node 7%nat)].

Definition dolomites_slots : Obj :=
  [("days", node 8%nat); ("hours", node 12%nat); ("minutes", node 13%nat)].


(** The page after a guarded assignment to the [src] of an image. *)
Definition img_set (v : Value) (url : string) (p : Page) : Page :=
  match v with
  | node el => write_src el url p
  | _ => p
  end.

(** The heart built from the five draws [n], ..., [n + 4]. *)
Definition heart_at (rand : nat -> Q) (n : nat) : Heart :=
  mkHeart "span" ["floating-heart"]
    (hearts !! Z.to_nat (Qfloor (fmul (rand n) (inject_Z (Z.of_nat (length hearts))))))
    (fmul (rand (n + 1)%nat) 100) (fadd (fmul (rand (n + 2)%nat) 14) 8)
    (fadd (fmul (rand (n + 3)%nat) 6) 6)
    (fadd (fmul (rand (n + 4)%nat) (lit (4 # 10))) (lit (1 # 10))).

(** The attribute ranges of a heart built from doubles in [0,1); the
    font size, the duration and the opacity can reach their upper ends. *)
Definition heart_in_range (h : Heart) : Prop :=
  heart_tagName h = "span" /\ heart_classList h = ["floating-heart"] /\
  (exists t, heart_textContent h = Some t /\ t ∈ hearts) /\
  (0 <= heart_left h < 100)%Q /\
  (8 <= heart_fontSize h <= 22)%Q /\
  (6 <= heart_animationDuration h <= 12)%Q /\
  ((1 # 10) <= heart_opacity h <= (5 # 10))%Q.

(** What [Math.random()] can return: a double in [0,1). *)
Definition draw_ok (r : Q) : Prop := is_double r /\ (0 <= r)%Q /\ (r < 1)%Q.

(** A source of draws that are doubles, the largest one included. *)
Definition double_rand (n : nat) : Q :=
  if (n mod 8 =? 7)%nat then max_draw else (Z.of_nat (n mod 8) # 8).

(** The numbers of the attached hearts. *)
Definition serials (w : World) : list nat := map serial (floating w).

(** What holds of the hearts in every state the script reaches: attached
    spans are pairwise distinct, were created by [spawnHeart] and carry
    the listener that removes them. *)
Definition hearts_ok (w : World) : Prop :=
  NoDup (serials w) /\
  Forall (fun s => (s < created w)%nat /\ s ∈ listeners w) (serials w) /\
  Forall (fun s => (s < created w)%nat) (listeners w).

(** The class lists after [el.classList.add(token)] and after a call of
    the observer's callback. *)
Definition add_class (el : Elem) (token : string) (cls : gmap Elem (list string))
  : gmap Elem (list string) :=
  if decide (token ∈ default [] (cls !! el)) then cls
  else <[el := default [] (cls !! el) ++ [token]]> cls.

Fixpoint reveal_classes (entries : list Entry) (cls : gmap Elem (list string))
  : gmap Elem (list string) :=
  match entries with
  | [] => cls
  | entry :: rest =>
      reveal_classes rest
        (if isIntersecting entry then add_class (target entry) "visible" cls else cls)
  end.

(** The observer after [observe] was called on each of [cards] in turn. *)
Definition observe_targets (cards : list Elem) (o : Observer) : Observer :=
  fold_left (fun o card => add_target card o) cards o.

(** The elements [document.querySelectorAll('.trip-card')] returns. *)
Definition trip_cards (w : World) : list Elem :=
  filter (fun el => "trip-card" ∈ classList_of w el) (document_order w).

(** A state with two hearts floating. *)
Definition sample_world : World :=
  mkWorld (sample_page 1024) [20%nat; 21%nat; 22%nat]
          (list_to_map [(20%nat, ["trip-card"]); (21%nat, ["hero"]); (22%nat, ["trip-card"])])
          [(SpawnHeart (node 9%nat), 800)] 2%nat
          [mkHeartNode 9%nat 0%nat (heart_at sample_rand 0);
           mkHeartNode 9%nat 1%nat (heart_at sample_rand 5)]
          [0%nat; 1%nat] [].

(** The slot sets [startCountdowns] builds on a page. *)
Definition wedding_slots (p : Page) : Obj :=
  [("days", found p "wDays"); ("hours", found p "wHours");
   ("minutes", found p "wMinutes"); ("seconds", found p "wSeconds")].

Definition usa_slots_of (p : Page) : Obj :=
  [("days", found p "uDays"); ("hours", found p "uHours"); ("minutes", found p "uMinutes")].

Definition dolomites_slots_of (p : Page) : Obj :=
  [("days", found p "dDays"); ("hours", found p "dHours"); ("minutes", found p "dMinutes")].

(** The writes of the first round of updates on a page. *)
Definition first_round (now_w now_u now_d : Z) (p : Page) : list (Elem * string) :=
  countdown_writes now_w WEDDING_DATE (wedding_slots p) ++
  countdown_writes now_u USA_DATE (usa_slots_of p) ++
  countdown_writes now_d DOLOMITES_DATE (dolomites_slots_of p).

(** * Properties *)

(** ** Strings and numerals *)

Lemma append_nil (s : string) : "" +:+ s = s.
Proof. reflexivity. Qed.

Lemma append_cons (c : ascii) (s t : string) : String c s +:+ t = String c (s +:+ t).
Proof. reflexivity. Qed.

Lemma append_assoc (a b c : string) : (a +:+ b) +:+ c = a +:+ (b +:+ c).
Proof.
  induction a as [|x a IH]; [reflexivity|].
  now rewrite !append_cons, IH.
Qed.

Lemma length_append (a b : string) :
  String.length (a +:+ b) = (String.length a + String.length b)%nat.
Proof.
  induction a as [|x a IH]; [reflexivity|].
  rewrite append_cons. simpl. now rewrite IH.
Qed.

Lemma digits_aux_app (fuel : nat) : forall n acc,
  digits_aux fuel n acc = digits_aux fuel n "" +:+ acc.
Proof.
  induction fuel as [|fuel IH]; intros n acc; simpl; [reflexivity|].
  destruct (n <? 10); [reflexivity|].
  rewrite (IH _ (String _ acc)), (IH _ (String _ "")).
  now rewrite append_assoc.
Qed.

Lemma digits_aux_nonempty (fuel : nat) (n : Z) (acc : string) :
  (String.length acc < String.length (digits_aux (S fuel) n acc))%nat.
Proof.
  revert n acc. induction fuel as [|fuel IH]; intros n acc.
  - simpl. destruct (n <? 10); simpl; lia.
  - change (digits_aux (S (S fuel)) n acc) with
      (if n <? 10 then String (digit_char (n mod 10)) acc
       else digits_aux (S fuel) (n / 10) (String (digit_char (n mod 10)) acc)).
    destruct (n <? 10); [simpl; lia|].
    specialize (IH (n / 10) (String (digit_char (n mod 10)) acc)).
    simpl String.length in IH at 1. lia.
Qed.

Lemma digit_val_char (d : Z) : 0 <= d <= 9 -> digit_val (digit_char d) = d.
Proof.
  intros Hd. unfold digit_val, digit_char.
  rewrite nat_ascii_embedding by lia. lia.
Qed.

Lemma is_digit_char (d : Z) : 0 <= d <= 9 -> is_digit (digit_char d) = true.
Proof.
  intros Hd. unfold is_digit, digit_char.
  rewrite nat_ascii_embedding by lia.
  apply andb_true_intro; split; apply Nat.leb_le; lia.
Qed.

Lemma parse_from_app (s t : string) : forall v,
  parse_from v (s +:+ t) = parse_from (parse_from v s) t.
Proof.
  induction s as [|c s IH]; intros v; [reflexivity|].
  rewrite append_cons. cbn [parse_from]. apply IH.
Qed.

Lemma all_digits_app (s t : string) :
  all_digits (s +:+ t) = all_digits s && all_digits t.
Proof.
  induction s as [|c s IH]; [reflexivity|].
  rewrite append_cons. cbn [all_digits]. rewrite IH. now rewrite andb_assoc.
Qed.

(** With enough fuel the numeral reads back as the number and consists
    of digits only. *)
Lemma digits_aux_correct (fuel : nat) : forall n,
  0 <= n < 2 ^ Z.of_nat fuel ->
  parse_decimal (digits_aux fuel n "") = n /\
  all_digits (digits_aux fuel n "") = true.
Proof.
  induction fuel as [|fuel IH]; intros n Hn.
  - change (2 ^ Z.of_nat 0) with 1 in Hn. assert (n = 0) by lia. subst n. now split.
  - simpl digits_aux. destruct (n <? 10) eqn:E.
    + apply Z.ltb_lt in E. rewrite Z.mod_small by lia.
      unfold parse_decimal; cbn [parse_from all_digits].
      rewrite digit_val_char, is_digit_char by lia. now split.
    + apply Z.ltb_ge in E. rewrite digits_aux_app.
      assert (Hq : 0 <= n / 10 < 2 ^ Z.of_nat fuel).
      { rewrite Nat2Z.inj_succ, Z.pow_succ_r in Hn by lia.
        split; [apply Z.div_pos; lia|].
        apply Z.div_lt_upper_bound; lia. }
      destruct (IH _ Hq) as [Hp Ha].
      assert (Hm : 0 <= n mod 10 <= 9) by (pose proof (Z.mod_pos_bound n 10); lia).
      unfold parse_decimal in *. rewrite parse_from_app, Hp, all_digits_app, Ha.
      cbn [parse_from all_digits andb]. rewrite digit_val_char, is_digit_char by lia.
      split; [|reflexivity].
      pose proof (Z.div_mod n 10). lia.
Qed.

Lemma digits_fuel (n : Z) : 0 <= n -> n < 2 ^ Z.of_nat (S (Z.to_nat (Z.log2 n))).
Proof.
  intros Hn. rewrite Nat2Z.inj_succ, Z2Nat.id by apply Z.log2_nonneg.
  destruct (Z.eq_dec n 0) as [->|Hne]; [reflexivity|].
  apply Z.log2_spec. lia.
Qed.

Lemma parse_digits (n : Z) : 0 <= n -> parse_decimal (digits n) = n.
Proof. intros Hn. apply digits_aux_correct. split; [lia | now apply digits_fuel]. Qed.

Lemma all_digits_digits (n : Z) : 0 <= n -> all_digits (digits n) = true.
Proof. intros Hn. apply digits_aux_correct. split; [lia | now apply digits_fuel]. Qed.

Lemma digits_one (n : Z) : 0 <= n <= 9 -> digits n = String (digit_char n) "".
Proof.
  intros Hn. unfold digits. simpl digits_aux.
  destruct (n <? 10) eqn:E; [|apply Z.ltb_ge in E; lia].
  now rewrite Z.mod_small by lia.
Qed.

Lemma digits_two (n : Z) : 10 <= n <= 99 ->
  digits n = String (digit_char (n / 10)) (String (digit_char (n mod 10)) "").
Proof.
  intros Hn. unfold digits.
  assert (Hl : 3 <= Z.log2 n) by (apply Z.log2_le_pow2; simpl; lia).
  destruct (Z.to_nat (Z.log2 n)) as [|k] eqn:Ek; [lia|].
  simpl digits_aux.
  destruct (n <? 10) eqn:E; [apply Z.ltb_lt in E; lia|].
  destruct (n / 10 <? 10) eqn:E2.
  - rewrite (Z.mod_small (n / 10)); [reflexivity|].
    split; [apply Z.div_pos; lia | apply Z.ltb_lt in E2; lia].
  - apply Z.ltb_ge in E2.
    assert (n / 10 < 10) by (apply Z.div_lt_upper_bound; lia). lia.
Qed.

Lemma digits_length_ge (n : Z) : 10 <= n -> (2 <= String.length (digits n))%nat.
Proof.
  intros Hn. unfold digits.
  assert (Hl : 3 <= Z.log2 n) by (apply Z.log2_le_pow2; simpl; lia).
  destruct (Z.to_nat (Z.log2 n)) as [|k] eqn:Ek; [lia|].
  change (digits_aux (S (S k)) n "") with
    (if n <? 10 then String (digit_char (n mod 10)) ""
     else digits_aux (S k) (n / 10) (String (digit_char (n mod 10)) "")).
  destruct (n <? 10) eqn:E; [apply Z.ltb_lt in E; lia|].
  pose proof (digits_aux_nonempty k (n / 10) (String (digit_char (n mod 10)) "")) as H.
  simpl String.length in H at 1. lia.
Qed.

Lemma padStart_long (n : nat) (fill s : string) :
  (n <= String.length s)%nat -> padStart n fill s = s.
Proof. intros H. unfold padStart. now apply Nat.leb_le in H as ->. Qed.

Lemma padStart_one (c : ascii) : padStart 2 "0" (String c "") = String "0" (String c "").
Proof. reflexivity. Qed.

(** ** Running the renderer *)

Lemma seq_normal {A B} (m : JS A) (k : JS B) (a : A) (p p' : Page) :
  m p = Normal a p' -> (m ;; k) p = k p'.
Proof. intros H. unfold mbind, JS_bind. now rewrite H. Qed.

Lemma bind_normal {A B} (m : JS A) (k : A -> JS B) (a : A) (p p' : Page) :
  m p = Normal a p' -> (m ≫= k) p = k a p'.
Proof. intros H. unfold mbind, JS_bind. now rewrite H. Qed.

Lemma apply_writes_app (a b : list (Elem * string)) : forall p,
  apply_writes (a ++ b) p = apply_writes b (apply_writes a p).
Proof.
  induction a as [|[el s] a IH]; intros p; [reflexivity|].
  simpl. apply IH.
Qed.

(** A guarded assignment never throws: it performs the write when the
    slot holds an element and nothing otherwise. *)
Lemma when_set_textContent (v : Value) (s : string) (p : Page) :
  when (truthy v) (set_textContent v s) p = Normal tt (apply_writes (slot_write v s) p).
Proof. destruct v; reflexivity. Qed.

Lemma forEach_elapsed (vs : list Value) : forall p,
  forEach vs (fun el => when (truthy el) (set_textContent el marker)) p =
  Normal tt (apply_writes (flat_map (fun v => slot_write v marker) vs) p).
Proof.
  induction vs as [|v vs IH]; intros p; [reflexivity|].
  cbn [forEach flat_map].
  rewrite (seq_normal _ _ _ _ _ (when_set_textContent v marker p)).
  now rewrite IH, apply_writes_app.
Qed.

Lemma updateCountdown_run (now : Z) (targetDate : Number) (elements : Obj) (p : Page) :
  updateCountdown now targetDate elements p =
  Normal tt (apply_writes (countdown_writes now targetDate elements) p).
Proof.
  unfold updateCountdown, countdown_writes.
  destruct (Nle0 (Nsub targetDate (Int now))).
  - apply forEach_elapsed.
  - unfold numeric_writes.
    rewrite (seq_normal _ _ _ _ _ (when_set_textContent _ _ _)).
    rewrite (seq_normal _ _ _ _ _ (when_set_textContent _ _ _)).
    rewrite (seq_normal _ _ _ _ _ (when_set_textContent _ _ _)).
    rewrite when_set_textContent.
    now rewrite !apply_writes_app.
Qed.

(** What a list of writes does to the page. *)
Lemma apply_writes_trace (w : list (Elem * string)) : forall p,
  trace (apply_writes w p) = trace p ++ map text_event w.
Proof.
  induction w as [|[el s] w IH]; intros p; simpl.
  - now rewrite app_nil_r.
  - rewrite IH. simpl. now rewrite <- app_assoc.
Qed.

Lemma apply_writes_frame (w : list (Elem * string)) : forall p,
  ids (apply_writes w p) = ids p /\
  innerWidth (apply_writes w p) = innerWidth p /\
  src (apply_writes w p) = src p /\
  childNodes (apply_writes w p) = childNodes p /\
  draws (apply_writes w p) = draws p.
Proof.
  induction w as [|[el s] w IH]; intros p; simpl; [tauto|].
  destruct (IH (write_text el s p)) as (-> & -> & -> & -> & ->). tauto.
Qed.

Lemma apply_writes_text (w : list (Elem * string)) (el : Elem) : forall p,
  textContent (apply_writes w p) !! el =
  match last_write el w with
  | Some s => Some s
  | None => textContent p !! el
  end.
Proof.
  induction w as [|[e s] w IH]; intros p; simpl; [reflexivity|].
  rewrite IH. destruct (last_write el w); [reflexivity|].
  simpl. destruct (decide (e = el)) as [->|Hne].
  - apply lookup_insert_eq.
  - now apply lookup_insert_ne.
Qed.

Lemma last_write_None (el : Elem) (w : list (Elem * string)) :
  el ∉ map fst w -> last_write el w = None.
Proof.
  induction w as [|[e s] w IH]; intros Hn; simpl; [reflexivity|].
  simpl in Hn. rewrite not_elem_of_cons in Hn. destruct Hn as [Hne Hn].
  rewrite (IH Hn). destruct (decide (e = el)); congruence.
Qed.

Lemma last_write_const (el : Elem) (t : string) (w : list (Elem * string)) :
  Forall (fun x => x.2 = t) w -> el ∈ map fst w -> last_write el w = Some t.
Proof.
  induction w as [|[e s] w IH]; intros Hall Hin; simpl in *.
  - now apply elem_of_nil in Hin.
  - apply Forall_cons in Hall as [Hs Hall]. simpl in Hs. subst s.
    destruct (decide (el ∈ map fst w)) as [Hw|Hw].
    + now rewrite (IH Hall Hw).
    + rewrite (last_write_None _ _ Hw).
      apply elem_of_cons in Hin as [->|Hin]; [|contradiction].
      now destruct (decide (e = e)).
Qed.

(** Writing the same list again changes no text. *)
Lemma apply_writes_twice (w : list (Elem * string)) (p : Page) :
  textContent (apply_writes w (apply_writes w p)) = textContent (apply_writes w p).
Proof.
  apply map_eq; intros el. rewrite !apply_writes_text.
  now destruct (last_write el w).
Qed.

(** ** Slot sets *)

Lemma get_elem_of (elements : Obj) (k : string) (el : Elem) :
  get elements k = node el -> (k, node el) ∈ elements.
Proof.
  induction elements as [|[k' v] rest IH]; simpl; [discriminate|].
  destruct (decide (k' = k)) as [->|Hne]; intros H.
  - subst v. apply list_elem_of_here.
  - apply list_elem_of_further. now apply IH.
Qed.

Lemma elem_of_present (elements : Obj) (el : Elem) :
  el ∈ present elements <-> exists k, (k, node el) ∈ elements.
Proof.
  unfold present, Object_values. split.
  - intros H. apply list_elem_of_In, in_flat_map in H as (v & Hv & Hel).
    apply in_map_iff in Hv as ([k v'] & <- & Hin). simpl in Hel.
    destruct v' as [| |e]; simpl in Hel; try contradiction.
    destruct Hel as [->|[]]. exists k. now apply list_elem_of_In.
  - intros [k Hk]. apply list_elem_of_In, in_flat_map.
    exists (node el). split; [|now left].
    apply in_map_iff. exists (k, node el). split; [reflexivity|].
    now apply list_elem_of_In.
Qed.

Lemma elapsed_writes_present (elements : Obj) :
  elapsed_writes elements = map (fun el => (el, marker)) (present elements).
Proof.
  unfold elapsed_writes, present.
  induction (Object_values elements) as [|v vs IH]; [reflexivity|].
  simpl. rewrite IH, map_app. now destruct v.
Qed.

Lemma elapsed_events (elements : Obj) :
  map text_event (elapsed_writes elements) =
  map (fun el => SetTextContent el marker) (present elements).
Proof. rewrite elapsed_writes_present, map_map. reflexivity. Qed.

Lemma elapsed_targets (elements : Obj) :
  map fst (elapsed_writes elements) = present elements.
Proof. rewrite elapsed_writes_present, map_map. simpl. apply map_id. Qed.

Lemma elapsed_texts (elements : Obj) :
  Forall (fun x => x.2 = marker) (elapsed_writes elements).
Proof.
  rewrite elapsed_writes_present. apply Forall_forall.
  intros x Hx. apply list_elem_of_In, in_map_iff in Hx as (el & <- & _). reflexivity.
Qed.

Lemma slot_write_elem (v : Value) (s t : string) (el : Elem) :
  (el, t) ∈ slot_write v s -> v = node el /\ t = s.
Proof.
  destruct v as [| |e]; simpl; intros H.
  - now apply elem_of_nil in H.
  - now apply elem_of_nil in H.
  - apply list_elem_of_singleton in H. now inversion H.
Qed.

Lemma numeric_writes_elem (elements : Obj) (td th tm ts t : string) (el : Elem) :
  (el, t) ∈ numeric_writes elements td th tm ts ->
  exists k, k ∈ unit_names /\ get elements k = node el.
Proof.
  unfold numeric_writes, unit_names. rewrite !elem_of_app.
  intros [H|[H|[H|H]]]; apply slot_write_elem in H as [H _]; eexists; (split; [|exact H]);
    repeat first [apply list_elem_of_here | apply list_elem_of_further].
Qed.

(** Every write of a call goes to an element the slot set holds. *)
Lemma countdown_writes_present (now : Z) (targetDate : Number) (elements : Obj)
      (el : Elem) (t : string) :
  (el, t) ∈ countdown_writes now targetDate elements -> el ∈ present elements.
Proof.
  unfold countdown_writes. destruct (Nle0 _); intros H.
  - rewrite <- elapsed_targets. apply list_elem_of_In, in_map_iff.
    exists (el, t). split; [reflexivity | now apply list_elem_of_In].
  - apply numeric_writes_elem in H as (k & _ & Hk).
    apply elem_of_present. exists k. now apply get_elem_of.
Qed.

Lemma untouched_text (w : list (Elem * string)) (el : Elem) (p : Page) :
  (forall t, (el, t) ∉ w) -> textContent (apply_writes w p) !! el = textContent p !! el.
Proof.
  intros H. rewrite apply_writes_text, last_write_None; [reflexivity|].
  intros Hin. apply list_elem_of_In, in_map_iff in Hin as ([e t] & <- & Hin).
  apply (H t). now apply list_elem_of_In.
Qed.

(** ** Formatting of the components *)

Lemma fmt_one_digit (v : Z) : 0 <= v <= 9 ->
  padStart 2 "0" (ToString (Int v)) = String "0" (String (digit_char v) "").
Proof.
  intros Hv. unfold ToString.
  destruct (v <? 0) eqn:E; [apply Z.ltb_lt in E; lia|].
  now rewrite digits_one.
Qed.

Lemma fmt_wide (v : Z) : 10 <= v -> padStart 2 "0" (ToString (Int v)) = digits v.
Proof.
  intros Hv. unfold ToString.
  destruct (v <? 0) eqn:E; [apply Z.ltb_lt in E; lia|].
  apply padStart_long. now apply digits_length_ge.
Qed.

Lemma fmt_length_two (v : Z) : 0 <= v <= 99 ->
  String.length (padStart 2 "0" (ToString (Int v))) = 2%nat.
Proof.
  intros Hv. destruct (Z_lt_le_dec v 10).
  - now rewrite fmt_one_digit by lia.
  - rewrite fmt_wide, digits_two by lia. reflexivity.
Qed.

Lemma fmt_length_ge (v : Z) : 0 <= v ->
  (2 <= String.length (padStart 2 "0" (ToString (Int v))))%nat.
Proof.
  intros Hv. destruct (Z_lt_le_dec v 10).
  - rewrite fmt_one_digit by lia. simpl. lia.
  - rewrite fmt_wide by lia. now apply digits_length_ge.
Qed.

Lemma fmt_parse (v : Z) : 0 <= v ->
  parse_decimal (padStart 2 "0" (ToString (Int v))) = v.
Proof.
  intros Hv. destruct (Z_lt_le_dec v 10).
  - rewrite fmt_one_digit by lia. unfold parse_decimal. cbn [parse_from].
    rewrite digit_val_char by lia. change (digit_val "0") with 0. lia.
  - rewrite fmt_wide by lia. now apply parse_digits.
Qed.

Lemma fmt_all_digits (v : Z) : 0 <= v ->
  all_digits (padStart 2 "0" (ToString (Int v))) = true.
Proof.
  intros Hv. destruct (Z_lt_le_dec v 10).
  - rewrite fmt_one_digit by lia. cbn [all_digits].
    rewrite is_digit_char by lia. reflexivity.
  - rewrite fmt_wide by lia. now apply all_digits_digits.
Qed.

(** The first character of whatever the numeric branch writes is a plain
    ASCII character: a digit, the sign, or the N of NaN. *)
Lemma ToString_head (x : Number) :
  exists c rest, ToString x = String c rest /\ (nat_of_ascii c < 128)%nat.
Proof.
  destruct x as [|z]; simpl.
  - exists "N"%char, "aN". split; [reflexivity | vm_compute; lia].
  - destruct (z <? 0) eqn:E.
    + exists "-"%char, (digits (- z)). split; [reflexivity | vm_compute; lia].
    + apply Z.ltb_ge in E.
      pose proof (all_digits_digits z E) as Ha.
      pose proof (digits_aux_nonempty (Z.to_nat (Z.log2 z)) z "") as Hl.
      fold (digits z) in Hl.
      destruct (digits z) as [|c rest]; [simpl in Hl; lia|].
      exists c, rest. split; [reflexivity|].
      cbn [all_digits] in Ha. apply andb_prop in Ha as [Hd _].
      unfold is_digit in Hd. apply andb_prop in Hd as [_ Hd].
      apply Nat.leb_le in Hd. lia.
Qed.

Lemma padStart_head (c : ascii) (rest : string) :
  exists c' rest', padStart 2 "0" (String c rest) = String c' rest' /\
                   (c' = c \/ c' = "0"%char).
Proof.
  destruct rest as [|c2 rest].
  - exists "0"%char, (String c ""). split; [reflexivity | now right].
  - exists c, (String c2 rest). split; [reflexivity | now left].
Qed.

(** The completion marker is not the rendering of any number. *)
Lemma marker_not_number (x : Number) : padStart 2 "0" (ToString x) <> marker.
Proof.
  destruct (ToString_head x) as (c & rest & -> & Hc).
  destruct (padStart_head c rest) as (c' & rest' & -> & Hc').
  unfold marker. intros H. injection H as H _.
  destruct Hc' as [->| ->]; [|discriminate].
  subst c. vm_compute in Hc. lia.
Qed.

(** ** The claims about the countdown renderer *)

Lemma components_pos (diff : Z) : 0 < diff ->
  days (Int diff) = Int (diff / 86400000) /\
  hours (Int diff) = Int (diff mod 86400000 / 3600000) /\
  minutes (Int diff) = Int (diff mod 3600000 / 60000) /\
  seconds (Int diff) = Int (diff mod 60000 / 1000).
Proof.
  intros Hd. unfold days, hours, minutes, seconds, Math_floor_div, Nrem.
  change MS_DAY with 86400000. change MS_HOUR with 3600000. change MS_MINUTE with 60000.
  rewrite !Z.rem_mod_nonneg by lia. repeat split; reflexivity.
Qed.

Lemma components_bounds (diff : Z) : 0 < diff ->
  0 <= diff / 86400000 /\
  0 <= diff mod 86400000 / 3600000 <= 23 /\
  0 <= diff mod 3600000 / 60000 <= 59 /\
  0 <= diff mod 60000 / 1000 <= 59 /\
  0 <= diff - (diff / 86400000 * 86400000 + diff mod 86400000 / 3600000 * 3600000
               + diff mod 3600000 / 60000 * 60000 + diff mod 60000 / 1000 * 1000) < 1000.
Proof. intros Hd. Z.div_mod_to_equations. lia. Qed.

Lemma numeric_branch (now target : Z) (elements : Obj) (p : Page) :
  now < target ->
  updateCountdown now (Int target) elements p =
  Normal tt (apply_writes
    (numeric_writes elements
       (padStart 2 "0" (ToString (Int ((target - now) / 86400000))))
       (padStart 2 "0" (ToString (Int ((target - now) mod 86400000 / 3600000))))
       (padStart 2 "0" (ToString (Int ((target - now) mod 3600000 / 60000))))
       (padStart 2 "0" (ToString (Int ((target - now) mod 60000 / 1000))))) p).
Proof.
  intros Hlt. rewrite updateCountdown_run. unfold countdown_writes.
  cbn [Nsub Nle0].
  destruct (target - now <=? 0) eqn:E; [apply Z.leb_le in E; lia|].
  destruct (components_pos (target - now)) as (-> & -> & -> & ->); [lia|].
  reflexivity.
Qed.

Lemma elapsed_branch (now target : Z) (elements : Obj) (p : Page) :
  target <= now ->
  updateCountdown now (Int target) elements p =
  Normal tt (apply_writes (elapsed_writes elements) p).
Proof.
  intros Hle. rewrite updateCountdown_run. unfold countdown_writes.
  cbn [Nsub Nle0].
  destruct (target - now <=? 0) eqn:E; [reflexivity | apply Z.leb_gt in E; lia].
Qed.

(** C1. For every target instant strictly after the sampled current time,
    one call of the renderer computes four integers: days (non-negative),
    hours in [0,23], minutes in [0,59] and seconds in [0,59], obtained from
    diff = target - now by floor division and the moduli of 24 hours, one
    hour and one minute; days*86400000 + hours*3600000 + minutes*60000 +
    seconds*1000 is at most diff and less than one second below it.  These
    are the values the call formats and writes. *)
Theorem C1_decomposition (now target : Z) (elements : Obj) (p : Page) :
  now < target ->
  exists d h m s : Z,
    days (Nsub (Int target) (Int now)) = Int d /\
    hours (Nsub (Int target) (Int now)) = Int h /\
    minutes (Nsub (Int target) (Int now)) = Int m /\
    seconds (Nsub (Int target) (Int now)) = Int s /\
    d = (target - now) / 86400000 /\
    h = (target - now) mod 86400000 / 3600000 /\
    m = (target - now) mod 3600000 / 60000 /\
    s = (target - now) mod 60000 / 1000 /\
    0 <= d /\ 0 <= h <= 23 /\ 0 <= m <= 59 /\ 0 <= s <= 59 /\
    0 <= (target - now) - (d * 86400000 + h * 3600000 + m * 60000 + s * 1000) < 1000 /\
    updateCountdown now (Int target) elements p =
    Normal tt (apply_writes
      (numeric_writes elements
         (padStart 2 "0" (ToString (Int d))) (padStart 2 "0" (ToString (Int h)))
         (padStart 2 "0" (ToString (Int m))) (padStart 2 "0" (ToString (Int s)))) p).
Proof.
  intros Hlt.
  assert (Hpos : 0 < target - now) by lia.
  destruct (components_pos _ Hpos) as (Hd & Hh & Hm & Hs).
  destruct (components_bounds _ Hpos) as (Bd & Bh & Bm & Bs & Br).
  exists ((target - now) / 86400000), ((target - now) mod 86400000 / 3600000),
         ((target - now) mod 3600000 / 60000), ((target - now) mod 60000 / 1000).
  cbn [Nsub].
  repeat (split; [first [assumption | reflexivity | lia]|]).
  now apply numeric_branch.
Qed.

Lemma C1_decomposition_witness :
  0 < 90061000 /\
  exists d h m s : Z,
    days (Nsub (Int 90061000) (Int 0)) = Int d /\
    hours (Nsub (Int 90061000) (Int 0)) = Int h /\
    minutes (Nsub (Int 90061000) (Int 0)) = Int m /\
    seconds (Nsub (Int 90061000) (Int 0)) = Int s /\
    d = (90061000 - 0) / 86400000 /\
    h = (90061000 - 0) mod 86400000 / 3600000 /\
    m = (90061000 - 0) mod 3600000 / 60000 /\
    s = (90061000 - 0) mod 60000 / 1000 /\
    0 <= d /\ 0 <= h <= 23 /\ 0 <= m <= 59 /\ 0 <= s <= 59 /\
    0 <= (90061000 - 0) - (d * 86400000 + h * 3600000 + m * 60000 + s * 1000) < 1000 /\
    updateCountdown 0 (Int 90061000) full_slots (blank_page 1024) =
    Normal tt (apply_writes
      (numeric_writes full_slots
         (padStart 2 "0" (ToString (Int d))) (padStart 2 "0" (ToString (Int h)))
         (padStart 2 "0" (ToString (Int m))) (padStart 2 "0" (ToString (Int s))))
      (blank_page 1024)).
Proof.
  split; [lia|].
  apply (C1_decomposition 0 90061000 full_slots (blank_page 1024)). lia.
Defined.

(** C2. For every target instant at or before the sampled current time
    (diff <= 0, equality included), one call returns normally, its writes
    are exactly one assignment of the completion marker per element held by
    the slot set, every such element then shows the marker, no other
    element changes, and the marker is not the rendering of any number. *)
Theorem C2_elapsed (now target : Z) (elements : Obj) (p : Page) :
  target <= now ->
  exists p',
    updateCountdown now (Int target) elements p = Normal tt p' /\
    trace p' = trace p ++ map (fun el => SetTextContent el marker) (present elements) /\
    (forall k el, (k, node el) ∈ elements -> textContent p' !! el = Some marker) /\
    (forall el, el ∉ present elements -> textContent p' !! el = textContent p !! el) /\
    (forall x : Number, padStart 2 "0" (ToString x) <> marker).
Proof.
  intros Hle. eexists. split; [now apply elapsed_branch|].
  split; [|split; [|split]].
  - now rewrite apply_writes_trace, elapsed_events.
  - intros k el Hin. rewrite apply_writes_text.
    rewrite (last_write_const el marker); [reflexivity | apply elapsed_texts |].
    rewrite elapsed_targets. apply elem_of_present. now exists k.
  - intros el Hn. rewrite apply_writes_text, last_write_None; [reflexivity|].
    now rewrite elapsed_targets.
  - apply marker_not_number.
Qed.

Lemma C2_elapsed_witness :
  7000 <= 7000 /\
  exists p',
    updateCountdown 7000 (Int 7000) unwired_slots (blank_page 1024) = Normal tt p' /\
    trace p' = trace (blank_page 1024) ++
               map (fun el => SetTextContent el marker) (present unwired_slots) /\
    (forall k el, (k, node el) ∈ unwired_slots -> textContent p' !! el = Some marker) /\
    (forall el, el ∉ present unwired_slots ->
                textContent p' !! el = textContent (blank_page 1024) !! el) /\
    (forall x : Number, padStart 2 "0" (ToString x) <> marker).
Proof.
  split; [lia|].
  apply (C2_elapsed 7000 7000 unwired_slots (blank_page 1024)). lia.
Defined.

(** C3. For every positive remaining duration the hours, minutes and
    seconds are written as exactly two characters, a component in [0,9] as
    "0" followed by its digit; the days are written with at least two
    characters, zero-padded below 10 and as their full decimal numeral from
    10 on, so that reading the written text back gives the component. *)
Theorem C3_formatting (now target : Z) (elements : Obj) (p : Page) :
  now < target ->
  exists (d h m s : Z) (td th tm ts : string),
    days (Nsub (Int target) (Int now)) = Int d /\
    hours (Nsub (Int target) (Int now)) = Int h /\
    minutes (Nsub (Int target) (Int now)) = Int m /\
    seconds (Nsub (Int target) (Int now)) = Int s /\
    updateCountdown now (Int target) elements p =
      Normal tt (apply_writes (numeric_writes elements td th tm ts) p) /\
    String.length th = 2%nat /\ String.length tm = 2%nat /\ String.length ts = 2%nat /\
    (h <= 9 -> th = String "0" (String (digit_char h) "")) /\
    (m <= 9 -> tm = String "0" (String (digit_char m) "")) /\
    (s <= 9 -> ts = String "0" (String (digit_char s) "")) /\
    (h = 5 -> th = "05") /\
    (2 <= String.length td)%nat /\
    (d <= 9 -> td = String "0" (String (digit_char d) "")) /\
    (10 <= d -> td = digits d) /\
    (d = 123 -> td = "123") /\
    all_digits td = true /\
    parse_decimal td = d /\ parse_decimal th = h /\
    parse_decimal tm = m /\ parse_decimal ts = s.
Proof.
  intros Hlt.
  assert (Hpos : 0 < target - now) by lia.
  destruct (components_pos _ Hpos) as (Hd & Hh & Hm & Hs).
  destruct (components_bounds _ Hpos) as (Bd & Bh & Bm & Bs & _).
  eexists _, _, _, _, _, _, _, _. cbn [Nsub].
  do 4 (split; [eassumption|]).
  split; [now apply numeric_branch|].
  repeat match goal with |- _ /\ _ => split end.
  - apply fmt_length_two; lia.
  - apply fmt_length_two; lia.
  - apply fmt_length_two; lia.
  - intros ?. apply fmt_one_digit; lia.
  - intros ?. apply fmt_one_digit; lia.
  - intros ?. apply fmt_one_digit; lia.
  - intros ->. reflexivity.
  - now apply fmt_length_ge.
  - intros ?. apply fmt_one_digit; lia.
  - intros ?. now apply fmt_wide.
  - intros ->. reflexivity.
  - now apply fmt_all_digits.
  - now apply fmt_parse.
  - apply fmt_parse; lia.
  - apply fmt_parse; lia.
  - apply fmt_parse; lia.
Qed.

Lemma C3_formatting_witness :
  0 < 10645200000 /\
  exists (d h m s : Z) (td th tm ts : string),
    days (Nsub (Int 10645200000) (Int 0)) = Int d /\
    hours (Nsub (Int 10645200000) (Int 0)) = Int h /\
    minutes (Nsub (Int 10645200000) (Int 0)) = Int m /\
    seconds (Nsub (Int 10645200000) (Int 0)) = Int s /\
    updateCountdown 0 (Int 10645200000) full_slots (blank_page 1024) =
      Normal tt (apply_writes (numeric_writes full_slots td th tm ts) (blank_page 1024)) /\
    String.length th = 2%nat /\ String.length tm = 2%nat /\ String.length ts = 2%nat /\
    (h <= 9 -> th = String "0" (String (digit_char h) "")) /\
    (m <= 9 -> tm = String "0" (String (digit_char m) "")) /\
    (s <= 9 -> ts = String "0" (String (digit_char s) "")) /\
    (h = 5 -> th = "05") /\
    (2 <= String.length td)%nat /\
    (d <= 9 -> td = String "0" (String (digit_char d) "")) /\
    (10 <= d -> td = digits d) /\
    (d = 123 -> td = "123") /\
    all_digits td = true /\
    parse_decimal td = d /\ parse_decimal th = h /\
    parse_decimal tm = m /\ parse_decimal ts = s.
Proof.
  split; [lia|].
  apply (C3_formatting 0 10645200000 full_slots (blank_page 1024)). lia.
Defined.

(** C4. For every target instant (an invalid one included) and every slot
    set, wired in full or in part, a call returns normally; each of its
    writes goes to an element the slot set holds, and every element the
    slot set does not hold keeps its text, in the elapsed branch as in the
    numeric one.  Nothing but text is written. *)
Theorem C4_partial_slots (now : Z) (targetDate : Number) (elements : Obj) (p : Page) :
  exists w p',
    updateCountdown now targetDate elements p = Normal tt p' /\
    trace p' = trace p ++ map text_event w /\
    (forall el t, (el, t) ∈ w -> exists k, (k, node el) ∈ elements) /\
    (forall el, (forall k, (k, node el) ∉ elements) ->
                textContent p' !! el = textContent p !! el) /\
    src p' = src p /\ childNodes p' = childNodes p /\ ids p' = ids p.
Proof.
  exists (countdown_writes now targetDate elements). eexists.
  split; [apply updateCountdown_run|].
  split; [apply apply_writes_trace|].
  split; [|split].
  - intros el t Hin. apply elem_of_present. eapply countdown_writes_present, Hin.
  - intros el Hn. apply untouched_text. intros t Hin.
    apply countdown_writes_present, elem_of_present in Hin as [k Hk].
    now apply (Hn k).
  - destruct (apply_writes_frame (countdown_writes now targetDate elements) p)
      as (Hi & _ & Hs & Hc & _). auto.
Qed.

(** ** Repeated calls *)

Lemma renders_elapsed (target : Z) (elements : Obj) (nows : list Z) : forall p,
  Forall (fun n => target <= n) nows ->
  renders nows (Int target) elements p =
  Normal tt (apply_writes (concat (map (fun _ => elapsed_writes elements) nows)) p).
Proof.
  unfold renders. induction nows as [|n nows IH]; intros p Hall; [reflexivity|].
  apply Forall_cons in Hall as [Hn Hall].
  cbn [forEach map concat].
  rewrite (seq_normal _ _ _ _ _ (elapsed_branch n target elements p Hn)).
  now rewrite IH, apply_writes_app.
Qed.

Lemma repeated_elapsed_writes (elements : Obj) (nows : list Z) :
  Forall (fun x => x.2 = marker) (concat (map (fun _ => elapsed_writes elements) nows)) /\
  (forall el, el ∈ map fst (concat (map (fun _ => elapsed_writes elements) nows)) ->
              el ∈ present elements).
Proof.
  induction nows as [|n nows [IH1 IH2]]; cbn [map concat].
  - split; [constructor|]. intros el H. now apply elem_of_nil in H.
  - split.
    + apply Forall_app. split; [apply elapsed_texts | exact IH1].
    + intros el. rewrite map_app, elem_of_app, elapsed_targets. intros [H|H]; auto.
Qed.

(** Marker writes to elements that already show the marker change no text. *)
Lemma marker_writes_stable (w : list (Elem * string)) (p : Page) :
  Forall (fun x => x.2 = marker) w ->
  (forall el, el ∈ map fst w -> textContent p !! el = Some marker) ->
  textContent (apply_writes w p) = textContent p.
Proof.
  intros Hall Hshown. apply map_eq; intros el. rewrite apply_writes_text.
  destruct (decide (el ∈ map fst w)) as [Hin|Hn].
  - rewrite (last_write_const el marker w Hall Hin). symmetry. now apply Hshown.
  - now rewrite (last_write_None el w Hn).
Qed.

Lemma elapsed_shows_marker (elements : Obj) (p : Page) (el : Elem) :
  el ∈ present elements ->
  textContent (apply_writes (elapsed_writes elements) p) !! el = Some marker.
Proof.
  intros Hin. rewrite apply_writes_text.
  rewrite (last_write_const el marker); [reflexivity | apply elapsed_texts |].
  now rewrite elapsed_targets.
Qed.

(** C5. Once a call has found the target instant passed, every later call
    for the same event (clock samples at or after that one) returns
    normally and again assigns the completion marker to every element of
    the slot set and nothing else; the displayed texts stay as the first
    elapsed call left them. *)
Theorem C5_terminal (now1 : Z) (nows : list Z) (target : Z) (elements : Obj) (p : Page) :
  target <= now1 ->
  Forall (fun n => now1 <= n) nows ->
  exists p1 p',
    updateCountdown now1 (Int target) elements p = Normal tt p1 /\
    renders nows (Int target) elements p1 = Normal tt p' /\
    trace p' = trace p1 ++
      concat (map (fun _ => map (fun el => SetTextContent el marker) (present elements)) nows) /\
    textContent p' = textContent p1 /\
    (forall k el, (k, node el) ∈ elements -> textContent p' !! el = Some marker).
Proof.
  intros Hle Hlater.
  assert (Hall : Forall (fun n => target <= n) nows).
  { eapply Forall_impl; [exact Hlater | intros n Hn; simpl in *; lia]. }
  destruct (repeated_elapsed_writes elements nows) as [Hm Ht].
  assert (Hstable : textContent
            (apply_writes (concat (map (fun _ => elapsed_writes elements) nows))
               (apply_writes (elapsed_writes elements) p)) =
          textContent (apply_writes (elapsed_writes elements) p)).
  { apply marker_writes_stable; [exact Hm|].
    intros el Hin. apply elapsed_shows_marker. now apply Ht. }
  eexists _, _. split; [now apply elapsed_branch|].
  split; [now apply renders_elapsed|].
  split; [|split].
  - rewrite apply_writes_trace. f_equal.
    clear. induction nows as [|n nows IH]; [reflexivity|].
    cbn [map concat]. now rewrite map_app, elapsed_events, IH.
  - exact Hstable.
  - intros k el Hin. rewrite Hstable. apply elapsed_shows_marker.
    apply elem_of_present. now exists k.
Qed.

Lemma C5_terminal_witness :
  7000 <= 7000 /\
  Forall (fun n => 7000 <= n) [8000; 9000; 9000] /\
  exists p1 p',
    updateCountdown 7000 (Int 7000) full_slots (blank_page 1024) = Normal tt p1 /\
    renders [8000; 9000; 9000] (Int 7000) full_slots p1 = Normal tt p' /\
    trace p' = trace p1 ++
      concat (map (fun _ => map (fun el => SetTextContent el marker) (present full_slots))
                  [8000; 9000; 9000]) /\
    textContent p' = textContent p1 /\
    (forall k el, (k, node el) ∈ full_slots -> textContent p' !! el = Some marker).
Proof.
  assert (H : Forall (fun n => 7000 <= n) [8000; 9000; 9000])
    by (repeat constructor; lia).
  split; [lia|]. split; [exact H|].
  apply (C5_terminal 7000 [8000; 9000; 9000] 7000 full_slots (blank_page 1024)); [lia | exact H].
Defined.

(** C6. For every target instant and slot set, two calls with the same
    clock sample return normally and perform the same list of writes; the
    second call leaves every text as the first one set it. *)
Theorem C6_same_sample (now : Z) (targetDate : Number) (elements : Obj) (p : Page) :
  exists w p1 p2,
    updateCountdown now targetDate elements p = Normal tt p1 /\
    updateCountdown now targetDate elements p1 = Normal tt p2 /\
    trace p1 = trace p ++ map text_event w /\
    trace p2 = trace p1 ++ map text_event w /\
    textContent p2 = textContent p1.
Proof.
  exists (countdown_writes now targetDate elements). eexists. eexists.
  split; [apply updateCountdown_run|].
  split; [apply updateCountdown_run|].
  split; [apply apply_writes_trace|].
  split; [apply apply_writes_trace | apply apply_writes_twice].
Qed.

(** C9. The two branches have different footprints.  Before the target
    instant a call writes only to the elements held under the names days,
    hours, minutes and seconds, and an element held under no one of these
    names keeps its text; at or after the target instant a call assigns the
    completion marker to the element of every entry of the slot set,
    whatever its key. *)
Theorem C9_footprints (now1 now2 target : Z) (elements : Obj) (p : Page) :
  now1 < target ->
  target <= now2 ->
  (exists w p1,
     updateCountdown now1 (Int target) elements p = Normal tt p1 /\
     trace p1 = trace p ++ map text_event w /\
     (forall el t, (el, t) ∈ w -> exists k, k ∈ unit_names /\ get elements k = node el) /\
     (forall el, (forall k, k ∈ unit_names -> get elements k <> node el) ->
                 textContent p1 !! el = textContent p !! el)) /\
  (exists w p2,
     updateCountdown now2 (Int target) elements p = Normal tt p2 /\
     trace p2 = trace p ++ map text_event w /\
     (forall k el, (k, node el) ∈ elements ->
                   (el, marker) ∈ w /\ textContent p2 !! el = Some marker)).
Proof.
  intros Hlt Hle. split.
  - eexists. eexists. split; [now apply numeric_branch|].
    split; [apply apply_writes_trace|]. split.
    + intros el t Hin. eapply numeric_writes_elem, Hin.
    + intros el Hn. apply untouched_text. intros t Hin.
      apply numeric_writes_elem in Hin as (k & Hk & Hg). now apply (Hn k).
  - exists (elapsed_writes elements). eexists.
    split; [now apply elapsed_branch|].
    split; [apply apply_writes_trace|].
    intros k el Hin.
    assert (Hp : el ∈ present elements) by (apply elem_of_present; now exists k).
    split; [|now apply elapsed_shows_marker].
    rewrite elapsed_writes_present. apply list_elem_of_In, in_map_iff.
    exists el. split; [reflexivity | now apply list_elem_of_In].
Qed.

Lemma C9_footprints_witness :
  0 < 90061000 /\
  90061000 <= 90061000 /\
  (exists w p1,
     updateCountdown 0 (Int 90061000) extra_slots (blank_page 1024) = Normal tt p1 /\
     trace p1 = trace (blank_page 1024) ++ map text_event w /\
     (forall el t, (el, t) ∈ w -> exists k, k ∈ unit_names /\ get extra_slots k = node el) /\
     (forall el, (forall k, k ∈ unit_names -> get extra_slots k <> node el) ->
                 textContent p1 !! el = textContent (blank_page 1024) !! el)) /\
  (exists w p2,
     updateCountdown 90061000 (Int 90061000) extra_slots (blank_page 1024) = Normal tt p2 /\
     trace p2 = trace (blank_page 1024) ++ map text_event w /\
     (forall k el, (k, node el) ∈ extra_slots ->
                   (el, marker) ∈ w /\ textContent p2 !! el = Some marker)).
Proof.
  split; [lia|]. split; [lia|].
  apply (C9_footprints 0 90061000 90061000 extra_slots (blank_page 1024)); lia.
Defined.

(** ** The particle generator *)

Lemma seq_throw {A B} (m : JS A) (k : JS B) (e : Error) (p p' : Page) :
  m p = Throw e p' -> (m ;; k) p = Throw e p'.
Proof. intros H. unfold mbind, JS_bind. now rewrite H. Qed.

Lemma bind_throw {A B} (m : JS A) (k : A -> JS B) (e : Error) (p p' : Page) :
  m p = Throw e p' -> (m ≫= k) p = Throw e p'.
Proof. intros H. unfold mbind, JS_bind. now rewrite H. Qed.

Lemma new_particle_run (rand : nat -> Q) (p : Page) :
  new_particle rand p = Normal (particle_at rand (draws p)) (advance 7 p).
Proof.
  unfold new_particle, particle_at, advance, mbind, JS_bind, mret, JS_ret, Math_random.
  cbn [draws ids innerWidth textContent src childNodes trace].
  repeat f_equal; lia.
Qed.

Lemma getElementById_run (id : string) (p : Page) :
  getElementById id p =
  Normal (match ids p !! id with Some el => node el | None => null end) p.
Proof. reflexivity. Qed.

Lemma loop_attached (rand : nat -> Q) (c : Elem) (count : nat) : forall start p,
  forEach (seq start count)
    (fun _ : nat => particle ← new_particle rand; appendChild (node c) particle) p =
  Normal tt (attach rand c count p).
Proof.
  induction count as [|count IH]; intros start p; [reflexivity|].
  cbn [seq forEach attach].
  erewrite seq_normal; [apply IH|].
  erewrite bind_normal; [|apply new_particle_run]. reflexivity.
Qed.

Lemma attach_draws (rand : nat -> Q) (c : Elem) (count : nat) : forall p,
  draws (attach rand c count p) = (draws p + 7 * count)%nat.
Proof.
  induction count as [|count IH]; intros p; cbn [attach]; [lia|].
  rewrite IH. simpl. lia.
Qed.

Lemma attach_trace (rand : nat -> Q) (c : Elem) (count : nat) : forall p,
  trace (attach rand c count p) =
  trace p ++ map (AppendChild c) (particles_from rand (draws p) count).
Proof.
  induction count as [|count IH]; intros p; cbn [attach particles_from map].
  - now rewrite app_nil_r.
  - rewrite IH. simpl. now rewrite <- app_assoc.
Qed.

Lemma attach_children (rand : nat -> Q) (c : Elem) (count : nat) : forall p,
  default [] (childNodes (attach rand c count p) !! c) =
  default [] (childNodes p !! c) ++ particles_from rand (draws p) count.
Proof.
  induction count as [|count IH]; intros p; cbn [attach particles_from].
  - now rewrite app_nil_r.
  - rewrite IH. simpl. rewrite lookup_insert_eq. simpl. now rewrite <- app_assoc.
Qed.

Lemma attach_frame (rand : nat -> Q) (c : Elem) (count : nat) : forall p,
  ids (attach rand c count p) = ids p /\
  innerWidth (attach rand c count p) = innerWidth p /\
  textContent (attach rand c count p) = textContent p /\
  src (attach rand c count p) = src p /\
  (forall c', c' <> c -> childNodes (attach rand c count p) !! c' = childNodes p !! c').
Proof.
  induction count as [|count IH]; intros p; cbn [attach]; [tauto|].
  destruct (IH (push_child c (particle_at rand (draws p)) (advance 7 p)))
    as (-> & -> & -> & -> & Hc).
  repeat split; try reflexivity.
  intros c' Hne. rewrite (Hc c' Hne). simpl. now apply lookup_insert_ne.
Qed.

Lemma particles_from_length (rand : nat -> Q) (count : nat) : forall start,
  length (particles_from rand start count) = count.
Proof.
  induction count as [|count IH]; intros start; simpl; [reflexivity | now rewrite IH].
Qed.

Lemma particles_from_lookup (rand : nat -> Q) (count : nat) : forall start i,
  (i < count)%nat ->
  particles_from rand start count !! i = Some (particle_at rand (start + 7 * i)).
Proof.
  induction count as [|count IH]; intros start i Hi; [lia|].
  destruct i as [|i]; cbn [particles_from].
  - simpl. do 2 f_equal. lia.
  - change ((?x :: ?l) !! S i) with (l !! i).
    rewrite IH by lia. do 2 f_equal. lia.
Qed.

Lemma createParticles_present (rand : nat -> Q) (p : Page) (c : Elem) :
  ids p !! "particles" = Some c ->
  createParticles rand p = Normal tt (attach rand c (particle_count (innerWidth p)) p).
Proof.
  intros Hc. unfold createParticles.
  erewrite bind_normal; [|apply getElementById_run]. rewrite Hc.
  erewrite bind_normal; [|reflexivity].
  unfold for_loop. apply loop_attached.
Qed.

Lemma createParticles_absent (rand : nat -> Q) (p : Page) :
  ids p !! "particles" = None ->
  createParticles rand p =
  Throw (TypeError "Cannot read properties of null (reading 'appendChild')") (advance 7 p).
Proof.
  intros Hc. unfold createParticles.
  erewrite bind_normal; [|apply getElementById_run]. rewrite Hc.
  erewrite bind_normal; [|reflexivity].
  unfold for_loop, particle_count.
  destruct (innerWidth p <? 768); cbn [seq forEach];
    (apply seq_throw; erewrite bind_normal; [|apply new_particle_run]; reflexivity).
Qed.

(** C8. With the container on the page, the generator returns normally and
    appends, in order, one "particle" element per iteration, each built
    from its own seven draws (position, size, timing, opacity, colour);
    the number of iterations is fixed by the viewport width, 30 below 768
    and 60 from 768 on, so a narrow viewport gets strictly fewer elements
    than a wide one. *)
Theorem C8_particle_count (rand : nat -> Q) (p1 p2 : Page) (c1 c2 : Elem) :
  ids p1 !! "particles" = Some c1 ->
  ids p2 !! "particles" = Some c2 ->
  innerWidth p1 < 768 ->
  768 <= innerWidth p2 ->
  exists (q1 q2 : Page) (l1 l2 : list Particle),
    createParticles rand p1 = Normal tt q1 /\
    createParticles rand p2 = Normal tt q2 /\
    l1 = particles_from rand (draws p1) (particle_count (innerWidth p1)) /\
    l2 = particles_from rand (draws p2) (particle_count (innerWidth p2)) /\
    trace q1 = trace p1 ++ map (AppendChild c1) l1 /\
    trace q2 = trace p2 ++ map (AppendChild c2) l2 /\
    default [] (childNodes q1 !! c1) = default [] (childNodes p1 !! c1) ++ l1 /\
    default [] (childNodes q2 !! c2) = default [] (childNodes p2 !! c2) ++ l2 /\
    (forall i, (i < length l1)%nat -> l1 !! i = Some (particle_at rand (draws p1 + 7 * i))) /\
    (forall i, (i < length l2)%nat -> l2 !! i = Some (particle_at rand (draws p2 + 7 * i))) /\
    length l1 = 30%nat /\ length l2 = 60%nat /\
    (length l1 < length l2)%nat.
Proof.
  intros Hc1 Hc2 Hw1 Hw2.
  assert (Hn1 : particle_count (innerWidth p1) = 30%nat).
  { unfold particle_count. destruct (innerWidth p1 <? 768) eqn:E; [reflexivity|].
    apply Z.ltb_ge in E. lia. }
  assert (Hn2 : particle_count (innerWidth p2) = 60%nat).
  { unfold particle_count. destruct (innerWidth p2 <? 768) eqn:E; [|reflexivity].
    apply Z.ltb_lt in E. lia. }
  eexists _, _, _, _.
  split; [exact (createParticles_present rand p1 c1 Hc1)|].
  split; [exact (createParticles_present rand p2 c2 Hc2)|].
  split; [reflexivity|]. split; [reflexivity|].
  split; [apply attach_trace|]. split; [apply attach_trace|].
  split; [apply attach_children|]. split; [apply attach_children|].
  rewrite !particles_from_length, Hn1, Hn2.
  split; [intros i Hi; now apply particles_from_lookup|].
  split; [intros i Hi; now apply particles_from_lookup|].
  repeat split; lia.
Qed.

Lemma C8_particle_count_witness :
  ids (sample_page 375) !! "particles" = Some 9%nat /\
  ids (sample_page 1280) !! "particles" = Some 9%nat /\
  innerWidth (sample_page 375) < 768 /\
  768 <= innerWidth (sample_page 1280) /\
  exists (q1 q2 : Page) (l1 l2 : list Particle),
    createParticles sample_rand (sample_page 375) = Normal tt q1 /\
    createParticles sample_rand (sample_page 1280) = Normal tt q2 /\
    l1 = particles_from sample_rand (draws (sample_page 375))
           (particle_count (innerWidth (sample_page 375))) /\
    l2 = particles_from sample_rand (draws (sample_page 1280))
           (particle_count (innerWidth (sample_page 1280))) /\
    trace q1 = trace (sample_page 375) ++ map (AppendChild 9%nat) l1 /\
    trace q2 = trace (sample_page 1280) ++ map (AppendChild 9%nat) l2 /\
    default [] (childNodes q1 !! 9%nat) =
      default [] (childNodes (sample_page 375) !! 9%nat) ++ l1 /\
    default [] (childNodes q2 !! 9%nat) =
      default [] (childNodes (sample_page 1280) !! 9%nat) ++ l2 /\
    (forall i, (i < length l1)%nat ->
               l1 !! i = Some (particle_at sample_rand (draws (sample_page 375) + 7 * i))) /\
    (forall i, (i < length l2)%nat ->
               l2 !! i = Some (particle_at sample_rand (draws (sample_page 1280) + 7 * i))) /\
    length l1 = 30%nat /\ length l2 = 60%nat /\
    (length l1 < length l2)%nat.
Proof.
  split; [reflexivity|]. split; [reflexivity|].
  split; [simpl; lia|]. split; [simpl; lia|].
  apply (C8_particle_count sample_rand (sample_page 375) (sample_page 1280) 9%nat 9%nat);
    [reflexivity | reflexivity | simpl; lia | simpl; lia].
Defined.

(** Without the container the width makes no difference: on a narrow and
    on a wide viewport alike the generator builds one element (seven
    draws), attaches none and throws. *)
Lemma C8_particle_count_counterexample :
  innerWidth (blank_page 375) < 768 /\ 768 <= innerWidth (blank_page 1280) /\
  is_normal (createParticles sample_rand (blank_page 375)) = false /\
  is_normal (createParticles sample_rand (blank_page 1280)) = false /\
  draws (page_of (createParticles sample_rand (blank_page 375))) = 7%nat /\
  draws (page_of (createParticles sample_rand (blank_page 1280))) = 7%nat /\
  childNodes (page_of (createParticles sample_rand (blank_page 375))) = ∅ /\
  childNodes (page_of (createParticles sample_rand (blank_page 1280))) = ∅ /\
  trace_of (createParticles sample_rand (blank_page 375)) = [] /\
  trace_of (createParticles sample_rand (blank_page 1280)) = [].
Proof.
  rewrite !createParticles_absent by reflexivity.
  cbn [is_normal page_of trace_of]. repeat split; cbn; lia.
Qed.

(** ** The cache bust *)

Lemma when_set_src (v : Value) (s : string) (p : Page) :
  when (truthy v) (set_src v s) p =
  Normal tt (match v with node el => write_src el s p | _ => p end).
Proof. destruct v; reflexivity. Qed.

(** One call of the cache bust, on any page and under any rendering of
    the time: it returns normally and assigns the two fixed URLs, with
    the part of the rendering before the "T" appended after "?v=", to the
    [src] of the images "usaImage" and "dolomitesImage", each only if it
    is on the page, and to nothing else. *)
Lemma bustImageCache_writes (toISOString : Z -> string) (now : Z) (p : Page) :
  exists p',
    bustImageCache toISOString now p = Normal tt p' /\
    trace p' = trace p ++
      img_write p "usaImage"
        ("images/usa-honeymoon.png?v=" +:+ split_head "T" (toISOString now)) ++
      img_write p "dolomitesImage"
        ("images/dolomites-minimoon.png?v=" +:+ split_head "T" (toISOString now)) /\
    (forall el, ids p !! "dolomitesImage" = Some el ->
       src p' !! el =
       Some ("images/dolomites-minimoon.png?v=" +:+ split_head "T" (toISOString now))) /\
    (forall el, ids p !! "usaImage" = Some el -> ids p !! "dolomitesImage" <> Some el ->
       src p' !! el =
       Some ("images/usa-honeymoon.png?v=" +:+ split_head "T" (toISOString now))) /\
    (forall el, ids p !! "usaImage" <> Some el -> ids p !! "dolomitesImage" <> Some el ->
       src p' !! el = src p !! el) /\
    textContent p' = textContent p /\ childNodes p' = childNodes p /\ ids p' = ids p.
Proof.
  unfold bustImageCache, img_write.
  eexists. split.
  { erewrite bind_normal; [|apply getElementById_run].
    erewrite bind_normal; [|apply getElementById_run].
    erewrite seq_normal; [|apply when_set_src].
    apply when_set_src. }
  destruct (ids p !! "usaImage") as [u|] eqn:Eu;
    destruct (ids p !! "dolomitesImage") as [d|] eqn:Ed; cbn.
  - split; [now rewrite <- app_assoc|]. split; [|split; [|split]].
    + intros el [= ->]. apply lookup_insert_eq.
    + intros el [= ->] Hne. rewrite lookup_insert_ne by congruence. apply lookup_insert_eq.
    + intros el H1 H2. rewrite !lookup_insert_ne by congruence. reflexivity.
    + auto.
  - split; [reflexivity|]. split; [|split; [|split]].
    + intros el [=].
    + intros el [= ->] _. apply lookup_insert_eq.
    + intros el H1 _. rewrite lookup_insert_ne by congruence. reflexivity.
    + auto.
  - split; [reflexivity|]. split; [|split; [|split]].
    + intros el [= ->]. apply lookup_insert_eq.
    + intros el [=].
    + intros el _ H2. rewrite lookup_insert_ne by congruence. reflexivity.
    + auto.
  - split; [now rewrite app_nil_r|]. split; [|split; [|split]].
    + intros el [=].
    + intros el [=].
    + reflexivity.
    + auto.
Qed.

(** C10. Without the container on the page the generator throws: the
    first iteration builds its element and then fails on
    [appendChild] of [null], with nothing attached or written.  On the
    same page the renderer and the cache bust return normally. *)
Theorem C10_particles_unguarded (rand : nat -> Q) (p : Page) :
  ids p !! "particles" = None ->
  (exists msg p',
     createParticles rand p = Throw (TypeError msg) p' /\
     childNodes p' = childNodes p /\ trace p' = trace p /\
     textContent p' = textContent p /\ src p' = src p) /\
  (forall now targetDate elements,
     exists q, updateCountdown now targetDate elements p = Normal tt q) /\
  (forall toISOString now,
     exists q, bustImageCache toISOString now p = Normal tt q).
Proof.
  intros Hc. split; [|split].
  - eexists _, _. split; [now apply createParticles_absent|]. auto.
  - intros now targetDate elements. eexists. apply updateCountdown_run.
  - intros toISOString now. eexists. unfold bustImageCache.
    erewrite bind_normal; [|apply getElementById_run].
    erewrite bind_normal; [|apply getElementById_run].
    erewrite seq_normal; [|apply when_set_src].
    apply when_set_src.
Qed.

Lemma C10_particles_unguarded_witness :
  ids (blank_page 1024) !! "particles" = None /\
  (exists msg p',
     createParticles sample_rand (blank_page 1024) = Throw (TypeError msg) p' /\
     childNodes p' = childNodes (blank_page 1024) /\ trace p' = trace (blank_page 1024) /\
     textContent p' = textContent (blank_page 1024) /\ src p' = src (blank_page 1024)) /\
  (forall now targetDate elements,
     exists q, updateCountdown now targetDate elements (blank_page 1024) = Normal tt q) /\
  (forall toISOString now,
     exists q, bustImageCache toISOString now (blank_page 1024) = Normal tt q).
Proof.
  split; [reflexivity|].
  apply (C10_particles_unguarded sample_rand (blank_page 1024)). reflexivity.
Defined.

(** ** The date token under the reference rendering *)

Lemma digits_aux_all_digits (fuel : nat) : forall n acc,
  all_digits acc = true -> all_digits (digits_aux fuel n acc) = true.
Proof.
  induction fuel as [|fuel IH]; intros n acc Hacc; [exact Hacc|].
  assert (Hstep : all_digits (String (digit_char (n mod 10)) acc) = true).
  { cbn [all_digits]. rewrite is_digit_char, Hacc; [reflexivity|].
    pose proof (Z.mod_pos_bound n 10). lia. }
  cbn [digits_aux]. destruct (n <? 10); [exact Hstep | now apply IH].
Qed.

Lemma fill_to_zero (k : nat) : forall cur,
  all_digits cur = true -> all_digits (fill_to k cur "0") = true.
Proof.
  induction k as [|k IH]; intros cur Hcur; [reflexivity|].
  destruct cur as [|c rest]; cbn [fill_to all_digits] in *.
  - change (is_digit "0") with true. now rewrite (IH ""%string).
  - apply andb_prop in Hcur as [-> Hrest]. now rewrite (IH rest Hrest).
Qed.

Lemma pad0_all_digits (n : nat) (v : Z) : all_digits (pad0 n v) = true.
Proof.
  unfold pad0, padStart.
  assert (Hd : all_digits (digits v) = true) by now apply digits_aux_all_digits.
  destruct (n <=? String.length (digits v))%nat; [exact Hd|].
  rewrite all_digits_app, Hd. now rewrite fill_to_zero.
Qed.

Lemma all_digits_date_chars (s : string) : all_digits s = true -> date_chars s = true.
Proof.
  induction s as [|c s IH]; [reflexivity|]. cbn [all_digits date_chars].
  intros H. apply andb_prop in H as [-> Hs]. now rewrite IH.
Qed.

Lemma date_chars_app (s t : string) :
  date_chars (s +:+ t) = date_chars s && date_chars t.
Proof.
  induction s as [|c s IH]; [reflexivity|].
  rewrite append_cons. cbn [date_chars]. rewrite IH. now rewrite andb_assoc.
Qed.

Lemma iso_year_date_chars (y : Z) : date_chars (iso_year y) = true.
Proof.
  unfold iso_year.
  destruct ((0 <=? y) && (y <=? 9999)); [|destruct (y <? 0)].
  - apply all_digits_date_chars, pad0_all_digits.
  - cbn [date_chars]. now rewrite all_digits_date_chars by apply pad0_all_digits.
  - cbn [date_chars]. now rewrite all_digits_date_chars by apply pad0_all_digits.
Qed.

Lemma iso_date_chars (t : Z) : date_chars (iso_date t) = true.
Proof.
  unfold iso_date. destruct (civil_from_days (t / MS_DAY)) as [[y m] d].
  rewrite !date_chars_app, iso_year_date_chars.
  rewrite (all_digits_date_chars (pad0 2 m)), (all_digits_date_chars (pad0 2 d))
    by apply pad0_all_digits.
  reflexivity.
Qed.

Lemma split_head_date (s rest : string) :
  date_chars s = true -> split_head "T" (s +:+ String "T" rest) = s.
Proof.
  induction s as [|c s IH]; intros H.
  - rewrite append_nil. cbn [split_head]. now destruct (decide ("T"%char = "T"%char)).
  - rewrite append_cons. cbn [split_head date_chars] in *.
    apply andb_prop in H as [Hc Hs].
    destruct (decide (c = "T"%char)) as [->|_]; [discriminate Hc|].
    now rewrite IH.
Qed.

(** Under the reference rendering the token is the calendar date. *)
Lemma today_is_iso_date (t : Z) : split_head "T" (toISOString_utc t) = iso_date t.
Proof.
  pose proof (iso_date_chars t) as Hd. revert Hd.
  unfold toISOString_utc, iso_date.
  destruct (civil_from_days (t / MS_DAY)) as [[y m] d]. intros Hd.
  etransitivity; [|eapply split_head_date, Hd].
  rewrite !append_assoc. reflexivity.
Qed.

Lemma year_length (doe : Z) :
  0 <= doe <= 146096 ->
  let yoe := (doe - doe / 1460 + doe / 36524 - doe / 146096) / 365 in
  let doy := doe - (365 * yoe + yoe / 4 - yoe / 100) in
  0 <= yoe <= 399 /\ 0 <= doy <= 365 /\
  (doy = 365 -> (yoe + 1) mod 4 = 0 /\ ((yoe + 1) mod 100 <> 0 \/ (yoe + 1) mod 400 = 0)).
Proof. intros H. cbv zeta. Z.div_mod_to_equations. lia. Qed.

Lemma month_length (doy : Z) :
  0 <= doy <= 365 ->
  let mp := (5 * doy + 2) / 153 in
  let d := doy - (153 * mp + 2) / 5 + 1 in
  0 <= mp <= 11 /\ 1 <= d /\
  (mp = 11 -> d <= 28 \/ doy = 365 /\ d = 29) /\
  (mp = 1 \/ mp = 3 \/ mp = 6 \/ mp = 8 -> d <= 30) /\
  d <= 31.
Proof. intros H. cbv zeta. Z.div_mod_to_equations. lia. Qed.

Lemma leap_year (yoe era : Z) :
  (yoe + 1) mod 4 = 0 /\ ((yoe + 1) mod 100 <> 0 \/ (yoe + 1) mod 400 = 0) ->
  is_leap (yoe + era * 400 + 1) = true.
Proof.
  intros [H4 H]. unfold is_leap.
  assert (H4' : (yoe + era * 400 + 1) mod 4 = 0) by (Z.div_mod_to_equations; lia).
  rewrite H4', Z.eqb_refl, andb_true_l. apply orb_true_iff.
  destruct H as [H|H]; [left | right].
  - apply negb_true_iff, Z.eqb_neq. Z.div_mod_to_equations. lia.
  - apply Z.eqb_eq. Z.div_mod_to_equations. lia.
Qed.

Lemma civil_valid (z0 : Z) :
  let '(y, m, d) := civil_from_days z0 in 1 <= m <= 12 /\ 1 <= d <= days_in_month y m.
Proof.
  unfold civil_from_days.
  set (z := z0 + 719468). set (era := z / 146097). set (doe := z - era * 146097).
  assert (Hdoe : 0 <= doe <= 146096) by (unfold doe, era; Z.div_mod_to_equations; lia).
  clearbody doe. clearbody era. clear z.
  pose proof (year_length doe Hdoe) as Hy. cbv zeta in Hy.
  set (yoe := (doe - doe / 1460 + doe / 36524 - doe / 146096) / 365) in *.
  set (doy := doe - (365 * yoe + yoe / 4 - yoe / 100)) in *.
  destruct Hy as (Hyoe & Hdoy & Hleap).
  clearbody doy. clearbody yoe.
  pose proof (month_length doy Hdoy) as Hm. cbv zeta in Hm.
  set (mp := (5 * doy + 2) / 153) in *.
  set (d := doy - (153 * mp + 2) / 5 + 1) in *.
  destruct Hm as (Hmp & Hd1 & Hfeb & H30 & H31).
  clearbody d. clearbody mp. cbv zeta.
  unfold days_in_month.
  destruct (Z.ltb_spec mp 10) as [E|E].
  - split; [lia|]. split; [exact Hd1|].
    destruct (Z.eqb_spec (mp + 3) 2); [lia|].
    destruct (Z.eqb_spec (mp + 3) 4); [cbn [orb]; lia|].
    destruct (Z.eqb_spec (mp + 3) 6); [cbn [orb]; lia|].
    destruct (Z.eqb_spec (mp + 3) 9); [cbn [orb]; lia|].
    destruct (Z.eqb_spec (mp + 3) 11); [cbn [orb]; lia|].
    cbn [orb]. lia.
  - split; [lia|]. split; [exact Hd1|].
    destruct (Z.leb_spec (mp - 9) 2); [|lia].
    destruct (Z.eqb_spec (mp - 9) 2) as [E2|E2].
    + destruct Hfeb as [Hf|[Hf ->]]; [lia | destruct (is_leap _); lia |].
      rewrite leap_year by auto. lia.
    + destruct (Z.eqb_spec (mp - 9) 4); [lia|].
      destruct (Z.eqb_spec (mp - 9) 6); [lia|].
      destruct (Z.eqb_spec (mp - 9) 9); [lia|].
      destruct (Z.eqb_spec (mp - 9) 11); [lia|].
      cbn [orb]. lia.
Qed.

Lemma civil_round_trip (z0 : Z) :
  let '(y, m, d) := civil_from_days z0 in days_from_civil y m d = z0.
Proof.
  unfold civil_from_days, days_from_civil.
  set (z := z0 + 719468). set (era := z / 146097). set (doe := z - era * 146097).
  assert (Hdoe : 0 <= doe <= 146096) by (unfold doe, era; Z.div_mod_to_equations; lia).
  assert (Hz : z0 = era * 146097 + doe - 719468) by (unfold doe, z; lia).
  clearbody doe. clearbody era. clear z.
  set (yoe := (doe - doe / 1460 + doe / 36524 - doe / 146096) / 365).
  assert (Hyoe : 0 <= yoe <= 399) by (unfold yoe; Z.div_mod_to_equations; lia).
  set (doy := doe - (365 * yoe + yoe / 4 - yoe / 100)).
  assert (Hdoy : 0 <= doy <= 365).
  { unfold doy, yoe. Z.div_mod_to_equations. lia. }
  assert (Hdoe2 : doe = yoe * 365 + yoe / 4 - yoe / 100 + doy) by (unfold doy; lia).
  clearbody doy. clearbody yoe.
  set (mp := (5 * doy + 2) / 153).
  assert (Hmp : 0 <= mp <= 11) by (unfold mp; Z.div_mod_to_equations; lia).
  assert (Hd : (153 * mp + 2) / 5 + (doy - (153 * mp + 2) / 5 + 1) - 1 = doy) by lia.
  clearbody mp.
  destruct (mp <? 10) eqn:E.
  - apply Z.ltb_lt in E.
    destruct (mp + 3 <=? 2) eqn:E2; [apply Z.leb_le in E2; lia|].
    destruct (2 <? mp + 3) eqn:E3; [|apply Z.ltb_ge in E3; lia].
    replace (mp + 3 - 3) with mp by lia. rewrite Z.add_0_r.
    replace ((yoe + era * 400) / 400) with era by (Z.div_mod_to_equations; lia).
    replace (yoe + era * 400 - era * 400) with yoe by lia.
    lia.
  - apply Z.ltb_ge in E.
    destruct (mp - 9 <=? 2) eqn:E2; [|apply Z.leb_gt in E2; lia].
    destruct (2 <? mp - 9) eqn:E3; [apply Z.ltb_lt in E3; lia|].
    replace (mp - 9 + 9) with mp by lia.
    replace (yoe + era * 400 + 1 - 1) with (yoe + era * 400) by lia.
    replace ((yoe + era * 400) / 400) with era by (Z.div_mod_to_equations; lia).
    replace (yoe + era * 400 - era * 400) with yoe by lia.
    lia.
Qed.

(** The token of the cache bust is the calendar date of the current time. *)
Lemma today_is_calendar_date (t : Z) :
  calendar_date t (split_head "T" (toISOString_utc t)).
Proof.
  rewrite today_is_iso_date. unfold calendar_date, iso_date.
  pose proof (civil_valid (t / MS_DAY)) as Hv.
  pose proof (civil_round_trip (t / MS_DAY)) as Hr.
  destruct (civil_from_days (t / MS_DAY)) as [[y m] d].
  exists y, m, d. tauto.
Qed.

Lemma year_of_era (yoe doy : Z) :
  0 <= yoe <= 399 -> 0 <= doy <= 365 ->
  (doy = 365 -> (yoe + 1) mod 4 = 0 /\ ((yoe + 1) mod 100 <> 0 \/ (yoe + 1) mod 400 = 0)) ->
  let doe := yoe * 365 + yoe / 4 - yoe / 100 + doy in
  0 <= doe <= 146096 /\
  (doe - doe / 1460 + doe / 36524 - doe / 146096) / 365 = yoe.
Proof.
  intros Hy Hd Hl. cbv zeta. Z.div_mod_to_equations. lia.
Qed.

Lemma day_of_year (mp d : Z) :
  0 <= mp <= 11 -> 1 <= d <= 31 ->
  (mp = 1 \/ mp = 3 \/ mp = 6 \/ mp = 8 -> d <= 30) ->
  (mp = 11 -> d <= 29) ->
  let doy := (153 * mp + 2) / 5 + d - 1 in
  0 <= doy <= 365 /\ (doy = 365 -> mp = 11 /\ d = 29) /\ (5 * doy + 2) / 153 = mp.
Proof.
  intros Hmp Hd H30 H29. cbv zeta.
  assert (Hcases : mp = 0 \/ mp = 1 \/ mp = 2 \/ mp = 3 \/ mp = 4 \/ mp = 5 \/ mp = 6 \/
                   mp = 7 \/ mp = 8 \/ mp = 9 \/ mp = 10 \/ mp = 11) by lia.
  Z.div_mod_to_equations. lia.
Qed.

Lemma is_leap_spec (y : Z) :
  is_leap y = true <-> y mod 4 = 0 /\ (y mod 100 <> 0 \/ y mod 400 = 0).
Proof.
  unfold is_leap. rewrite andb_true_iff, orb_true_iff, negb_true_iff.
  rewrite !Z.eqb_eq, Z.eqb_neq. tauto.
Qed.

Lemma days_in_month_bounds (y m d : Z) :
  1 <= m <= 12 -> d <= days_in_month y m ->
  d <= 31 /\ (m = 4 \/ m = 6 \/ m = 9 \/ m = 11 -> d <= 30) /\
  (m = 2 -> d <= 29 /\ (d = 29 -> is_leap y = true)).
Proof.
  intros Hm. unfold days_in_month.
  destruct (Z.eqb_spec m 2) as [E2|E2].
  - destruct (is_leap y); intros H; repeat split; lia.
  - destruct (Z.eqb_spec m 4); [cbn [orb]; lia|].
    destruct (Z.eqb_spec m 6); [cbn [orb]; lia|].
    destruct (Z.eqb_spec m 9); [cbn [orb]; lia|].
    destruct (Z.eqb_spec m 11); [cbn [orb]; lia|].
    cbn [orb]. lia.
Qed.

(** A date is determined by its day number. *)
Lemma civil_unique (y m d : Z) :
  1 <= m <= 12 -> 1 <= d <= days_in_month y m ->
  civil_from_days (days_from_civil y m d) = (y, m, d).
Proof.
  intros Hm [Hd1 Hd2].
  destruct (days_in_month_bounds y m d Hm Hd2) as (H31 & H30 & Hfeb).
  unfold days_from_civil.
  set (y' := if m <=? 2 then y - 1 else y).
  set (era := y' / 400). set (yoe := y' - era * 400).
  set (mp := if 2 <? m then m - 3 else m + 9).
  assert (Hyoe : 0 <= yoe <= 399) by (unfold yoe, era; Z.div_mod_to_equations; lia).
  assert (Hmp : 0 <= mp <= 11 /\ (mp <= 9 -> m = mp + 3 /\ y' = y) /\
                (10 <= mp -> m = mp - 9 /\ y' = y - 1)).
  { unfold mp, y'. destruct (Z.ltb_spec 2 m), (Z.leb_spec m 2); lia. }
  destruct Hmp as (Hmp & Hlo & Hhi).
  assert (Hy' : y' = yoe + era * 400) by (unfold yoe; lia).
  clearbody mp. clearbody yoe. clearbody era. clearbody y'.
  assert (H30' : mp = 1 \/ mp = 3 \/ mp = 6 \/ mp = 8 -> d <= 30) by lia.
  assert (H29 : mp = 11 -> d <= 29) by lia.
  pose proof (day_of_year mp d Hmp (conj Hd1 H31) H30' H29) as Hdoy. cbv zeta in Hdoy.
  set (doy := (153 * mp + 2) / 5 + d - 1) in *.
  assert (Hd : doy - (153 * mp + 2) / 5 + 1 = d) by (unfold doy; lia).
  destruct Hdoy as (Hdoy & H365 & Hmpq).
  assert (Hleap : doy = 365 ->
            (yoe + 1) mod 4 = 0 /\ ((yoe + 1) mod 100 <> 0 \/ (yoe + 1) mod 400 = 0)).
  { intros E. destruct (H365 E) as [-> ->].
    destruct Hfeb as [_ Hl]; [lia|]. specialize (Hl eq_refl).
    apply is_leap_spec in Hl.
    replace y with (yoe + 1 + era * 400) in Hl by lia.
    Z.div_mod_to_equations. lia. }
  clearbody doy.
  pose proof (year_of_era yoe doy Hyoe Hdoy Hleap) as Hye. cbv zeta in Hye.
  set (doe := yoe * 365 + yoe / 4 - yoe / 100 + doy) in *.
  destruct Hye as (Hdoe & Hyoe').
  assert (Hdoy' : doe - (365 * yoe + yoe / 4 - yoe / 100) = doy) by (unfold doe; lia).
  clearbody doe.
  unfold civil_from_days.
  replace (era * 146097 + doe - 719468 + 719468) with (era * 146097 + doe) by lia.
  replace ((era * 146097 + doe) / 146097) with era
    by (clear - Hdoe; Z.div_mod_to_equations; lia).
  replace (era * 146097 + doe - era * 146097) with doe by lia.
  cbv zeta. rewrite Hyoe', Hdoy', Hmpq, Hd.
  clear - Hlo Hhi Hy' Hmp.
  destruct (Z.ltb_spec mp 10) as [E|E].
  - destruct (Hlo ltac:(lia)) as [Em Ey].
    destruct (Z.leb_spec (mp + 3) 2); [lia|].
    apply pair_equal_spec; split; [apply pair_equal_spec; split|]; lia.
  - destruct (Hhi E) as [Em Ey].
    destruct (Z.leb_spec (mp - 9) 2); [|lia].
    apply pair_equal_spec; split; [apply pair_equal_spec; split|]; lia.
Qed.

Lemma calendar_date_unique (t : Z) (s : string) : calendar_date t s <-> s = iso_date t.
Proof.
  split.
  - intros (y & m & d & Hm & Hd & Hday & ->).
    unfold iso_date. rewrite <- Hday, civil_unique by assumption. reflexivity.
  - intros ->. rewrite <- today_is_iso_date. apply today_is_calendar_date.
Qed.

Example day_numbers :
  days_from_civil 1970 1 1 = 0 /\ days_from_civil 2026 3 26 = 1774537200000 / MS_DAY /\
  days_from_civil 2024 2 29 + 1 = days_from_civil 2024 3 1 /\
  days_from_civil 1969 12 31 = -1.
Proof. repeat split. Qed.

(** ** Worked examples *)

(** One day, one hour, one minute and one second ahead. *)
Example scenario_ahead :
  trace_of (updateCountdown 1700000000000 (Int (1700000000000 + 90061000)) full_slots
              (blank_page 1024)) =
  [SetTextContent 1%nat "01"; SetTextContent 2%nat "01";
   SetTextContent 3%nat "01"; SetTextContent 4%nat "01"].
Proof. vm_compute. reflexivity. Qed.

(** Five seconds past the target. *)
Example scenario_past :
  trace_of (updateCountdown 1700000000000 (Int (1700000000000 - 5000)) full_slots
              (blank_page 1024)) =
  [SetTextContent 1%nat marker; SetTextContent 2%nat marker;
   SetTextContent 3%nat marker; SetTextContent 4%nat marker].
Proof. vm_compute. reflexivity. Qed.

(** Exactly at the target the marker is shown, not zeros. *)
Example scenario_boundary :
  trace_of (updateCountdown 7000 (Int 7000) full_slots (blank_page 1024)) =
  [SetTextContent 1%nat marker; SetTextContent 2%nat marker;
   SetTextContent 3%nat marker; SetTextContent 4%nat marker].
Proof. vm_compute. reflexivity. Qed.

(** One millisecond before the target all components are zero. *)
Example scenario_last_tick :
  trace_of (updateCountdown 6999 (Int 7000) full_slots (blank_page 1024)) =
  [SetTextContent 1%nat "00"; SetTextContent 2%nat "00";
   SetTextContent 3%nat "00"; SetTextContent 4%nat "00"].
Proof. vm_compute. reflexivity. Qed.

(** Only days and hours wired: the elements 3 and 4 receive nothing. *)
Example scenario_days_hours :
  let r := updateCountdown 0 (Int 10645200000) days_hours_slots (blank_page 1024) in
  is_normal r = true /\
  trace_of r = [SetTextContent 1%nat "123"; SetTextContent 2%nat "05"] /\
  shown r 3%nat = None /\ shown r 4%nat = None.
Proof. vm_compute. repeat split. Qed.

Example scenario_unwired_elapsed :
  let r := updateCountdown 10 (Int 5) unwired_slots (blank_page 1024) in
  is_normal r = true /\
  trace_of r = [SetTextContent 1%nat marker; SetTextContent 2%nat marker].
Proof. vm_compute. repeat split. Qed.

(** An invalid target date takes the numeric branch and shows "NaN". *)
Example scenario_invalid_date :
  trace_of (updateCountdown 10 NaN days_hours_slots (blank_page 1024)) =
  [SetTextContent 1%nat "NaN"; SetTextContent 2%nat "NaN"].
Proof. vm_compute. reflexivity. Qed.

(** A key outside the unit names is written only once the target passed. *)
Example scenario_extra_key :
  trace_of (updateCountdown 0 (Int 90061000) extra_slots (blank_page 1024)) =
    [SetTextContent 1%nat "01"] /\
  trace_of (updateCountdown 90061000 (Int 90061000) extra_slots (blank_page 1024)) =
    [SetTextContent 1%nat marker; SetTextContent 5%nat marker].
Proof. vm_compute. split; reflexivity. Qed.

(** The slot set of the second event on a page without its elements:
    three null slots, no write, no error. *)
Example scenario_usa_missing :
  let r := (els ← usaEls; updateCountdown 0 USA_DATE els) (sample_page 1024) in
  is_normal r = true /\ trace_of r = [].
Proof. vm_compute. split; reflexivity. Qed.

Example scenario_particles :
  length (trace_of (createParticles sample_rand (sample_page 767))) = 30%nat /\
  length (trace_of (createParticles sample_rand (sample_page 768))) = 60%nat /\
  is_normal (createParticles sample_rand (blank_page 768)) = false.
Proof. vm_compute. repeat split. Qed.

Example scenario_cache_bust :
  trace_of (bustImageCache toISOString_utc 1774537200000 (sample_page 1024)) =
  [SetSrc 10%nat "images/usa-honeymoon.png?v=2026-03-26";
   SetSrc 11%nat "images/dolomites-minimoon.png?v=2026-03-26"].
Proof. vm_compute. reflexivity. Qed.

Example scenario_cache_bust_no_images :
  let r := bustImageCache toISOString_utc 1774537200000 (blank_page 1024) in
  is_normal r = true /\ trace_of r = [].
Proof. vm_compute. split; reflexivity. Qed.

(** * Further properties of the script *)

(** ** Doubles *)

Lemma pow2_pos (k : Z) : (0 < pow2 k)%Q.
Proof. apply Qpower_0_lt. reflexivity. Qed.

Lemma pow2_add (a b : Z) : (pow2 (a + b) == pow2 a * pow2 b)%Q.
Proof. apply Qpower_plus. discriminate. Qed.

Lemma pow2_le (a b : Z) : a <= b -> (pow2 a <= pow2 b)%Q.
Proof. intros H. apply Qpower_le_compat_l; [exact H | discriminate]. Qed.

Lemma pow2_lt (a b : Z) : a < b -> (pow2 a < pow2 b)%Q.
Proof. intros H. apply Qpower_lt_compat_l; [exact H | reflexivity]. Qed.

Lemma pow2_lt_inv (a b : Z) : (pow2 a < pow2 b)%Q -> a < b.
Proof. intros H. eapply Qpower_lt_compat_l_inv; [exact H | reflexivity]. Qed.

Lemma pow2_Z (k : Z) : 0 <= k -> (pow2 k == inject_Z (2 ^ k))%Q.
Proof. intros H. unfold pow2. now rewrite (Zpower_Qpower 2 k H). Qed.

Lemma pow2_sub (a b : Z) : (pow2 (a - b) * pow2 b == pow2 a)%Q.
Proof. rewrite <- pow2_add. now replace (a - b + b) with a by lia. Qed.

(** [ilog2 x] is the binary exponent of a positive [x]. *)
Lemma ilog2_spec (x : Q) : (0 < x)%Q ->
  (pow2 (ilog2 x) <= x)%Q /\ (x < pow2 (ilog2 x + 1))%Q.
Proof.
  intros Hx. destruct x as [n d]. unfold ilog2. cbn [Qnum Qden].
  assert (Hn : 0 < n) by (unfold Qlt in Hx; simpl in Hx; lia).
  set (ln := Z.log2 n). set (ld := Z.log2 (Z.pos d)).
  assert (Hln : 0 <= ln) by apply Z.log2_nonneg.
  assert (Hld : 0 <= ld) by apply Z.log2_nonneg.
  destruct (Z.log2_spec n Hn) as [A1 A2]. fold ln in A1, A2.
  destruct (Z.log2_spec (Z.pos d) (Pos2Z.is_pos d)) as [B1 B2]. fold ld in B1, B2.
  rewrite <- Z.add_1_r in A2, B2.
  assert (P1 : 0 < 2 ^ ln) by (apply Z.pow_pos_nonneg; lia).
  assert (P2 : 0 < 2 ^ ld) by (apply Z.pow_pos_nonneg; lia).
  assert (U : ((n # d) < pow2 (ln - ld + 1))%Q).
  { apply (Qmult_lt_r _ _ (pow2 ld) (pow2_pos ld)).
    replace (ln - ld + 1) with (ln + 1 - ld) by lia.
    rewrite pow2_sub, !pow2_Z by lia.
    unfold Qlt, Qmult, inject_Z. cbn [Qnum Qden]. rewrite Pos.mul_1_r. nia. }
  assert (D : (pow2 (ln - ld - 1) <= (n # d))%Q).
  { apply (Qmult_le_r _ _ (pow2 (ld + 1)) (pow2_pos (ld + 1))).
    replace (ln - ld - 1) with (ln - (ld + 1)) by lia.
    rewrite pow2_sub, !pow2_Z by lia.
    unfold Qle, Qmult, inject_Z. cbn [Qnum Qden]. rewrite Pos.mul_1_r. nia. }
  destruct (Qle_bool (pow2 (ln - ld)) (n # d)) eqn:E.
  - apply Qle_bool_iff in E. split; [exact E | exact U].
  - split; [exact D|]. replace (ln - ld - 1 + 1) with (ln - ld) by lia.
    apply Qnot_le_lt. intros H. apply Qle_bool_iff in H. congruence.
Qed.

Lemma ilog2_unique (x : Q) (e : Z) :
  (pow2 e <= x)%Q -> (x < pow2 (e + 1))%Q -> ilog2 x = e.
Proof.
  intros H1 H2.
  assert (Hx : (0 < x)%Q) by (eapply Qlt_le_trans; [apply pow2_pos | exact H1]).
  destruct (ilog2_spec x Hx) as [S1 S2].
  assert (ilog2 x < e + 1) by (apply pow2_lt_inv; eapply Qle_lt_trans; eassumption).
  assert (e < ilog2 x + 1) by (apply pow2_lt_inv; eapply Qle_lt_trans; eassumption).
  lia.
Qed.

Lemma ilog2_mono (x y : Q) : (0 < x)%Q -> (x <= y)%Q -> ilog2 x <= ilog2 y.
Proof.
  intros Hx Hxy.
  assert (Hy : (0 < y)%Q) by (eapply Qlt_le_trans; eassumption).
  destruct (ilog2_spec x Hx) as [S1 _]. destruct (ilog2_spec y Hy) as [_ T2].
  assert (ilog2 x < ilog2 y + 1); [|lia].
  apply pow2_lt_inv. eapply Qle_lt_trans; [exact S1|].
  eapply Qle_lt_trans; eassumption.
Qed.

(** Rounding to the nearest integer, ties to even. *)
Lemma round_half_even_floor (m : Q) :
  Qfloor m <= round_half_even m <= Qfloor m + 1.
Proof.
  unfold round_half_even.
  destruct (m - inject_Z (Qfloor m) ?= 1 # 2)%Q; [destruct (Z.even (Qfloor m))| |]; lia.
Qed.

Lemma round_half_even_lower (m : Q) (N : Z) :
  (inject_Z N <= m)%Q -> N <= round_half_even m.
Proof.
  intros H. apply Qfloor_resp_le in H. rewrite Qfloor_Z in H.
  pose proof (round_half_even_floor m). lia.
Qed.

Lemma round_half_even_upper (m : Q) (N : Z) :
  (m <= inject_Z N)%Q -> round_half_even m <= N.
Proof.
  intros H. pose proof (Qfloor_resp_le _ _ H) as Hf. rewrite Qfloor_Z in Hf.
  destruct (Z.eq_dec (Qfloor m) N) as [E|E].
  - unfold round_half_even.
    destruct (Qcompare_spec (m - inject_Z (Qfloor m)) (1 # 2)) as [C|C|C].
    + rewrite E in C. lra.
    + lia.
    + rewrite E in C. lra.
  - pose proof (round_half_even_floor m). lia.
Qed.

Lemma round_half_even_mono (m m' : Q) :
  (m <= m')%Q -> round_half_even m <= round_half_even m'.
Proof.
  intros H. pose proof (Qfloor_resp_le _ _ H) as Hf.
  pose proof (round_half_even_floor m) as B. pose proof (round_half_even_floor m') as B'.
  destruct (Z.eq_dec (Qfloor m) (Qfloor m')) as [E|E]; [|lia].
  unfold round_half_even. rewrite <- E.
  destruct (Qcompare_spec (m - inject_Z (Qfloor m)) (1 # 2)) as [C|C|C];
    destruct (Qcompare_spec (m' - inject_Z (Qfloor m)) (1 # 2)) as [C'|C'|C'];
    try destruct (Z.even (Qfloor m)); try lia; lra.
Qed.

Lemma round64_pos_eq (x : Q) :
  (round64_pos x == inject_Z (round_half_even (x / pow2 (quantum x))) * pow2 (quantum x))%Q.
Proof. unfold round64_pos. apply Qred_correct. Qed.

Lemma round64_pos_nonneg (x : Q) : (0 <= x)%Q -> (0 <= round64_pos x)%Q.
Proof.
  intros Hx. rewrite round64_pos_eq.
  apply Qmult_le_0_compat; [|apply Qlt_le_weak, pow2_pos].
  change 0%Q with (inject_Z 0). rewrite <- Zle_Qle.
  apply round_half_even_lower. change (inject_Z 0) with 0%Q.
  apply Qle_shift_div_l; [apply pow2_pos|]. lra.
Qed.

Lemma round64_pos_mono (x y : Q) :
  (0 < x)%Q -> (x <= y)%Q -> (round64_pos x <= round64_pos y)%Q.
Proof.
  intros Hx Hxy.
  assert (Hy : (0 < y)%Q) by (eapply Qlt_le_trans; eassumption).
  pose proof (ilog2_mono x y Hx Hxy) as He.
  destruct (ilog2_spec x Hx) as [X1 X2]. destruct (ilog2_spec y Hy) as [Y1 Y2].
  rewrite !round64_pos_eq.
  destruct (Z.eq_dec (quantum x) (quantum y)) as [Eq|Nq].
  - rewrite Eq. apply Qmult_le_r; [apply pow2_pos|].
    rewrite <- Zle_Qle. apply round_half_even_mono.
    apply Qmult_le_r; [apply Qinv_lt_0_compat, pow2_pos | exact Hxy].
  - assert (Hq : quantum x < quantum y) by (unfold quantum in *; lia).
    assert (Hqy : quantum y = ilog2 y - 52) by (unfold quantum in *; lia).
    assert (Hex : ilog2 x + 1 <= ilog2 y) by (unfold quantum in *; lia).
    apply Qle_trans with (pow2 (ilog2 y)).
    + (* the rounded x does not pass the next power of two *)
      assert (Hk : 0 <= ilog2 y - quantum x) by (unfold quantum in *; lia).
      rewrite <- (pow2_sub (ilog2 y) (quantum x)).
      apply Qmult_le_r; [apply pow2_pos|].
      rewrite (pow2_Z _ Hk). rewrite <- Zle_Qle.
      apply round_half_even_upper. rewrite <- (pow2_Z _ Hk).
      apply Qle_shift_div_r; [apply pow2_pos|].
      rewrite pow2_sub. apply Qlt_le_weak.
      eapply Qlt_le_trans; [exact X2 | now apply pow2_le].
    + (* the rounded y stays at or above its power of two *)
      rewrite <- (pow2_sub (ilog2 y) (quantum y)) at 1.
      apply Qmult_le_r; [apply pow2_pos|].
      assert (Hk : 0 <= ilog2 y - quantum y) by lia.
      rewrite (pow2_Z _ Hk). rewrite <- Zle_Qle.
      apply round_half_even_lower. rewrite <- (pow2_Z _ Hk).
      apply Qle_shift_div_l; [apply pow2_pos|].
      now rewrite pow2_sub.
Qed.

Lemma round64_nonneg (x : Q) : (0 <= x)%Q -> (0 <= round64 x)%Q.
Proof.
  intros Hx. unfold round64. destruct (Qcompare_spec x 0) as [C|C|C].
  - lra.
  - lra.
  - now apply round64_pos_nonneg.
Qed.

(** Rounding is monotone on the non-negative numbers. *)
Lemma round64_mono (x y : Q) : (0 <= x)%Q -> (x <= y)%Q -> (round64 x <= round64 y)%Q.
Proof.
  intros Hx Hxy. unfold round64 at 1. destruct (Qcompare_spec x 0) as [C|C|C].
  - apply round64_nonneg. lra.
  - lra.
  - unfold round64. destruct (Qcompare_spec y 0) as [C'|C'|C']; try lra.
    now apply round64_pos_mono.
Qed.

Lemma round64_proper (x y : Q) : (0 <= x)%Q -> (x == y)%Q -> (round64 x == round64 y)%Q.
Proof.
  intros Hx Hxy. apply Qle_antisym; apply round64_mono; lra.
Qed.

(** The largest double below 1 is [1 - 2^-53]. *)
Lemma double_below_one (r : Q) :
  is_double r -> (0 <= r)%Q -> (r < 1)%Q -> (r <= max_draw)%Q.
Proof.
  intros Hd H0 H1. destruct (Qlt_le_dec (1 # 2) r) as [Hh|Hh].
  - assert (He : ilog2 r = -1).
    { apply ilog2_unique.
      - change (pow2 (-1)) with (1 # 2)%Q. lra.
      - change (pow2 (-1 + 1)) with 1%Q. exact H1. }
    unfold is_double, round64 in Hd.
    destruct (Qcompare_spec r 0) as [C|C|C]; try lra.
    rewrite round64_pos_eq in Hd. unfold quantum in Hd. rewrite He in Hd.
    change (Z.max (-1 - 52) (-1074)) with (-53) in Hd.
    change (pow2 (-53)) with (1 # 9007199254740992)%Q in Hd.
    set (K := round_half_even (r / (1 # 9007199254740992))) in Hd.
    rewrite <- Hd in H1 |- *.
    unfold Qlt, Qle, Qmult, inject_Z, max_draw in *. cbn [Qnum Qden] in *. lia.
  - unfold max_draw. lra.
Qed.

Lemma fmul_bounds (r c : Q) :
  (0 <= r)%Q -> (r <= max_draw)%Q -> (0 <= c)%Q ->
  (0 <= fmul r c)%Q /\ (fmul r c <= round64 (max_draw * c))%Q.
Proof.
  intros H0 H1 Hc. unfold fmul. split.
  - apply round64_nonneg. now apply Qmult_le_0_compat.
  - apply round64_mono; [now apply Qmult_le_0_compat|].
    apply Qmult_le_compat_r; assumption.
Qed.

Lemma fadd_bounds (a hi c : Q) :
  (0 <= a)%Q -> (a <= hi)%Q -> (0 <= c)%Q ->
  (round64 c <= fadd a c)%Q /\ (fadd a c <= round64 (hi + c))%Q.
Proof.
  intros H0 H1 Hc. unfold fadd. split; apply round64_mono; lra.
Qed.


(** ** The countdown display *)

Lemma components_total (diff : Z) : 0 < diff ->
  diff / 86400000 * 86400 + diff mod 86400000 / 3600000 * 3600
  + diff mod 3600000 / 60000 * 60 + diff mod 60000 / 1000 = diff / 1000.
Proof. intros Hd. Z.div_mod_to_equations. lia. Qed.

Lemma last_write_app (el : Elem) (a b : list (Elem * string)) :
  last_write el (a ++ b) =
  match last_write el b with
  | Some s => Some s
  | None => last_write el a
  end.
Proof.
  induction a as [|[e s] a IH]; simpl.
  - now destruct (last_write el b).
  - rewrite IH. destruct (last_write el b); [reflexivity|].
    reflexivity.
Qed.

Lemma last_write_slot (el : Elem) (v : Value) (s : string) :
  last_write el (slot_write v s) = if decide (v = node el) then Some s else None.
Proof.
  destruct v as [| |e]; simpl.
  - now destruct (decide (undefined = node el)).
  - now destruct (decide (null = node el)).
  - destruct (decide (e = el)) as [->|Hne].
    + now destruct (decide (node el = node el)).
    + destruct (decide (node e = node el)) as [Heq|_]; [congruence | reflexivity].
Qed.

(** X1. The texts of the numeric branch read back as the whole seconds that
    remain: days*86400 + hours*3600 + minutes*60 + seconds is the
    remaining duration divided by 1000, rounded down. *)
Theorem display_reads_whole_seconds (now target : Z) (elements : Obj) (p : Page) :
  now < target ->
  updateCountdown now (Int target) elements p =
    Normal tt (apply_writes
      (numeric_writes elements
         (padStart 2 "0" (ToString (days (Nsub (Int target) (Int now)))))
         (padStart 2 "0" (ToString (hours (Nsub (Int target) (Int now)))))
         (padStart 2 "0" (ToString (minutes (Nsub (Int target) (Int now)))))
         (padStart 2 "0" (ToString (seconds (Nsub (Int target) (Int now)))))) p) /\
  parse_decimal (padStart 2 "0" (ToString (days (Nsub (Int target) (Int now))))) * 86400
  + parse_decimal (padStart 2 "0" (ToString (hours (Nsub (Int target) (Int now))))) * 3600
  + parse_decimal (padStart 2 "0" (ToString (minutes (Nsub (Int target) (Int now))))) * 60
  + parse_decimal (padStart 2 "0" (ToString (seconds (Nsub (Int target) (Int now)))))
  = (target - now) / 1000.
Proof.
  intros Hlt.
  assert (Hpos : 0 < target - now) by lia.
  destruct (components_pos _ Hpos) as (Hd & Hh & Hm & Hs).
  destruct (components_bounds _ Hpos) as (Bd & Bh & Bm & Bs & _).
  cbn [Nsub]. rewrite Hd, Hh, Hm, Hs. split; [now apply numeric_branch|].
  rewrite !fmt_parse by lia. now apply components_total.
Qed.

Lemma display_reads_whole_seconds_witness :
  0 < 90061999 /\
  (updateCountdown 0 (Int 90061999) full_slots (blank_page 1024) =
    Normal tt (apply_writes
      (numeric_writes full_slots
         (padStart 2 "0" (ToString (days (Nsub (Int 90061999) (Int 0)))))
         (padStart 2 "0" (ToString (hours (Nsub (Int 90061999) (Int 0)))))
         (padStart 2 "0" (ToString (minutes (Nsub (Int 90061999) (Int 0)))))
         (padStart 2 "0" (ToString (seconds (Nsub (Int 90061999) (Int 0))))))
      (blank_page 1024)) /\
  parse_decimal (padStart 2 "0" (ToString (days (Nsub (Int 90061999) (Int 0))))) * 86400
  + parse_decimal (padStart 2 "0" (ToString (hours (Nsub (Int 90061999) (Int 0))))) * 3600
  + parse_decimal (padStart 2 "0" (ToString (minutes (Nsub (Int 90061999) (Int 0))))) * 60
  + parse_decimal (padStart 2 "0" (ToString (seconds (Nsub (Int 90061999) (Int 0)))))
  = (90061999 - 0) / 1000).
Proof.
  split; [lia|].
  apply (display_reads_whole_seconds 0 90061999 full_slots (blank_page 1024)). lia.
Defined.

(** The remaining whole seconds a call displays, as a number. *)
Lemma shown_total (now target : Z) : now < target ->
  exists d h m s : Z,
    days (Nsub (Int target) (Int now)) = Int d /\
    hours (Nsub (Int target) (Int now)) = Int h /\
    minutes (Nsub (Int target) (Int now)) = Int m /\
    seconds (Nsub (Int target) (Int now)) = Int s /\
    d * 86400 + h * 3600 + m * 60 + s = (target - now) / 1000.
Proof.
  intros Hlt. assert (Hpos : 0 < target - now) by lia.
  destruct (components_pos _ Hpos) as (Hd & Hh & Hm & Hs).
  cbn [Nsub]. eexists _, _, _, _. repeat (split; [eassumption|]).
  now apply components_total.
Qed.

(** X2. Before the target the display never goes up from one call to a later
    one, and a call exactly one second after another shows exactly one
    second less. *)
Theorem display_counts_down (now1 now2 target : Z) :
  now1 <= now2 ->
  now2 < target ->
  exists d1 h1 m1 s1 d2 h2 m2 s2 : Z,
    days (Nsub (Int target) (Int now1)) = Int d1 /\
    hours (Nsub (Int target) (Int now1)) = Int h1 /\
    minutes (Nsub (Int target) (Int now1)) = Int m1 /\
    seconds (Nsub (Int target) (Int now1)) = Int s1 /\
    days (Nsub (Int target) (Int now2)) = Int d2 /\
    hours (Nsub (Int target) (Int now2)) = Int h2 /\
    minutes (Nsub (Int target) (Int now2)) = Int m2 /\
    seconds (Nsub (Int target) (Int now2)) = Int s2 /\
    d2 * 86400 + h2 * 3600 + m2 * 60 + s2 <= d1 * 86400 + h1 * 3600 + m1 * 60 + s1 /\
    (now2 = now1 + 1000 ->
     d2 * 86400 + h2 * 3600 + m2 * 60 + s2 = d1 * 86400 + h1 * 3600 + m1 * 60 + s1 - 1).
Proof.
  intros Hle Hlt.
  destruct (shown_total now1 target) as (d1 & h1 & m1 & s1 & E1 & E2 & E3 & E4 & T1); [lia|].
  destruct (shown_total now2 target) as (d2 & h2 & m2 & s2 & F1 & F2 & F3 & F4 & T2); [lia|].
  exists d1, h1, m1, s1, d2, h2, m2, s2.
  repeat (split; [assumption|]).
  rewrite T1, T2. split.
  - apply Z.div_le_mono; lia.
  - intros ->. Z.div_mod_to_equations. lia.
Qed.

Lemma display_counts_down_witness :
  5000 <= 6000 /\
  6000 < 90061000 /\
  exists d1 h1 m1 s1 d2 h2 m2 s2 : Z,
    days (Nsub (Int 90061000) (Int 5000)) = Int d1 /\
    hours (Nsub (Int 90061000) (Int 5000)) = Int h1 /\
    minutes (Nsub (Int 90061000) (Int 5000)) = Int m1 /\
    seconds (Nsub (Int 90061000) (Int 5000)) = Int s1 /\
    days (Nsub (Int 90061000) (Int 6000)) = Int d2 /\
    hours (Nsub (Int 90061000) (Int 6000)) = Int h2 /\
    minutes (Nsub (Int 90061000) (Int 6000)) = Int m2 /\
    seconds (Nsub (Int 90061000) (Int 6000)) = Int s2 /\
    d2 * 86400 + h2 * 3600 + m2 * 60 + s2 <= d1 * 86400 + h1 * 3600 + m1 * 60 + s1 /\
    (6000 = 5000 + 1000 ->
     d2 * 86400 + h2 * 3600 + m2 * 60 + s2 = d1 * 86400 + h1 * 3600 + m1 * 60 + s1 - 1).
Proof.
  split; [lia|]. split; [lia|].
  apply (display_counts_down 5000 6000 90061000); lia.
Defined.

(** X3. Before the target the four texts are all "00" exactly during the last
    second: the display reaches zero one second before the marker
    replaces it. *)
Theorem zeros_in_last_second (now target : Z) :
  now < target ->
  (padStart 2 "0" (ToString (days (Nsub (Int target) (Int now)))) = "00" /\
   padStart 2 "0" (ToString (hours (Nsub (Int target) (Int now)))) = "00" /\
   padStart 2 "0" (ToString (minutes (Nsub (Int target) (Int now)))) = "00" /\
   padStart 2 "0" (ToString (seconds (Nsub (Int target) (Int now)))) = "00")
  <-> target - now < 1000.
Proof.
  intros Hlt.
  assert (Hpos : 0 < target - now) by lia.
  destruct (components_pos _ Hpos) as (Hd & Hh & Hm & Hs).
  destruct (components_bounds _ Hpos) as (Bd & Bh & Bm & Bs & _).
  pose proof (components_total _ Hpos) as Ht.
  cbn [Nsub]. rewrite Hd, Hh, Hm, Hs. split.
  - intros (Td & Th & Tm & Ts).
    apply (f_equal parse_decimal) in Td, Th, Tm, Ts.
    rewrite fmt_parse in Td, Th, Tm, Ts by lia.
    change (parse_decimal "00") with 0 in Td, Th, Tm, Ts.
    rewrite Td, Th, Tm, Ts in Ht.
    assert (Hq : (target - now) / 1000 = 0) by lia.
    apply Z.div_small_iff in Hq; lia.
  - intros Hsmall.
    assert (Ed : (target - now) / 86400000 = 0) by (apply Z.div_small; lia).
    assert (Eh : (target - now) mod 86400000 / 3600000 = 0)
      by (rewrite Z.mod_small by lia; apply Z.div_small; lia).
    assert (Em : (target - now) mod 3600000 / 60000 = 0)
      by (rewrite Z.mod_small by lia; apply Z.div_small; lia).
    assert (Es : (target - now) mod 60000 / 1000 = 0)
      by (rewrite Z.mod_small by lia; apply Z.div_small; lia).
    rewrite Ed, Eh, Em, Es. repeat split; reflexivity.
Qed.

Lemma zeros_in_last_second_witness :
  6001 < 7000 /\
  ((padStart 2 "0" (ToString (days (Nsub (Int 7000) (Int 6001)))) = "00" /\
    padStart 2 "0" (ToString (hours (Nsub (Int 7000) (Int 6001)))) = "00" /\
    padStart 2 "0" (ToString (minutes (Nsub (Int 7000) (Int 6001)))) = "00" /\
    padStart 2 "0" (ToString (seconds (Nsub (Int 7000) (Int 6001)))) = "00")
   <-> 7000 - 6001 < 1000).
Proof.
  split; [lia|]. apply (zeros_in_last_second 6001 7000). lia.
Defined.

(** X4. An invalid target date never reaches the elapsed state: at every
    clock sample the call takes the numeric branch and assigns "NaN" to
    the element of each wired unit slot, and the marker to none. *)
Theorem invalid_date_shows_NaN (now : Z) (elements : Obj) (p : Page) :
  exists p',
    updateCountdown now NaN elements p = Normal tt p' /\
    trace p' = trace p ++
      map text_event (numeric_writes elements "NaN" "NaN" "NaN" "NaN") /\
    (forall k el, k ∈ unit_names -> get elements k = node el ->
                  textContent p' !! el = Some "NaN") /\
    (forall el, SetTextContent el marker ∉
                map text_event (numeric_writes elements "NaN" "NaN" "NaN" "NaN")).
Proof.
  eexists. split; [apply updateCountdown_run|].
  change (countdown_writes now NaN elements)
    with (numeric_writes elements "NaN" "NaN" "NaN" "NaN").
  split; [apply apply_writes_trace|]. split.
  - intros k el Hk Hg. rewrite apply_writes_text.
    rewrite (last_write_const el "NaN"); [reflexivity| |].
    + apply Forall_forall. intros [e t] Hin.
      unfold numeric_writes in Hin. rewrite !elem_of_app in Hin.
      destruct Hin as [H|[H|[H|H]]]; apply slot_write_elem in H as [_ ->]; reflexivity.
    + apply list_elem_of_In, in_map_iff. exists (el, "NaN"). split; [reflexivity|].
      apply list_elem_of_In. unfold numeric_writes, unit_names in *. rewrite !elem_of_app.
      repeat (apply elem_of_cons in Hk as [->|Hk];
              [rewrite Hg; simpl; rewrite list_elem_of_singleton; tauto|]).
      now apply elem_of_nil in Hk.
  - intros el Hin. apply list_elem_of_In, in_map_iff in Hin as ([e t] & Hev & Hin).
    apply list_elem_of_In in Hin.
    unfold numeric_writes in Hin. rewrite !elem_of_app in Hin.
    destruct Hin as [H|[H|[H|H]]]; apply slot_write_elem in H as [_ ->];
      unfold text_event in Hev; simpl in Hev; discriminate Hev.
Qed.

(** X5. The texts the numeric branch leaves: an element shows the component
    of the last of days, hours, minutes, seconds under which the slot set
    holds it, and an element held under none of them keeps its text. *)
Theorem numeric_final_texts (now target : Z) (elements : Obj) (p : Page) :
  now < target ->
  exists p',
    updateCountdown now (Int target) elements p = Normal tt p' /\
    forall el,
      textContent p' !! el =
      if decide (get elements "seconds" = node el)
      then Some (padStart 2 "0" (ToString (seconds (Nsub (Int target) (Int now)))))
      else if decide (get elements "minutes" = node el)
      then Some (padStart 2 "0" (ToString (minutes (Nsub (Int target) (Int now)))))
      else if decide (get elements "hours" = node el)
      then Some (padStart 2 "0" (ToString (hours (Nsub (Int target) (Int now)))))
      else if decide (get elements "days" = node el)
      then Some (padStart 2 "0" (ToString (days (Nsub (Int target) (Int now)))))
      else textContent p !! el.
Proof.
  intros Hlt. eexists. split; [apply updateCountdown_run|].
  intros el. rewrite apply_writes_text. unfold countdown_writes.
  cbn [Nsub Nle0].
  destruct (target - now <=? 0) eqn:E; [apply Z.leb_le in E; lia|].
  unfold numeric_writes. rewrite !last_write_app, !last_write_slot.
  repeat destruct (decide _); reflexivity.
Qed.

Lemma numeric_final_texts_witness :
  0 < 90061000 /\
  exists p',
    updateCountdown 0 (Int 90061000) full_slots (blank_page 1024) = Normal tt p' /\
    forall el,
      textContent p' !! el =
      if decide (get full_slots "seconds" = node el)
      then Some (padStart 2 "0" (ToString (seconds (Nsub (Int 90061000) (Int 0)))))
      else if decide (get full_slots "minutes" = node el)
      then Some (padStart 2 "0" (ToString (minutes (Nsub (Int 90061000) (Int 0)))))
      else if decide (get full_slots "hours" = node el)
      then Some (padStart 2 "0" (ToString (hours (Nsub (Int 90061000) (Int 0)))))
      else if decide (get full_slots "days" = node el)
      then Some (padStart 2 "0" (ToString (days (Nsub (Int 90061000) (Int 0)))))
      else textContent (blank_page 1024) !! el.
Proof.
  split; [lia|].
  apply (numeric_final_texts 0 90061000 full_slots (blank_page 1024)). lia.
Defined.

(** ** Several events *)

Lemma updateAll_run (now_w now_u now_d : Z) (w u d : Obj) (p : Page) :
  updateAll now_w now_u now_d w u d p =
  Normal tt (apply_writes
    (countdown_writes now_w WEDDING_DATE w ++
     countdown_writes now_u USA_DATE u ++
     countdown_writes now_d DOLOMITES_DATE d) p).
Proof.
  unfold updateAll.
  rewrite (seq_normal _ _ _ _ _ (updateCountdown_run _ _ _ _)).
  rewrite (seq_normal _ _ _ _ _ (updateCountdown_run _ _ _ _)).
  rewrite updateCountdown_run. now rewrite !apply_writes_app.
Qed.

Lemma last_write_absent (now : Z) (targetDate : Number) (elements : Obj) (el : Elem) :
  el ∉ present elements -> last_write el (countdown_writes now targetDate elements) = None.
Proof.
  intros Hn. apply last_write_None. intros Hin.
  apply list_elem_of_In, in_map_iff in Hin as ([e t] & <- & Hin).
  apply Hn. eapply countdown_writes_present. apply list_elem_of_In, Hin.
Qed.

(** X6. One round of updates never throws and renders the three events
    independently: when no element is shared between two slot sets, every
    element of an event shows after the round what a lone call of the
    renderer for that event would have left. *)
Theorem events_render_independently
        (now_w now_u now_d : Z) (w u d : Obj) (p : Page) :
  Forall (fun el => (el ∉ present u) /\ (el ∉ present d)) (present w) ->
  Forall (fun el => el ∉ present d) (present u) ->
  exists p',
    updateAll now_w now_u now_d w u d p = Normal tt p' /\
    (forall el, el ∈ present w ->
       textContent p' !! el = shown (updateCountdown now_w WEDDING_DATE w p) el) /\
    (forall el, el ∈ present u ->
       textContent p' !! el = shown (updateCountdown now_u USA_DATE u p) el) /\
    (forall el, el ∈ present d ->
       textContent p' !! el = shown (updateCountdown now_d DOLOMITES_DATE d p) el) /\
    (forall el, el ∉ present w -> el ∉ present u -> el ∉ present d ->
       textContent p' !! el = textContent p !! el).
Proof.
  intros Hwu Hud. rewrite Forall_forall in Hwu, Hud.
  eexists. split; [apply updateAll_run|].
  repeat split; intros el.
  - intros Hw. destruct (Hwu el Hw) as [Hu Hd].
    rewrite updateCountdown_run. cbn [shown].
    rewrite !apply_writes_text, !last_write_app.
    now rewrite (last_write_absent _ _ d el Hd), (last_write_absent _ _ u el Hu).
  - intros Hu. pose proof (Hud el Hu) as Hd.
    assert (Hw : el ∉ present w) by (intros Hw; now destruct (Hwu el Hw)).
    rewrite updateCountdown_run. cbn [shown].
    rewrite !apply_writes_text, !last_write_app.
    rewrite (last_write_absent _ _ d el Hd), (last_write_absent _ _ w el Hw).
    now destruct (last_write el (countdown_writes now_u USA_DATE u)).
  - intros Hd.
    assert (Hw : el ∉ present w) by (intros Hw; now destruct (Hwu el Hw)).
    assert (Hu : el ∉ present u) by (intros Hu; now apply (Hud el Hu)).
    rewrite updateCountdown_run. cbn [shown].
    rewrite !apply_writes_text, !last_write_app.
    rewrite (last_write_absent _ _ u el Hu), (last_write_absent _ _ w el Hw).
    now destruct (last_write el (countdown_writes now_d DOLOMITES_DATE d)).
  - intros Hw Hu Hd.
    rewrite !apply_writes_text, !last_write_app.
    now rewrite (last_write_absent _ _ d el Hd), (last_write_absent _ _ u el Hu),
      (last_write_absent _ _ w el Hw).
Qed.

Lemma events_render_independently_witness :
  Forall (fun el => (el ∉ present usa_slots) /\ (el ∉ present dolomites_slots))
         (present full_slots) /\
  Forall (fun el => el ∉ present dolomites_slots) (present usa_slots) /\
  exists p',
    updateAll 1774537200000 1774537200000 1774537200000
              full_slots usa_slots dolomites_slots (blank_page 1024) = Normal tt p' /\
    (forall el, el ∈ present full_slots ->
       textContent p' !! el =
       shown (updateCountdown 1774537200000 WEDDING_DATE full_slots (blank_page 1024)) el) /\
    (forall el, el ∈ present usa_slots ->
       textContent p' !! el =
       shown (updateCountdown 1774537200000 USA_DATE usa_slots (blank_page 1024)) el) /\
    (forall el, el ∈ present dolomites_slots ->
       textContent p' !! el =
       shown (updateCountdown 1774537200000 DOLOMITES_DATE dolomites_slots
                (blank_page 1024)) el) /\
    (forall el, el ∉ present full_slots -> el ∉ present usa_slots ->
                el ∉ present dolomites_slots ->
       textContent p' !! el = textContent (blank_page 1024) !! el).
Proof.
  assert (H1 : Forall (fun el => (el ∉ present usa_slots) /\ (el ∉ present dolomites_slots))
                      (present full_slots)).
  { apply (bool_decide_unpack _). vm_compute. exact I. }
  assert (H2 : Forall (fun el => el ∉ present dolomites_slots) (present usa_slots)).
  { apply (bool_decide_unpack _). vm_compute. exact I. }
  split; [exact H1|]. split; [exact H2|].
  apply (events_render_independently 1774537200000 1774537200000 1774537200000
           full_slots usa_slots dolomites_slots (blank_page 1024) H1 H2).
Defined.

Lemma weddingEls_run (p : Page) :
  weddingEls p =
  Normal [("days", found p "wDays"); ("hours", found p "wHours");
          ("minutes", found p "wMinutes"); ("seconds", found p "wSeconds")] p.
Proof. reflexivity. Qed.

Lemma usaEls_run (p : Page) :
  usaEls p =
  Normal [("days", found p "uDays"); ("hours", found p "uHours");
          ("minutes", found p "uMinutes")] p.
Proof. reflexivity. Qed.

Lemma dolomitesEls_run (p : Page) :
  dolomitesEls p =
  Normal [("days", found p "dDays"); ("hours", found p "dHours");
          ("minutes", found p "dMinutes")] p.
Proof. reflexivity. Qed.

Lemma startCountdowns_run (now_w now_u now_d : Z) (p : Page) :
  startCountdowns now_w now_u now_d p =
  Normal
    ([("days", found p "wDays"); ("hours", found p "wHours");
      ("minutes", found p "wMinutes"); ("seconds", found p "wSeconds")],
     [("days", found p "uDays"); ("hours", found p "uHours");
      ("minutes", found p "uMinutes")],
     [("days", found p "dDays"); ("hours", found p "dHours");
      ("minutes", found p "dMinutes")])
    (apply_writes
       (countdown_writes now_w WEDDING_DATE
          [("days", found p "wDays"); ("hours", found p "wHours");
           ("minutes", found p "wMinutes"); ("seconds", found p "wSeconds")] ++
        countdown_writes now_u USA_DATE
          [("days", found p "uDays"); ("hours", found p "uHours");
           ("minutes", found p "uMinutes")] ++
        countdown_writes now_d DOLOMITES_DATE
          [("days", found p "dDays"); ("hours", found p "dHours");
           ("minutes", found p "dMinutes")]) p).
Proof.
  unfold startCountdowns.
  erewrite bind_normal; [|apply weddingEls_run].
  erewrite bind_normal; [|apply usaEls_run].
  erewrite bind_normal; [|apply dolomitesEls_run].
  erewrite seq_normal; [|apply updateAll_run].
  reflexivity.
Qed.

Lemma found_node (p : Page) (id : string) (el : Elem) :
  found p id = node el -> ids p !! id = Some el.
Proof. unfold found. destruct (ids p !! id); [intros [= ->]; reflexivity | discriminate]. Qed.

(** X7. Starting the countdowns never throws, whatever ids the page lacks.
    The slot sets hold what the ten ids resolved to at that moment; the
    two secondary events have no seconds slot; and every write of the
    first round goes to an element found under one of the ten ids. *)
Theorem startCountdowns_wiring (now_w now_u now_d : Z) (p : Page) :
  exists ws us ds p' writes,
    startCountdowns now_w now_u now_d p = Normal (ws, us, ds) p' /\
    ws = [("days", found p "wDays"); ("hours", found p "wHours");
          ("minutes", found p "wMinutes"); ("seconds", found p "wSeconds")] /\
    us = [("days", found p "uDays"); ("hours", found p "uHours");
          ("minutes", found p "uMinutes")] /\
    ds = [("days", found p "dDays"); ("hours", found p "dHours");
          ("minutes", found p "dMinutes")] /\
    get us "seconds" = undefined /\ get ds "seconds" = undefined /\
    writes = countdown_writes now_w WEDDING_DATE ws ++
             countdown_writes now_u USA_DATE us ++
             countdown_writes now_d DOLOMITES_DATE ds /\
    trace p' = trace p ++ map text_event writes /\
    (forall el t, (el, t) ∈ writes ->
       exists id, id ∈ countdown_ids /\ ids p !! id = Some el).
Proof.
  eexists _, _, _, _, _. split; [apply startCountdowns_run|].
  do 3 (split; [reflexivity|]).
  split; [reflexivity|]. split; [reflexivity|]. split; [reflexivity|].
  split; [apply apply_writes_trace|].
  intros el t Hin. rewrite !elem_of_app in Hin.
  assert (Hk : exists id, found p id = node el /\ id ∈ countdown_ids).
  { destruct Hin as [H|[H|H]];
      apply countdown_writes_present, elem_of_present in H as [k Hk];
      repeat (apply elem_of_cons in Hk as [Hk|Hk];
              [injection Hk as _ Hk; eexists; split; [symmetry; exact Hk|];
               unfold countdown_ids;
               repeat first [apply list_elem_of_here | apply list_elem_of_further]|]);
      now apply elem_of_nil in Hk. }
  destruct Hk as (id & Hf & Hid). exists id. split; [exact Hid|].
  now apply found_node.
Qed.

(** ** More on the particle generator *)

Lemma draw_bounds (r : Q) : draw_ok r -> (0 <= r)%Q /\ (r <= max_draw)%Q.
Proof. intros (Hd & H0 & H1). split; [exact H0 | now apply double_below_one]. Qed.

Lemma Qle_by_computation (x y : Q) : Qle_bool x y = true -> (x <= y)%Q.
Proof. apply Qle_bool_iff. Qed.

(** A product [r * c] of a draw and a non-negative constant. *)
Lemma scaled_draw (r c : Q) :
  draw_ok r -> (0 <= c)%Q ->
  (0 <= fmul r c)%Q /\ (fmul r c <= round64 (max_draw * c))%Q.
Proof. intros Hr Hc. destruct (draw_bounds r Hr). now apply fmul_bounds. Qed.

(** A sum [r * c + k] of a scaled draw and a non-negative constant. *)
Lemma shifted_draw (r c k : Q) :
  draw_ok r -> (0 <= c)%Q -> (0 <= k)%Q ->
  (round64 k <= fadd (fmul r c) k)%Q /\
  (fadd (fmul r c) k <= round64 (round64 (max_draw * c) + k))%Q.
Proof.
  intros Hr Hc Hk. destruct (scaled_draw r c Hr Hc) as [H0 H1]. now apply fadd_bounds.
Qed.

(** An index [Math.floor(r * n)] into a list of [n] items. *)
Lemma draw_index (r : Q) (n : Z) :
  draw_ok r -> 0 <= n ->
  0 <= Qfloor (fmul r (inject_Z n)) <= Qfloor (round64 (max_draw * inject_Z n)).
Proof.
  intros Hr Hn.
  assert (Hc : (0 <= inject_Z n)%Q) by (change 0%Q with (inject_Z 0); now rewrite <- Zle_Qle).
  destruct (scaled_draw r (inject_Z n) Hr Hc) as [H0 H1]. split.
  - rewrite <- (Qfloor_Z 0). now apply Qfloor_resp_le.
  - now apply Qfloor_resp_le.
Qed.



Lemma double_rand_ok (k : nat) : draw_ok (double_rand k).
Proof.
  unfold double_rand. pose proof (Nat.mod_upper_bound k 8 ltac:(lia)) as Hk.
  destruct (k mod 8)%nat as [|[|[|[|[|[|[|[|j]]]]]]]] eqn:E; try lia;
    (split; [unfold is_double; apply Qeq_bool_iff; vm_compute; reflexivity|]);
    (split; [apply Qle_by_computation; vm_compute; reflexivity | vm_compute; reflexivity]).
Qed.

(** The upper end of the duration is reached at the largest draw, and a
    draw just below 2/3 already selects the third colour. *)
Example duration_reaches_25 : (fadd (fmul max_draw 15) 10 == 25)%Q.
Proof. apply Qeq_bool_iff. vm_compute. reflexivity. Qed.

Example third_colour_below_two_thirds :
  colors !! Z.to_nat (Qfloor (fmul (6004799503160661 # 9007199254740992) 3)) =
  Some "rgba(255, 255, 255, 0.2)".
Proof. vm_compute. reflexivity. Qed.



(** X9. The generator only ever adds: a second run keeps the children of the
    first and appends a batch built from the next draws (seven per
    particle), and no run touches a text, a [src] or another element's
    children. *)
Theorem particles_accumulate (rand : nat -> Q) (p : Page) (c : Elem) :
  ids p !! "particles" = Some c ->
  exists q1 q2 n,
    createParticles rand p = Normal tt q1 /\
    createParticles rand q1 = Normal tt q2 /\
    n = particle_count (innerWidth p) /\
    default [] (childNodes q2 !! c) =
      default [] (childNodes p !! c) ++
      particles_from rand (draws p) n ++ particles_from rand (draws p + 7 * n) n /\
    draws q2 = (draws p + 14 * n)%nat /\
    textContent q2 = textContent p /\ src q2 = src p /\
    (forall c', c' <> c -> childNodes q2 !! c' = childNodes p !! c').
Proof.
  intros Hc.
  pose proof (createParticles_present rand p c Hc) as H1.
  destruct (attach_frame rand c (particle_count (innerWidth p)) p)
    as (Hi & Hw & Ht & Hs & Hk).
  set (q1 := attach rand c (particle_count (innerWidth p)) p) in *.
  assert (Hc1 : ids q1 !! "particles" = Some c) by now rewrite Hi.
  pose proof (createParticles_present rand q1 c Hc1) as H2. rewrite Hw in H2.
  destruct (attach_frame rand c (particle_count (innerWidth p)) q1)
    as (_ & _ & Ht2 & Hs2 & Hk2).
  eexists _, _, _. split; [exact H1|]. split; [exact H2|]. split; [reflexivity|].
  split; [|split; [|split; [|split]]].
  - rewrite attach_children. unfold q1 at 1. rewrite attach_children.
    unfold q1. rewrite attach_draws. now rewrite <- app_assoc.
  - rewrite attach_draws. unfold q1. rewrite attach_draws. lia.
  - now rewrite Ht2, Ht.
  - now rewrite Hs2, Hs.
  - intros c' Hne. now rewrite Hk2, Hk.
Qed.

Lemma particles_accumulate_witness :
  ids (sample_page 375) !! "particles" = Some 9%nat /\
  exists q1 q2 n,
    createParticles sample_rand (sample_page 375) = Normal tt q1 /\
    createParticles sample_rand q1 = Normal tt q2 /\
    n = particle_count (innerWidth (sample_page 375)) /\
    default [] (childNodes q2 !! 9%nat) =
      default [] (childNodes (sample_page 375) !! 9%nat) ++
      particles_from sample_rand (draws (sample_page 375)) n ++
      particles_from sample_rand (draws (sample_page 375) + 7 * n) n /\
    draws q2 = (draws (sample_page 375) + 14 * n)%nat /\
    textContent q2 = textContent (sample_page 375) /\ src q2 = src (sample_page 375) /\
    (forall c', c' <> 9%nat -> childNodes q2 !! c' = childNodes (sample_page 375) !! c').
Proof.
  split; [reflexivity|].
  apply (particles_accumulate sample_rand (sample_page 375) 9%nat). reflexivity.
Defined.

(** ** More on the cache bust *)

Lemma bustImageCache_run (toISOString : Z -> string) (now : Z) (p : Page) :
  bustImageCache toISOString now p =
  Normal tt
    (img_set (found p "dolomitesImage")
       ("images/dolomites-minimoon.png?v=" +:+ split_head "T" (toISOString now))
       (img_set (found p "usaImage")
          ("images/usa-honeymoon.png?v=" +:+ split_head "T" (toISOString now)) p)).
Proof.
  unfold bustImageCache.
  erewrite bind_normal; [|apply getElementById_run].
  erewrite bind_normal; [|apply getElementById_run].
  erewrite seq_normal; [|apply when_set_src].
  rewrite when_set_src. reflexivity.
Qed.

Lemma img_set_ids (v : Value) (url : string) (p : Page) : ids (img_set v url p) = ids p.
Proof. now destruct v. Qed.

Lemma img_set_src (v : Value) (url : string) (p : Page) (el : Elem) :
  src (img_set v url p) !! el = if decide (v = node el) then Some url else src p !! el.
Proof.
  destruct v as [| |e]; simpl.
  - now destruct (decide (undefined = node el)).
  - now destruct (decide (null = node el)).
  - destruct (decide (node e = node el)) as [[= ->]|Hne].
    + apply lookup_insert_eq.
    + apply lookup_insert_ne. congruence.
Qed.

(** X10. The version token does not pile up: the URL is rebuilt from the fixed
    path on every run, so after two runs each image has the [src] that
    the later run alone would have given it. *)
Theorem cache_bust_overwrites (toISOString : Z -> string) (t1 t2 : Z) (p : Page) :
  exists p1 p2 p2',
    bustImageCache toISOString t1 p = Normal tt p1 /\
    bustImageCache toISOString t2 p1 = Normal tt p2 /\
    bustImageCache toISOString t2 p = Normal tt p2' /\
    src p2 = src p2'.
Proof.
  eexists _, _, _.
  split; [apply bustImageCache_run|].
  split; [apply bustImageCache_run|].
  split; [apply bustImageCache_run|].
  unfold found. rewrite !img_set_ids.
  apply map_eq; intros el. rewrite !img_set_src.
  repeat destruct (decide _); reflexivity.
Qed.

(** ** Floating hearts *)

Lemma app_bind_done {A B} (m : App A) (k : A -> App B) (a : A) (w w' : World) :
  m w = Done a w' -> (m ≫= k) w = k a w'.
Proof. intros H. unfold mbind, App_bind. now rewrite H. Qed.

Lemma app_bind_raised {A B} (m : App A) (k : A -> App B) (e : Error) (w w' : World) :
  m w = Raised e w' -> (m ≫= k) w = Raised e w'.
Proof. intros H. unfold mbind, App_bind. now rewrite H. Qed.

Lemma lift_normal {A} (m : JS A) (a : A) (w : World) (p : Page) :
  m (page w) = Normal a p -> lift m w = Done a (set_page p w).
Proof. intros H. unfold lift. now rewrite H. Qed.

Lemma lift_throw {A} (m : JS A) (e : Error) (w : World) (p : Page) :
  m (page w) = Throw e p -> lift m w = Raised e (set_page p w).
Proof. intros H. unfold lift. now rewrite H. Qed.

Lemma new_heart_run (rand : nat -> Q) (p : Page) :
  new_heart rand p = Normal (heart_at rand (draws p)) (advance 5 p).
Proof.
  unfold new_heart, heart_at, advance, mbind, JS_bind, mret, JS_ret, Math_random.
  cbn [draws ids innerWidth textContent src childNodes trace].
  repeat f_equal; lia.
Qed.

Lemma heart_at_in_range (rand : nat -> Q) (n : nat) :
  (forall k, draw_ok (rand k)) ->
  heart_in_range (heart_at rand n).
Proof.
  intros Hr. unfold heart_in_range.
  split; [reflexivity|]. split; [reflexivity|].
  cbn [heart_at heart_textContent heart_left heart_fontSize heart_animationDuration
       heart_opacity].
  assert (H100 : (0 <= 100)%Q) by lra. assert (H14 : (0 <= 14)%Q) by lra.
  assert (H8 : (0 <= 8)%Q) by lra. assert (H6 : (0 <= 6)%Q) by lra.
  assert (Hf : (0 <= lit (4 # 10))%Q) by (apply Qle_by_computation; vm_compute; reflexivity).
  assert (Ht : (0 <= lit (1 # 10))%Q) by (apply Qle_by_computation; vm_compute; reflexivity).
  destruct (scaled_draw _ 100 (Hr (n + 1)%nat) H100) as [L0 L1].
  destruct (shifted_draw _ 14 8 (Hr (n + 2)%nat) H14 H8) as [S0 S1].
  destruct (shifted_draw _ 6 6 (Hr (n + 3)%nat) H6 H6) as [D0 D1].
  destruct (shifted_draw _ (lit (4 # 10)) (lit (1 # 10)) (Hr (n + 4)%nat) Hf Ht) as [O0 O1].
  split.
  { change (Z.of_nat (length hearts)) with 6.
    pose proof (draw_index _ 6 (Hr n) ltac:(lia)) as [I0 I1].
    change (Qfloor (round64 (max_draw * inject_Z 6))) with 5 in I1.
    assert (Hi : (Z.to_nat (Qfloor (fmul (rand n) (inject_Z 6))) < length hearts)%nat)
      by (change (length hearts) with 6%nat; lia).
    destruct (lookup_lt_is_Some_2 hearts _ Hi) as [t Hs].
    exists t. split; [exact Hs|]. now apply list_elem_of_lookup_2 in Hs. }
  repeat split.
  - exact L0.
  - eapply Qle_lt_trans; [exact L1 | vm_compute; reflexivity].
  - eapply Qle_trans; [|exact S0]. apply Qle_by_computation; vm_compute; reflexivity.
  - eapply Qle_trans; [exact S1|]. apply Qle_by_computation; vm_compute; reflexivity.
  - eapply Qle_trans; [|exact D0]. apply Qle_by_computation; vm_compute; reflexivity.
  - eapply Qle_trans; [exact D1|]. apply Qle_by_computation; vm_compute; reflexivity.
  - eapply Qle_trans; [|exact O0]. apply Qle_by_computation; vm_compute; reflexivity.
  - eapply Qle_trans; [exact O1|]. apply Qle_by_computation; vm_compute; reflexivity.
Qed.

(** The upper ends are reached at the largest draw. *)
Example heart_extremes :
  (fadd (fmul max_draw 14) 8 == 22)%Q /\ (fadd (fmul max_draw 6) 6 == 12)%Q /\
  (fadd (fmul max_draw (lit (4 # 10))) (lit (1 # 10)) == 5 # 10)%Q.
Proof. repeat split; apply Qeq_bool_iff; vm_compute; reflexivity. Qed.

Lemma spawnHeart_present (rand : nat -> Q) (c : Elem) (w : World) :
  spawnHeart rand (node c) w =
  Done tt
    (set_listeners (listeners w ++ [created w])
       (set_floating
          (floating w ++ [mkHeartNode c (created w) (heart_at rand (draws (page w)))])
          (set_page (advance 5 (page w)) (set_created (S (created w)) w)))).
Proof.
  unfold spawnHeart.
  erewrite app_bind_done; [|reflexivity].
  erewrite app_bind_done; [|apply lift_normal, new_heart_run].
  reflexivity.
Qed.

Lemma spawnHeart_absent (rand : nat -> Q) (container : Value) (w : World) :
  truthy container = false ->
  spawnHeart rand container w =
  Raised (TypeError "Cannot read properties of null (reading 'appendChild')")
         (set_page (advance 5 (page w)) (set_created (S (created w)) w)).
Proof.
  intros Hc. unfold spawnHeart.
  erewrite app_bind_done; [|reflexivity].
  erewrite app_bind_done; [|apply lift_normal, new_heart_run].
  destruct container; [reflexivity | reflexivity | discriminate Hc].
Qed.

(** X11. A firing of the heart timer with the container at hand attaches
    exactly one new span, after the hearts already floating; with every
    draw a double in [0,1) it is a "floating-heart" showing one of the
    six symbols, at a position in [0,100) percent, with a font size from
    8 to 22 px, a duration from 6 to 12 s and an opacity from 0.1 to 0.5
    (the upper ends included).  The span gets the listener that removes
    it, five draws are used, and nothing else changes. *)
Theorem heart_spawned (rand : nat -> Q) (c : Elem) (w : World) :
  (forall k, draw_ok (rand k)) ->
  exists w' h,
    spawnHeart rand (node c) w = Done tt w' /\
    floating w' = floating w ++ [mkHeartNode c (created w) h] /\
    heart_in_range h /\
    listeners w' = listeners w ++ [created w] /\
    created w' = S (created w) /\
    page w' = advance 5 (page w) /\
    classes w' = classes w /\ intervals w' = intervals w /\ observers w' = observers w.
Proof.
  intros Hr. eexists _, _. split; [apply spawnHeart_present|].
  split; [reflexivity|]. split; [now apply heart_at_in_range|].
  cbn. repeat split.
Qed.

Lemma heart_spawned_witness :
  (forall k, draw_ok (double_rand k)) /\
  exists w' h,
    spawnHeart double_rand (node 9%nat) (initial_world (sample_page 1024) [] ∅) = Done tt w' /\
    floating w' = floating (initial_world (sample_page 1024) [] ∅) ++
                  [mkHeartNode 9%nat (created (initial_world (sample_page 1024) [] ∅)) h] /\
    heart_in_range h /\
    listeners w' = listeners (initial_world (sample_page 1024) [] ∅) ++
                   [created (initial_world (sample_page 1024) [] ∅)] /\
    created w' = S (created (initial_world (sample_page 1024) [] ∅)) /\
    page w' = advance 5 (page (initial_world (sample_page 1024) [] ∅)) /\
    classes w' = classes (initial_world (sample_page 1024) [] ∅) /\
    intervals w' = intervals (initial_world (sample_page 1024) [] ∅) /\
    observers w' = observers (initial_world (sample_page 1024) [] ∅).
Proof.
  split; [exact double_rand_ok|].
  apply (heart_spawned double_rand 9%nat (initial_world (sample_page 1024) [] ∅)).
  exact double_rand_ok.
Defined.

Lemma createFloatingHearts_run (w : World) :
  createFloatingHearts w =
  Done tt (set_intervals (intervals w ++ [(SpawnHeart (found (page w) "particles"), 800)]) w).
Proof.
  unfold createFloatingHearts.
  erewrite app_bind_done; [|apply lift_normal, getElementById_run].
  unfold setInterval. destruct w; reflexivity.
Qed.

(** X12. Setting up the hearts never throws, even without the container: the
    timer is registered with the [null] it captured.  Every firing of
    that timer then throws at [appendChild], attaches nothing and
    registers no listener, in whatever state it fires (the container is
    looked up once, so one added later is not used). *)
Theorem heart_timer_unguarded (w : World) :
  ids (page w) !! "particles" = None ->
  exists w1,
    createFloatingHearts w = Done tt w1 /\
    intervals w1 = intervals w ++ [(SpawnHeart null, 800)] /\
    page w1 = page w /\ floating w1 = floating w /\
    (forall rand w2, exists msg w3,
       spawnHeart rand null w2 = Raised (TypeError msg) w3 /\
       floating w3 = floating w2 /\ listeners w3 = listeners w2 /\
       classes w3 = classes w2 /\
       textContent (page w3) = textContent (page w2) /\
       trace (page w3) = trace (page w2)).
Proof.
  intros Hc. eexists. split; [apply createFloatingHearts_run|].
  unfold found. rewrite Hc. split; [reflexivity|].
  split; [now destruct w|]. split; [reflexivity|].
  intros rand w2. eexists _, _. split; [now apply spawnHeart_absent|].
  cbn. repeat split.
Qed.

Lemma heart_timer_unguarded_witness :
  ids (page (initial_world (blank_page 1024) [] ∅)) !! "particles" = None /\
  exists w1,
    createFloatingHearts (initial_world (blank_page 1024) [] ∅) = Done tt w1 /\
    intervals w1 = intervals (initial_world (blank_page 1024) [] ∅) ++
                   [(SpawnHeart null, 800)] /\
    page w1 = page (initial_world (blank_page 1024) [] ∅) /\
    floating w1 = floating (initial_world (blank_page 1024) [] ∅) /\
    (forall rand w2, exists msg w3,
       spawnHeart rand null w2 = Raised (TypeError msg) w3 /\
       floating w3 = floating w2 /\ listeners w3 = listeners w2 /\
       classes w3 = classes w2 /\
       textContent (page w3) = textContent (page w2) /\
       trace (page w3) = trace (page w2)).
Proof.
  split; [reflexivity|].
  apply (heart_timer_unguarded (initial_world (blank_page 1024) [] ∅)). reflexivity.
Defined.

(** ** Scroll reveal *)

Lemma set_classes_same (w : World) : set_classes (classes w) w = w.
Proof. now destruct w. Qed.

Lemma set_page_same (w : World) : set_page (page w) w = w.
Proof. now destruct w. Qed.

Lemma classList_add_run (el : Elem) (token : string) (w : World) :
  classList_add el token w = Done tt (set_classes (add_class el token (classes w)) w).
Proof.
  unfold classList_add, add_class, classList_of.
  destruct (decide (token ∈ default [] (classes w !! el))); [|reflexivity].
  now rewrite set_classes_same.
Qed.

Lemma reveal_run (entries : list Entry) : forall w,
  reveal entries w = Done tt (set_classes (reveal_classes entries (classes w)) w).
Proof.
  unfold reveal. induction entries as [|e entries IH]; intros w; cbn [for_each reveal_classes].
  - now rewrite set_classes_same.
  - destruct (isIntersecting e).
    + erewrite app_bind_done; [|apply classList_add_run]. rewrite IH. reflexivity.
    + erewrite app_bind_done; [|reflexivity]. apply IH.
Qed.

Lemma add_class_tokens (el : Elem) (token : string) (cls : gmap Elem (list string))
      (e : Elem) (t : string) :
  t ∈ default [] (add_class el token cls !! e) <->
  t ∈ default [] (cls !! e) \/ (e = el /\ t = token).
Proof.
  unfold add_class. destruct (decide (token ∈ default [] (cls !! el))) as [Hin|Hn].
  - split; [tauto|]. intros [H|[-> ->]]; assumption.
  - destruct (decide (el = e)) as [->|Hne].
    + rewrite lookup_insert_eq. simpl. rewrite elem_of_app, list_elem_of_singleton. tauto.
    + rewrite lookup_insert_ne by assumption. split; [tauto|].
      intros [H|[-> _]]; [assumption | contradiction].
Qed.

Lemma add_class_NoDup (el : Elem) (token : string) (cls : gmap Elem (list string)) (e : Elem) :
  NoDup (default [] (cls !! e)) -> NoDup (default [] (add_class el token cls !! e)).
Proof.
  unfold add_class. destruct (decide (token ∈ default [] (cls !! el))) as [Hin|Hn]; [tauto|].
  destruct (decide (el = e)) as [->|Hne].
  - rewrite lookup_insert_eq. simpl. intros Hnd. apply NoDup_app.
    split; [exact Hnd|]. split; [|apply NoDup_singleton].
    intros x Hx Hx'. apply list_elem_of_singleton in Hx'. now subst.
  - now rewrite lookup_insert_ne by assumption.
Qed.

Lemma reveal_classes_tokens (entries : list Entry) : forall cls e t,
  t ∈ default [] (reveal_classes entries cls !! e) <->
  t ∈ default [] (cls !! e) \/
  (t = "visible" /\ exists x, x ∈ entries /\ isIntersecting x = true /\ target x = e).
Proof.
  induction entries as [|x entries IH]; intros cls e t; cbn [reveal_classes].
  - split; [tauto|]. intros [H|(_ & y & Hy & _)]; [assumption | now apply elem_of_nil in Hy].
  - rewrite IH. destruct (isIntersecting x) eqn:Ex.
    + rewrite add_class_tokens. split.
      * intros [[H|[-> ->]]|(-> & y & Hy & Hi & Ht)]; [tauto | |].
        -- right. split; [reflexivity|]. exists x. split; [apply list_elem_of_here | tauto].
        -- right. split; [reflexivity|]. exists y. split; [now apply list_elem_of_further | tauto].
      * intros [H|(-> & y & Hy & Hi & Ht)]; [tauto|].
        apply elem_of_cons in Hy as [->|Hy].
        -- left. right. split; [now symmetry | reflexivity].
        -- right. split; [reflexivity|]. now exists y.
    + split.
      * intros [H|(-> & y & Hy & Hi & Ht)]; [tauto|].
        right. split; [reflexivity|]. exists y. split; [now apply list_elem_of_further | tauto].
      * intros [H|(-> & y & Hy & Hi & Ht)]; [tauto|].
        apply elem_of_cons in Hy as [->|Hy]; [congruence|].
        right. split; [reflexivity|]. now exists y.
Qed.

Lemma reveal_classes_NoDup (entries : list Entry) : forall cls e,
  NoDup (default [] (cls !! e)) -> NoDup (default [] (reveal_classes entries cls !! e)).
Proof.
  induction entries as [|x entries IH]; intros cls e Hnd; cbn [reveal_classes]; [exact Hnd|].
  apply IH. destruct (isIntersecting x); [now apply add_class_NoDup | exact Hnd].
Qed.

(** X13. The observer's callback never throws.  It adds the class "visible"
    to the target of every intersecting entry and to no other element;
    it removes no class, repeats none, and an entry that is not
    intersecting changes nothing.  Nothing but class lists changes. *)
Theorem reveal_marks_intersecting (entries : list Entry) (w : World) :
  exists w',
    reveal entries w = Done tt w' /\
    (forall el t,
       t ∈ classList_of w' el <->
       t ∈ classList_of w el \/
       (t = "visible" /\
        exists x, x ∈ entries /\ isIntersecting x = true /\ target x = el)) /\
    (forall el, NoDup (classList_of w el) -> NoDup (classList_of w' el)) /\
    page w' = page w /\ floating w' = floating w /\ listeners w' = listeners w /\
    intervals w' = intervals w /\ observers w' = observers w.
Proof.
  eexists. split; [apply reveal_run|].
  split; [|split].
  - intros el t. apply reveal_classes_tokens.
  - intros el. apply reveal_classes_NoDup.
  - cbn. repeat split.
Qed.

(** ** What a delivery can do to the state *)

Lemma host_step_shape (rand : nat -> Q) (w : World) (inp : Input) :
  (exists p, host_step rand w inp = set_page p w) \/
  (exists c h,
     host_step rand w inp =
     set_listeners (listeners w ++ [created w])
       (set_floating (floating w ++ [mkHeartNode c (created w) h])
          (set_page (advance 5 (page w)) (set_created (S (created w)) w)))) \/
  host_step rand w inp = set_page (advance 5 (page w)) (set_created (S (created w)) w) \/
  (exists s, s ∈ listeners w /\
     host_step rand w inp = set_floating (filter (fun n => serial n <> s) (floating w)) w) \/
  (exists k o entries, observers w !! k = Some o /\
     host_step rand w inp =
     set_classes
       (reveal_classes (filter (fun e => target e ∈ targets o) entries) (classes w)) w).
Proof.
  unfold host_step, deliver. destruct inp as [i a b c|s|k entries].
  - destruct (intervals w !! i) as [[cb ms]|].
    + destruct cb as [container|ws us ds]; cbn [run_callback].
      * destruct container as [| |c'].
        -- right; right; left. now rewrite spawnHeart_absent.
        -- right; right; left. now rewrite spawnHeart_absent.
        -- right; left. exists c', (heart_at rand (draws (page w))).
           now rewrite spawnHeart_present.
      * left. eexists. erewrite lift_normal; [|apply updateAll_run]. reflexivity.
    + left. exists (page w). now rewrite set_page_same.
  - destruct (decide (s ∈ listeners w)) as [Hs|Hs].
    + right; right; right; left. exists s. split; [exact Hs | reflexivity].
    + left. exists (page w). now rewrite set_page_same.
  - destruct (observers w !! k) as [o|] eqn:Eo.
    + right; right; right; right. exists k, o, entries. split; [exact Eo|].
      now rewrite reveal_run.
    + left. exists (page w). now rewrite set_page_same.
Qed.

Lemma serials_filter (s : nat) (fl : list HeartNode) :
  map serial (filter (fun n => serial n <> s) fl) = filter (fun x => x <> s) (map serial fl).
Proof.
  induction fl as [|n fl IH]; [reflexivity|].
  rewrite filter_cons. cbn [map]. rewrite filter_cons.
  destruct (decide (serial n <> s)); cbn [map]; now rewrite IH.
Qed.

Lemma hearts_ok_step (rand : nat -> Q) (w : World) (inp : Input) :
  hearts_ok w -> hearts_ok (host_step rand w inp).
Proof.
  intros (Hnd & Hs & Hl). rewrite Forall_forall in Hs, Hl.
  destruct (host_step_shape rand w inp)
    as [[p ->]|[(c & h & ->)|[->|[(s & Hin & ->)|(k & o & entries & _ & ->)]]]];
    unfold hearts_ok, serials in *; cbn.
  - repeat split; [exact Hnd | |]; apply Forall_forall; auto.
  - rewrite map_app. cbn [map serial]. repeat split.
    + apply NoDup_app. split; [exact Hnd|]. split; [|apply NoDup_singleton].
      intros x Hx Hx'. apply list_elem_of_singleton in Hx'. subst x.
      destruct (Hs _ Hx). lia.
    + apply Forall_app. split.
      * apply Forall_forall. intros x Hx. destruct (Hs x Hx) as [H1 H2]. split; [lia|].
        apply elem_of_app. now left.
      * constructor; [|constructor]. split; [lia|].
        apply elem_of_app. right. apply list_elem_of_here.
    + apply Forall_app. split.
      * apply Forall_forall. intros x Hx. specialize (Hl x Hx). lia.
      * constructor; [lia | constructor].
  - repeat split; [exact Hnd | |]; apply Forall_forall.
    + intros x Hx. destruct (Hs x Hx). split; [lia | assumption].
    + intros x Hx. specialize (Hl x Hx). lia.
  - rewrite serials_filter. repeat split.
    + now apply NoDup_filter.
    + apply Forall_forall. intros x Hx. apply list_elem_of_filter in Hx as [_ Hx]. auto.
    + apply Forall_forall. auto.
  - repeat split; [exact Hnd | |]; apply Forall_forall; auto.
Qed.

Lemma gone_step (rand : nat -> Q) (w : World) (inp : Input) (s : nat) :
  (s < created (host_step rand w inp))%nat ->
  (s < created w)%nat -> s ∉ serials w ->
  s ∉ serials (host_step rand w inp).
Proof.
  intros _ Hlt Hn.
  destruct (host_step_shape rand w inp)
    as [[p ->]|[(c & h & ->)|[->|[(s' & Hin & ->)|(k & o & entries & _ & ->)]]]];
    unfold serials in *; cbn; try exact Hn.
  - rewrite map_app. cbn [map serial]. rewrite elem_of_app, list_elem_of_singleton.
    intros [H|H]; [contradiction | lia].
  - rewrite serials_filter. intros H. apply list_elem_of_filter in H as [_ H]. contradiction.
Qed.

Lemma created_step (rand : nat -> Q) (w : World) (inp : Input) :
  (created w <= created (host_step rand w inp))%nat.
Proof.
  destruct (host_step_shape rand w inp)
    as [[p ->]|[(c & h & ->)|[->|[(s' & Hin & ->)|(k & o & entries & _ & ->)]]]];
    cbn; lia.
Qed.

Lemma gone_run (rand : nat -> Q) (inps : list Input) (s : nat) : forall w,
  (s < created w)%nat -> s ∉ serials w -> s ∉ serials (host_run rand inps w).
Proof.
  unfold host_run. induction inps as [|inp inps IH]; intros w Hlt Hn; [exact Hn|].
  cbn [fold_left]. pose proof (created_step rand w inp) as Hc.
  apply IH; [lia|]. apply gone_step; [lia | exact Hlt | exact Hn].
Qed.

(** X14. In every state reached from one where it holds, whatever the host
    delivers and in whatever order, the attached hearts are pairwise
    distinct spans and each carries the listener that removes it. *)
Theorem hearts_stay_well_formed (rand : nat -> Q) (inps : list Input) (w : World) :
  hearts_ok w ->
  hearts_ok (host_run rand inps w).
Proof.
  unfold host_run. revert w.
  induction inps as [|inp inps IH]; intros w Hok; [exact Hok|].
  cbn [fold_left]. apply IH. now apply hearts_ok_step.
Qed.

Lemma initial_hearts_ok (p : Page) (order : list Elem) (cls : gmap Elem (list string)) :
  hearts_ok (initial_world p order cls).
Proof. repeat split; constructor. Qed.

Lemma sample_world_ok : hearts_ok sample_world.
Proof.
  unfold hearts_ok, serials, sample_world. cbn. split; [|split].
  - apply (bool_decide_unpack _). vm_compute. exact I.
  - apply (bool_decide_unpack _). vm_compute. exact I.
  - apply (bool_decide_unpack _). vm_compute. exact I.
Qed.

Lemma sample_world_listener : 0%nat ∈ listeners sample_world.
Proof. apply list_elem_of_here. Qed.

Lemma hearts_stay_well_formed_witness :
  hearts_ok sample_world /\
  hearts_ok (host_run sample_rand
               [TimerFires 0 0 0 0; AnimationEnds 0; Intersects 0 []; AnimationEnds 7]
               sample_world).
Proof.
  split; [exact sample_world_ok|].
  apply (hearts_stay_well_formed sample_rand
           [TimerFires 0 0 0 0; AnimationEnds 0; Intersects 0 []; AnimationEnds 7]
           sample_world sample_world_ok).
Defined.

Example hearts_after_a_run :
  serials (host_run sample_rand
             [TimerFires 0 0 0 0; AnimationEnds 0; Intersects 0 []; AnimationEnds 7]
             sample_world) = [1%nat; 2%nat] /\
  listeners (host_run sample_rand
             [TimerFires 0 0 0 0; AnimationEnds 0; Intersects 0 []; AnimationEnds 7]
             sample_world) = [0%nat; 1%nat; 2%nat] /\
  created (host_run sample_rand
             [TimerFires 0 0 0 0; AnimationEnds 0; Intersects 0 []; AnimationEnds 7]
             sample_world) = 3%nat.
Proof. repeat split. Qed.

(** X15. When the animation of a heart ends, its listener detaches exactly
    that span, and the span is never attached again, whatever the host
    delivers afterwards. *)
Theorem ended_heart_stays_gone (rand : nat -> Q) (w : World) (s : nat) (inps : list Input) :
  hearts_ok w ->
  s ∈ listeners w ->
  floating (host_step rand w (AnimationEnds s)) =
    filter (fun n => serial n <> s) (floating w) /\
  s ∉ serials (host_run rand (AnimationEnds s :: inps) w).
Proof.
  intros (_ & _ & Hl) Hs. rewrite Forall_forall in Hl.
  assert (Hstep : host_step rand w (AnimationEnds s) =
                  set_floating (filter (fun n => serial n <> s) (floating w)) w).
  { unfold host_step, deliver. destruct (decide (s ∈ listeners w)); [reflexivity | contradiction]. }
  split; [now rewrite Hstep|].
  unfold host_run. cbn [fold_left]. apply gone_run.
  - rewrite Hstep. cbn. now apply Hl.
  - rewrite Hstep. unfold serials. cbn. rewrite serials_filter.
    intros H. apply list_elem_of_filter in H as [H _]. now apply H.
Qed.

Lemma hearts_ok_run (rand : nat -> Q) (inps : list Input) : forall w,
  hearts_ok w -> hearts_ok (host_run rand inps w).
Proof.
  unfold host_run. induction inps as [|inp inps IH]; intros w Hok; [exact Hok|].
  cbn [fold_left]. apply IH. now apply hearts_ok_step.
Qed.

Lemma created_run (rand : nat -> Q) (inps : list Input) : forall w,
  (created w <= created (host_run rand inps w))%nat.
Proof.
  unfold host_run. induction inps as [|inp inps IH]; intros w; [reflexivity|].
  cbn [fold_left]. pose proof (created_step rand w inp). specialize (IH (host_step rand w inp)).
  lia.
Qed.

Lemma old_serial_step (rand : nat -> Q) (w : World) (inp : Input) (s : nat) :
  (s < created w)%nat -> s ∈ serials (host_step rand w inp) -> s ∈ serials w.
Proof.
  intros Hlt.
  destruct (host_step_shape rand w inp)
    as [[p ->]|[(c & h & ->)|[->|[(s' & Hin & ->)|(k & o & entries & _ & ->)]]]];
    unfold serials; cbn; try tauto.
  - rewrite map_app. cbn [map serial]. rewrite elem_of_app, list_elem_of_singleton.
    intros [H|H]; [exact H | lia].
  - rewrite serials_filter. intros H. now apply list_elem_of_filter in H as [_ H].
Qed.

Lemma old_serial_run (rand : nat -> Q) (inps : list Input) (s : nat) : forall w,
  (s < created w)%nat -> s ∈ serials (host_run rand inps w) -> s ∈ serials w.
Proof.
  unfold host_run. induction inps as [|inp inps IH]; intros w Hlt Hs; [exact Hs|].
  cbn [fold_left] in Hs. pose proof (created_step rand w inp) as Hc.
  apply (old_serial_step rand w inp); [exact Hlt|]. apply IH; [lia | exact Hs].
Qed.

Lemma ended_step (rand : nat -> Q) (w : World) (s : nat) :
  hearts_ok w -> s ∉ serials (host_step rand w (AnimationEnds s)).
Proof.
  intros (_ & Hs & _). rewrite Forall_forall in Hs.
  unfold host_step, deliver. destruct (decide (s ∈ listeners w)) as [Hin|Hn].
  - unfold serials. cbn. rewrite serials_filter.
    intros H. apply list_elem_of_filter in H as [H _]. now apply H.
  - cbn. intros H. now apply Hs in H.
Qed.

Lemma created_ends (rand : nat -> Q) (inps : list Input) : forall w,
  (forall inp, inp ∈ inps -> exists s, inp = AnimationEnds s) ->
  created (host_run rand inps w) = created w.
Proof.
  unfold host_run. induction inps as [|inp inps IH]; intros w Hall; [reflexivity|].
  cbn [fold_left]. rewrite IH.
  - destruct (Hall inp) as [s ->]; [apply list_elem_of_here|].
    unfold host_step, deliver. now destruct (decide (s ∈ listeners w)).
  - intros x Hx. apply Hall. now apply list_elem_of_further.
Qed.

(** X16. Hearts do not pile up.  Take any run of deliveries that contains
    the animation end of every heart attached at its start, in whatever
    order and with whatever else in between: every heart attached at the
    end of the run was created during the run.  If the run consists of
    animation ends only, no heart is attached at its end. *)
Theorem hearts_all_leave (rand : nat -> Q) (w : World) (inps : list Input) :
  hearts_ok w ->
  (forall s, s ∈ serials w -> AnimationEnds s ∈ inps) ->
  (forall s, s ∈ serials (host_run rand inps w) -> (created w <= s)%nat) /\
  ((forall inp, inp ∈ inps -> exists s, inp = AnimationEnds s) ->
   floating (host_run rand inps w) = []).
Proof.
  intros Hok Hall.
  assert (Hnew : forall s, s ∈ serials (host_run rand inps w) -> (created w <= s)%nat).
  { intros s Hs. destruct (le_lt_dec (created w) s) as [Hle|Hlt]; [exact Hle | exfalso].
    pose proof (old_serial_run rand inps s w Hlt Hs) as Hold.
    apply Hall, list_elem_of_split in Hold as (pre & post & ->).
    unfold host_run in Hs. rewrite fold_left_app in Hs. cbn [fold_left] in Hs.
    fold (host_run rand pre w) in Hs.
    pose proof (created_run rand pre w) as Hc1.
    pose proof (created_step rand (host_run rand pre w) (AnimationEnds s)) as Hc2.
    revert Hs. apply (gone_run rand post s); [lia|].
    apply ended_step. now apply hearts_ok_run. }
  split; [exact Hnew|]. intros Hends.
  pose proof (hearts_ok_run rand inps w Hok) as (_ & Hs & _). rewrite Forall_forall in Hs.
  rewrite (created_ends rand inps w Hends) in Hs.
  destruct (floating (host_run rand inps w)) as [|n fl] eqn:E; [reflexivity | exfalso].
  assert (Hn : serial n ∈ serials (host_run rand inps w)).
  { unfold serials. rewrite E. apply list_elem_of_here. }
  pose proof (Hnew _ Hn). destruct (Hs _ Hn). lia.
Qed.

Lemma ended_heart_stays_gone_witness :
  hearts_ok sample_world /\
  0%nat ∈ listeners sample_world /\
  floating (host_step sample_rand sample_world (AnimationEnds 0)) =
    filter (fun n => serial n <> 0%nat) (floating sample_world) /\
  0%nat ∉ serials (host_run sample_rand
                     (AnimationEnds 0 :: [TimerFires 0 0 0 0; TimerFires 0 0 0 0])
                     sample_world).
Proof.
  split; [exact sample_world_ok|]. split; [exact sample_world_listener|].
  apply (ended_heart_stays_gone sample_rand sample_world 0%nat
           [TimerFires 0 0 0 0; TimerFires 0 0 0 0] sample_world_ok sample_world_listener).
Defined.

Lemma sample_world_ends (inps : list Input) :
  AnimationEnds 0 ∈ inps -> AnimationEnds 1 ∈ inps ->
  forall s, s ∈ serials sample_world -> AnimationEnds s ∈ inps.
Proof.
  intros H0 H1 s Hs. unfold serials, sample_world in Hs. cbn in Hs.
  apply elem_of_cons in Hs as [->|Hs]; [exact H0|].
  apply list_elem_of_singleton in Hs as ->. exact H1.
Qed.

Lemma hearts_all_leave_witness :
  hearts_ok sample_world /\
  (forall s, s ∈ serials sample_world ->
     AnimationEnds s ∈ [AnimationEnds 1; TimerFires 0 0 0 0; AnimationEnds 0]) /\
  (forall s, s ∈ serials (host_run sample_rand
                            [AnimationEnds 1; TimerFires 0 0 0 0; AnimationEnds 0] sample_world) ->
     (created sample_world <= s)%nat) /\
  ((forall inp, inp ∈ [AnimationEnds 1; TimerFires 0 0 0 0; AnimationEnds 0] ->
      exists s, inp = AnimationEnds s) ->
   floating (host_run sample_rand
               [AnimationEnds 1; TimerFires 0 0 0 0; AnimationEnds 0] sample_world) = []).
Proof.
  assert (H : forall s, s ∈ serials sample_world ->
     AnimationEnds s ∈ [AnimationEnds 1; TimerFires 0 0 0 0; AnimationEnds 0]).
  { apply sample_world_ends.
    - do 2 apply list_elem_of_further. apply list_elem_of_here.
    - apply list_elem_of_here. }
  split; [exact sample_world_ok|]. split; [exact H|].
  apply (hearts_all_leave sample_rand sample_world
           [AnimationEnds 1; TimerFires 0 0 0 0; AnimationEnds 0] sample_world_ok H).
Defined.

Example hearts_leave_in_any_order :
  serials (host_run sample_rand [AnimationEnds 1; TimerFires 0 0 0 0; AnimationEnds 0]
             sample_world) = [2%nat] /\
  serials (host_run sample_rand [AnimationEnds 0; TimerFires 0 0 0 0; AnimationEnds 1]
             sample_world) = [2%nat] /\
  floating (host_run sample_rand [AnimationEnds 1; AnimationEnds 0; AnimationEnds 1]
              sample_world) = [].
Proof. repeat split. Qed.

(** ** Setting up the observer *)

Lemma add_target_elem (c : Elem) (o : Observer) (el : Elem) :
  el ∈ targets (add_target c o) <-> el ∈ targets o \/ el = c.
Proof.
  unfold add_target. destruct (decide (c ∈ targets o)) as [Hin|Hn].
  - split; [tauto|]. intros [H| ->]; assumption.
  - cbn. rewrite elem_of_app, list_elem_of_singleton. tauto.
Qed.

Lemma add_target_keeps (c : Elem) (o : Observer) :
  threshold (add_target c o) = threshold o /\
  rootMargin (add_target c o) = rootMargin o /\
  (NoDup (targets o) -> NoDup (targets (add_target c o))).
Proof.
  unfold add_target. destruct (decide (c ∈ targets o)) as [Hin|Hn]; [tauto|].
  cbn. repeat split. intros Hnd. apply NoDup_app.
  split; [exact Hnd|]. split; [|apply NoDup_singleton].
  intros x Hx Hx'. apply list_elem_of_singleton in Hx'. now subst.
Qed.

Lemma observe_targets_spec (cards : list Elem) : forall o,
  threshold (observe_targets cards o) = threshold o /\
  rootMargin (observe_targets cards o) = rootMargin o /\
  (NoDup (targets o) -> NoDup (targets (observe_targets cards o))) /\
  (forall el, el ∈ targets (observe_targets cards o) <-> el ∈ targets o \/ el ∈ cards).
Proof.
  unfold observe_targets.
  induction cards as [|c cards IH]; intros o; cbn [fold_left].
  - repeat split; try tauto. intros [H|H]; [assumption | now apply elem_of_nil in H].
  - destruct (IH (add_target c o)) as (Ht & Hm & Hn & He).
    destruct (add_target_keeps c o) as (Ht' & Hm' & Hn').
    rewrite Ht, Hm, Ht', Hm'. repeat split; [tauto|..].
    + intros H. apply He in H as [H|H].
      * apply add_target_elem in H as [H| ->]; [tauto|]. right. apply list_elem_of_here.
      * right. now apply list_elem_of_further.
    + intros [H|H]; apply He.
      * left. apply add_target_elem. tauto.
      * apply elem_of_cons in H as [->|H]; [|tauto]. left. apply add_target_elem. tauto.
Qed.

Lemma observe_all (cards : list Elem) : forall (obs : list Observer) (o : Observer) (w : World),
  observers w = obs ++ [o] ->
  for_each cards (fun card => observe (length obs) card) w =
  Done tt (set_observers (obs ++ [observe_targets cards o]) w).
Proof.
  induction cards as [|c cards IH]; intros obs o w Hw; cbn [for_each].
  - unfold observe_targets. cbn [fold_left]. rewrite <- Hw. now destruct w.
  - erewrite app_bind_done; [|reflexivity].
    rewrite (IH obs (add_target c o)).
    + reflexivity.
    + cbn. rewrite Hw. rewrite alter_app_r_alt by lia.
      now rewrite Nat.sub_diag.
Qed.

Lemma initScrollReveal_run (w : World) :
  initScrollReveal w =
  Done tt (set_observers
             (observers w ++
              [observe_targets (trip_cards w) (mkObserver (15 # 100) "0px 0px -50px 0px" [])])
             w).
Proof.
  unfold initScrollReveal.
  erewrite app_bind_done; [|reflexivity].
  erewrite app_bind_done; [|reflexivity].
  erewrite observe_all; [|reflexivity].
  now destruct w.
Qed.

(** X17. Setting up the reveal never throws.  It adds one observer, with
    threshold 0.15 and a bottom margin of -50px, whose targets are
    exactly the elements of the document that carry the class
    "trip-card", each once (none when there is no such element);
    observers already present and all class lists are left as they are. *)
Theorem scroll_reveal_observes_cards (w : World) :
  exists w' o,
    initScrollReveal w = Done tt w' /\
    observers w' = observers w ++ [o] /\
    threshold o = (15 # 100)%Q /\ rootMargin o = "0px 0px -50px 0px" /\
    (forall el, el ∈ targets o <->
                el ∈ document_order w /\ "trip-card" ∈ classList_of w el) /\
    NoDup (targets o) /\
    classes w' = classes w /\ page w' = page w /\ intervals w' = intervals w.
Proof.
  eexists _, _. split; [apply initScrollReveal_run|].
  destruct (observe_targets_spec (trip_cards w) (mkObserver (15 # 100) "0px 0px -50px 0px" []))
    as (Ht & Hm & Hn & He).
  split; [reflexivity|]. split; [exact Ht|]. split; [exact Hm|].
  split; [|split; [apply Hn; constructor | cbn; repeat split]].
  intros el. rewrite He. unfold trip_cards. rewrite list_elem_of_filter. cbn.
  split.
  - intros [H|H]; [now apply elem_of_nil in H | tauto].
  - tauto.
Qed.

(** ** Start-up *)

Lemma found_ids (p q : Page) (id : string) : ids q = ids p -> found q id = found p id.
Proof. intros H. unfold found. now rewrite H. Qed.

Lemma init_absent (rand : nat -> Q) (toISOString : Z -> string)
      (now_w now_u now_d now_b : Z) (w : World) :
  ids (page w) !! "particles" = None ->
  init rand toISOString now_w now_u now_d now_b w =
  Raised (TypeError "Cannot read properties of null (reading 'appendChild')")
         (set_page (advance 7 (page w)) w).
Proof.
  intros Hc. unfold init.
  apply app_bind_raised. apply lift_throw. now apply createParticles_absent.
Qed.

Lemma init_present (rand : nat -> Q) (toISOString : Z -> string)
      (now_w now_u now_d now_b : Z) (w : World) (c : Elem) :
  ids (page w) !! "particles" = Some c ->
  exists q,
    init rand toISOString now_w now_u now_d now_b w =
    Done tt
      (set_page q
         (set_observers
            (observers w ++
             [observe_targets (trip_cards w) (mkObserver (15 # 100) "0px 0px -50px 0px" [])])
            (set_intervals
               (intervals w ++
                [(SpawnHeart (node c), 800);
                 (CountdownTick (wedding_slots (page w)) (usa_slots_of (page w))
                                (dolomites_slots_of (page w)), 1000)])
               w))) /\
    q = img_set (found (page w) "dolomitesImage")
          ("images/dolomites-minimoon.png?v=" +:+ split_head "T" (toISOString now_b))
          (img_set (found (page w) "usaImage")
             ("images/usa-honeymoon.png?v=" +:+ split_head "T" (toISOString now_b))
             (apply_writes (first_round now_w now_u now_d (page w))
                (attach rand c (particle_count (innerWidth (page w))) (page w)))).
Proof.
  intros Hc.
  set (p := page w).
  set (q1 := attach rand c (particle_count (innerWidth p)) p).
  destruct (attach_frame rand c (particle_count (innerWidth p)) p) as (Hi1 & _).
  fold q1 in Hi1.
  set (q2 := apply_writes (first_round now_w now_u now_d p) q1).
  assert (Hi2 : ids q2 = ids p).
  { unfold q2. destruct (apply_writes_frame (first_round now_w now_u now_d p) q1) as (-> & _).
    exact Hi1. }
  eexists. split; [|reflexivity].
  unfold init.
  erewrite app_bind_done;
    [|apply lift_normal; exact (createParticles_present rand p c Hc)].
  fold q1.
  erewrite app_bind_done; [|apply createFloatingHearts_run].
  cbn [page set_page set_intervals intervals].
  assert (Hf : found p "particles" = node c) by (unfold found, p; now rewrite Hc).
  rewrite (found_ids p q1 "particles" Hi1), Hf.
  unfold startCountdowns_timer.
  erewrite app_bind_done.
  2:{ erewrite app_bind_done; [|apply lift_normal, startCountdowns_run].
      cbn [page set_page]. reflexivity. }
  rewrite !(found_ids p q1 _ Hi1).
  fold (wedding_slots p) (usa_slots_of p) (dolomites_slots_of p).
  fold (first_round now_w now_u now_d p). fold q2.
  erewrite app_bind_done; [|apply initScrollReveal_run].
  erewrite lift_normal; [|apply bustImageCache_run].
  cbn [page set_page set_observers set_intervals observers intervals document_order classes
       created floating listeners fst snd].
  rewrite !(found_ids p q2 _ Hi2).
  unfold trip_cards, classList_of, setInterval. cbn. subst p.
  rewrite <- app_assoc. reflexivity.
Qed.

Lemma img_set_trace (p0 p : Page) (id url : string) :
  trace (img_set (found p0 id) url p) = trace p ++ img_write p0 id url.
Proof.
  unfold img_set, found, img_write. destruct (ids p0 !! id); cbn; [reflexivity|].
  now rewrite app_nil_r.
Qed.

Lemma img_set_text (v : Value) (url : string) (p : Page) :
  textContent (img_set v url p) = textContent p.
Proof. now destruct v. Qed.

Lemma quiet_step (rand : nat -> Q) (w : World) (inp : Input) :
  intervals w = [] -> listeners w = [] -> observers w = [] ->
  host_step rand w inp = w.
Proof.
  intros Hi Hl Ho. unfold host_step, deliver. destruct inp as [i a b c|s|k entries].
  - now rewrite Hi.
  - destruct (decide (s ∈ listeners w)) as [Hs|Hs]; [|reflexivity].
    rewrite Hl in Hs. now apply elem_of_nil in Hs.
  - now rewrite Ho.
Qed.

Lemma quiet_run (rand : nat -> Q) (inps : list Input) (w : World) :
  intervals w = [] -> listeners w = [] -> observers w = [] ->
  host_run rand inps w = w.
Proof.
  intros Hi Hl Ho. unfold host_run.
  induction inps as [|inp inps IH]; [reflexivity|].
  cbn [fold_left]. now rewrite quiet_step.
Qed.

(** X18. Without the particle container start-up stops at its first step:
    the handler throws, no timer, listener or observer is registered, no
    text and no [src] is written, and from then on nothing the host can
    deliver changes anything: the countdown never shows. *)
Theorem startup_stops_without_container
        (rand : nat -> Q) (toISOString : Z -> string) (now_w now_u now_d now_b : Z)
        (p : Page) (order : list Elem) (cls : gmap Elem (list string)) :
  ids p !! "particles" = None ->
  exists msg w1,
    init rand toISOString now_w now_u now_d now_b (initial_world p order cls) =
      Raised (TypeError msg) w1 /\
    intervals w1 = [] /\ listeners w1 = [] /\ observers w1 = [] /\
    textContent (page w1) = textContent p /\ src (page w1) = src p /\
    childNodes (page w1) = childNodes p /\ trace (page w1) = trace p /\
    classes w1 = cls /\
    (forall rand' inps, host_run rand' inps w1 = w1).
Proof.
  intros Hc. eexists _, _. split; [now apply init_absent|].
  cbn. repeat split. intros rand' inps. now apply quiet_run.
Qed.

Lemma startup_stops_without_container_witness :
  ids (blank_page 1024) !! "particles" = None /\
  exists msg w1,
    init sample_rand toISOString_utc 0 0 0 0 (initial_world (blank_page 1024) [] ∅) =
      Raised (TypeError msg) w1 /\
    intervals w1 = [] /\ listeners w1 = [] /\ observers w1 = [] /\
    textContent (page w1) = textContent (blank_page 1024) /\
    src (page w1) = src (blank_page 1024) /\
    childNodes (page w1) = childNodes (blank_page 1024) /\
    trace (page w1) = trace (blank_page 1024) /\
    classes w1 = ∅ /\
    (forall rand' inps, host_run rand' inps w1 = w1).
Proof.
  split; [reflexivity|].
  apply (startup_stops_without_container sample_rand toISOString_utc 0 0 0 0
           (blank_page 1024) [] ∅).
  reflexivity.
Defined.

(** X19. With the container on the page start-up returns normally.  It leaves
    two timers, the hearts every 800 ms on the container found and the
    countdown every 1000 ms on the slot sets resolved at that moment, and
    one observer on the trip cards; its writes are, in this order, the
    particles, the first round of the countdown and the two image
    sources. *)
Theorem startup_on_full_page
        (rand : nat -> Q) (toISOString : Z -> string) (now_w now_u now_d now_b : Z)
        (w : World) (c : Elem) :
  ids (page w) !! "particles" = Some c ->
  exists w1 o,
    init rand toISOString now_w now_u now_d now_b w = Done tt w1 /\
    intervals w1 =
      intervals w ++
      [(SpawnHeart (node c), 800);
       (CountdownTick (wedding_slots (page w)) (usa_slots_of (page w))
                      (dolomites_slots_of (page w)), 1000)] /\
    observers w1 = observers w ++ [o] /\
    (forall el, el ∈ targets o <->
                el ∈ document_order w /\ "trip-card" ∈ classList_of w el) /\
    trace (page w1) =
      trace (page w) ++
      map (AppendChild c)
          (particles_from rand (draws (page w)) (particle_count (innerWidth (page w)))) ++
      map text_event (first_round now_w now_u now_d (page w)) ++
      img_write (page w) "usaImage"
        ("images/usa-honeymoon.png?v=" +:+ split_head "T" (toISOString now_b)) ++
      img_write (page w) "dolomitesImage"
        ("images/dolomites-minimoon.png?v=" +:+ split_head "T" (toISOString now_b)) /\
    floating w1 = floating w /\ listeners w1 = listeners w /\ classes w1 = classes w.
Proof.
  intros Hc.
  destruct (init_present rand toISOString now_w now_u now_d now_b w c Hc) as (q & Hrun & Hq).
  eexists _, _. split; [exact Hrun|].
  split; [reflexivity|]. split; [reflexivity|].
  destruct (observe_targets_spec (trip_cards w) (mkObserver (15 # 100) "0px 0px -50px 0px" []))
    as (_ & _ & _ & He).
  split; [|split; [|cbn; repeat split]].
  - intros el. rewrite He. unfold trip_cards. rewrite list_elem_of_filter. cbn.
    split; [intros [H|H]; [now apply elem_of_nil in H | tauto] | tauto].
  - cbn [page set_page]. subst q.
    rewrite !img_set_trace, apply_writes_trace, attach_trace.
    now rewrite <- !app_assoc.
Qed.

Lemma startup_on_full_page_witness :
  ids (page sample_world) !! "particles" = Some 9%nat /\
  exists w1 o,
    init sample_rand toISOString_utc 0 0 0 1774537200000 sample_world = Done tt w1 /\
    intervals w1 =
      intervals sample_world ++
      [(SpawnHeart (node 9%nat), 800);
       (CountdownTick (wedding_slots (page sample_world)) (usa_slots_of (page sample_world))
                      (dolomites_slots_of (page sample_world)), 1000)] /\
    observers w1 = observers sample_world ++ [o] /\
    (forall el, el ∈ targets o <->
                el ∈ document_order sample_world /\ "trip-card" ∈ classList_of sample_world el) /\
    trace (page w1) =
      trace (page sample_world) ++
      map (AppendChild 9%nat)
          (particles_from sample_rand (draws (page sample_world))
             (particle_count (innerWidth (page sample_world)))) ++
      map text_event (first_round 0 0 0 (page sample_world)) ++
      img_write (page sample_world) "usaImage"
        ("images/usa-honeymoon.png?v=" +:+ split_head "T" (toISOString_utc 1774537200000)) ++
      img_write (page sample_world) "dolomitesImage"
        ("images/dolomites-minimoon.png?v=" +:+ split_head "T" (toISOString_utc 1774537200000)) /\
    floating w1 = floating sample_world /\ listeners w1 = listeners sample_world /\
    classes w1 = classes sample_world.
Proof.
  split; [reflexivity|].
  apply (startup_on_full_page sample_rand toISOString_utc 0 0 0 1774537200000 sample_world 9%nat).
  reflexivity.
Defined.

(** ** After start-up *)

Lemma host_step_keeps (rand : nat -> Q) (w : World) (inp : Input) :
  intervals (host_step rand w inp) = intervals w /\
  observers (host_step rand w inp) = observers w /\
  document_order (host_step rand w inp) = document_order w.
Proof.
  destruct (host_step_shape rand w inp)
    as [[p ->]|[(c & h & ->)|[->|[(s' & Hin & ->)|(k & o & entries & _ & ->)]]]];
    cbn; repeat split.
Qed.

Lemma host_run_keeps (rand : nat -> Q) (inps : list Input) : forall w,
  intervals (host_run rand inps w) = intervals w /\
  observers (host_run rand inps w) = observers w /\
  document_order (host_run rand inps w) = document_order w.
Proof.
  unfold host_run. induction inps as [|inp inps IH]; intros w; [repeat split|].
  cbn [fold_left]. destruct (IH (host_step rand w inp)) as (-> & -> & ->).
  apply host_step_keeps.
Qed.

Lemma classes_step (rand : nat -> Q) (w : World) (inp : Input) (el : Elem) (t : string) :
  t ∈ classList_of w el -> t ∈ classList_of (host_step rand w inp) el.
Proof.
  intros Ht.
  destruct (host_step_shape rand w inp)
    as [[p ->]|[(c & h & ->)|[->|[(s' & Hin & ->)|(k & o & entries & _ & ->)]]]];
    unfold classList_of in *; cbn; try exact Ht.
  apply reveal_classes_tokens. now left.
Qed.

(** X20. Nothing the host delivers ever removes a class: an element once
    marked "visible" stays visible through every later timer firing,
    animation end and observer report (also one that says the element no
    longer intersects). *)
Theorem revealed_stays (rand : nat -> Q) (inps : list Input) (w : World)
        (el : Elem) (t : string) :
  t ∈ classList_of w el ->
  t ∈ classList_of (host_run rand inps w) el.
Proof.
  unfold host_run. revert w. induction inps as [|inp inps IH]; intros w Ht; [exact Ht|].
  cbn [fold_left]. apply IH. now apply classes_step.
Qed.

Lemma revealed_stays_witness :
  "trip-card" ∈ classList_of sample_world 20%nat /\
  "trip-card" ∈ classList_of
     (host_run sample_rand
        [Intersects 0 [mkEntry false 20%nat]; TimerFires 0 0 0 0] sample_world) 20%nat.
Proof.
  assert (H : "trip-card" ∈ classList_of sample_world 20%nat).
  { apply (bool_decide_unpack _). vm_compute. exact I. }
  split; [exact H|].
  apply (revealed_stays sample_rand
           [Intersects 0 [mkEntry false 20%nat]; TimerFires 0 0 0 0] sample_world
           20%nat "trip-card" H).
Defined.

Lemma visible_step (rand : nat -> Q) (w : World) (inp : Input) (V P : Elem -> Prop) :
  (forall o el, o ∈ observers w -> el ∈ targets o -> P el) ->
  (forall el, "visible" ∈ classList_of w el -> V el \/ P el) ->
  forall el, "visible" ∈ classList_of (host_step rand w inp) el -> V el \/ P el.
Proof.
  intros Hobs Hvis el.
  destruct (host_step_shape rand w inp)
    as [[p ->]|[(c & h & ->)|[->|[(s' & Hin & ->)|(k & o & entries & Ho & ->)]]]];
    unfold classList_of in *; cbn; try apply Hvis.
  intros H. apply reveal_classes_tokens in H as [H|(_ & x & Hx & _ & <-)]; [now apply Hvis|].
  apply list_elem_of_filter in Hx as [Hx _]. right.
  apply (Hobs o); [|exact Hx]. now apply list_elem_of_lookup_2 in Ho.
Qed.

Lemma visible_run (rand : nat -> Q) (inps : list Input) (V P : Elem -> Prop) : forall w,
  (forall o el, o ∈ observers w -> el ∈ targets o -> P el) ->
  (forall el, "visible" ∈ classList_of w el -> V el \/ P el) ->
  forall el, "visible" ∈ classList_of (host_run rand inps w) el -> V el \/ P el.
Proof.
  unfold host_run. induction inps as [|inp inps IH]; intros w Hobs Hvis; [exact Hvis|].
  cbn [fold_left]. apply IH.
  - destruct (host_step_keeps rand w inp) as (_ & -> & _). exact Hobs.
  - now apply visible_step.
Qed.

(** X21. From a fresh document, through start-up and whatever the host
    delivers afterwards, an element carries the class "visible" only if
    it carried it from the beginning or is a trip card of the document:
    the script reveals trip cards and nothing else. *)
Theorem only_trip_cards_revealed
        (rand : nat -> Q) (toISOString : Z -> string) (now_w now_u now_d now_b : Z)
        (p : Page) (order : list Elem) (cls : gmap Elem (list string))
        (inps : list Input) (el : Elem) :
  "visible" ∈ classList_of
     (host_run rand inps
        (world_of (init rand toISOString now_w now_u now_d now_b
                     (initial_world p order cls)))) el ->
  "visible" ∈ default [] (cls !! el) \/
  (el ∈ order /\ "trip-card" ∈ default [] (cls !! el)).
Proof.
  apply (visible_run rand inps
           (fun el => "visible" ∈ default [] (cls !! el))
           (fun el => el ∈ order /\ "trip-card" ∈ default [] (cls !! el))).
  - intros o e Ho He.
    destruct (ids p !! "particles") as [c|] eqn:Ec.
    + destruct (init_present rand toISOString now_w now_u now_d now_b
                  (initial_world p order cls) c Ec) as (q & Hrun & _).
      rewrite Hrun in Ho. cbn in Ho. apply list_elem_of_singleton in Ho. subst o.
      apply observe_targets_spec in He as [He|He]; [now apply elem_of_nil in He|].
      unfold trip_cards in He. apply list_elem_of_filter in He. cbn in He. tauto.
    + rewrite init_absent in Ho by exact Ec. cbn in Ho. now apply elem_of_nil in Ho.
  - intros e He. left.
    destruct (ids p !! "particles") as [c|] eqn:Ec.
    + destruct (init_present rand toISOString now_w now_u now_d now_b
                  (initial_world p order cls) c Ec) as (q & Hrun & _).
      rewrite Hrun in He. exact He.
    + rewrite init_absent in He by exact Ec. exact He.
Qed.

Lemma only_trip_cards_revealed_witness :
  "visible" ∈ classList_of
     (host_run sample_rand [Intersects 0 [mkEntry true 20%nat; mkEntry true 21%nat]]
        (world_of (init sample_rand toISOString_utc 0 0 0 0
                     (initial_world (sample_page 1024) [20%nat; 21%nat]
                        (list_to_map [(20%nat, ["trip-card"]); (21%nat, ["hero"])]))))) 20%nat /\
  ("visible" ∈ default [] ((list_to_map [(20%nat, ["trip-card"]); (21%nat, ["hero"])]
                              : gmap Elem (list string)) !! 20%nat) \/
   (20%nat ∈ [20%nat; 21%nat] /\
    "trip-card" ∈ default [] ((list_to_map [(20%nat, ["trip-card"]); (21%nat, ["hero"])]
                                 : gmap Elem (list string)) !! 20%nat))).
Proof.
  assert (H : "visible" ∈ classList_of
     (host_run sample_rand [Intersects 0 [mkEntry true 20%nat; mkEntry true 21%nat]]
        (world_of (init sample_rand toISOString_utc 0 0 0 0
                     (initial_world (sample_page 1024) [20%nat; 21%nat]
                        (list_to_map [(20%nat, ["trip-card"]); (21%nat, ["hero"])]))))) 20%nat).
  { apply (bool_decide_unpack _). vm_compute. exact I. }
  split; [exact H|].
  apply (only_trip_cards_revealed sample_rand toISOString_utc 0 0 0 0 (sample_page 1024)
           [20%nat; 21%nat] (list_to_map [(20%nat, ["trip-card"]); (21%nat, ["hero"])])
           [Intersects 0 [mkEntry true 20%nat; mkEntry true 21%nat]] 20%nat H).
Defined.

(** X22. After a start-up with the container, every later firing of the
    countdown timer, whatever was delivered in between, returns normally
    and renders the three events into the slot sets that were resolved
    at start-up; it changes nothing but the page's texts. *)
Theorem countdown_keeps_ticking
        (rand : nat -> Q) (toISOString : Z -> string) (now_w now_u now_d now_b : Z)
        (w : World) (c : Elem) (inps : list Input) (a b d : Z) :
  ids (page w) !! "particles" = Some c ->
  exists w2,
    w2 = host_run rand inps (world_of (init rand toISOString now_w now_u now_d now_b w)) /\
    deliver rand (TimerFires (S (length (intervals w))) a b d) w2 =
    Done tt
      (set_page
         (apply_writes
            (countdown_writes a WEDDING_DATE (wedding_slots (page w)) ++
             countdown_writes b USA_DATE (usa_slots_of (page w)) ++
             countdown_writes d DOLOMITES_DATE (dolomites_slots_of (page w)))
            (page w2))
         w2).
Proof.
  intros Hc. eexists. split; [reflexivity|].
  destruct (init_present rand toISOString now_w now_u now_d now_b w c Hc) as (q & Hrun & _).
  rewrite Hrun. cbn [world_of].
  match goal with |- deliver _ _ ?x = _ => set (w2 := x) end.
  assert (Hi : intervals w2 =
               intervals w ++
               [(SpawnHeart (node c), 800);
                (CountdownTick (wedding_slots (page w)) (usa_slots_of (page w))
                               (dolomites_slots_of (page w)), 1000)]).
  { unfold w2. destruct (host_run_keeps rand inps
      (set_page q
         (set_observers
            (observers w ++
             [observe_targets (trip_cards w) (mkObserver (15 # 100) "0px 0px -50px 0px" [])])
            (set_intervals
               (intervals w ++
                [(SpawnHeart (node c), 800);
                 (CountdownTick (wedding_slots (page w)) (usa_slots_of (page w))
                                (dolomites_slots_of (page w)), 1000)])
               w)))) as (-> & _). reflexivity. }
  unfold deliver. rewrite Hi.
  rewrite lookup_app_r by lia.
  replace (S (length (intervals w)) - length (intervals w))%nat with 1%nat by lia.
  cbn [lookup list_lookup run_callback].
  erewrite lift_normal; [|apply updateAll_run]. reflexivity.
Qed.

Lemma countdown_keeps_ticking_witness :
  ids (page sample_world) !! "particles" = Some 9%nat /\
  exists w2,
    w2 = host_run sample_rand [TimerFires 0 0 0 0; AnimationEnds 0]
           (world_of (init sample_rand toISOString_utc 0 0 0 0 sample_world)) /\
    deliver sample_rand (TimerFires (S (length (intervals sample_world))) 5 6 7) w2 =
    Done tt
      (set_page
         (apply_writes
            (countdown_writes 5 WEDDING_DATE (wedding_slots (page sample_world)) ++
             countdown_writes 6 USA_DATE (usa_slots_of (page sample_world)) ++
             countdown_writes 7 DOLOMITES_DATE (dolomites_slots_of (page sample_world)))
            (page w2))
         w2).
Proof.
  split; [reflexivity|].
  apply (countdown_keeps_ticking sample_rand toISOString_utc 0 0 0 0 sample_world 9%nat
           [TimerFires 0 0 0 0; AnimationEnds 0] 5 6 7).
  reflexivity.
Defined.

(** ** The cache bust at page load *)

Lemma no_src_in_texts (w : list (Elem * string)) (el : Elem) (url : string) :
  SetSrc el url ∉ map text_event w.
Proof.
  intros H. apply list_elem_of_In, in_map_iff in H as (x & Hx & _). discriminate Hx.
Qed.

Lemma no_src_in_children (c : Elem) (l : list Particle) (el : Elem) (url : string) :
  SetSrc el url ∉ map (AppendChild c) l.
Proof.
  intros H. apply list_elem_of_In, in_map_iff in H as (x & Hx & _). discriminate Hx.
Qed.

Lemma host_step_src (rand : nat -> Q) (w : World) (inp : Input) :
  exists later,
    trace (page (host_step rand w inp)) = trace (page w) ++ later /\
    (forall el url, SetSrc el url ∉ later) /\
    src (page (host_step rand w inp)) = src (page w).
Proof.
  assert (Hsame : exists later : list Event,
             trace (page w) = trace (page w) ++ later /\
             (forall el url, SetSrc el url ∉ later) /\ src (page w) = src (page w)).
  { exists []. rewrite app_nil_r. repeat split. intros el url. apply not_elem_of_nil. }
  unfold host_step, deliver. destruct inp as [i a b c|s|k entries].
  - destruct (intervals w !! i) as [[cb ms]|]; [|exact Hsame].
    destruct cb as [container|ws us ds]; cbn [run_callback].
    + destruct container as [| |c']; 
        [rewrite spawnHeart_absent by reflexivity | rewrite spawnHeart_absent by reflexivity
         | rewrite spawnHeart_present]; exact Hsame.
    + erewrite lift_normal; [|apply updateAll_run]. cbn [world_of page set_page].
      eexists. split; [apply apply_writes_trace|]. split; [intros el url; apply no_src_in_texts|].
      apply apply_writes_frame.
  - destruct (decide (s ∈ listeners w)); exact Hsame.
  - destruct (observers w !! k); [rewrite reveal_run|]; exact Hsame.
Qed.

Lemma host_run_src (rand : nat -> Q) (inps : list Input) : forall w,
  exists later,
    trace (page (host_run rand inps w)) = trace (page w) ++ later /\
    (forall el url, SetSrc el url ∉ later) /\
    src (page (host_run rand inps w)) = src (page w).
Proof.
  unfold host_run. induction inps as [|inp inps IH]; intros w; cbn [fold_left].
  - exists []. rewrite app_nil_r. repeat split. intros el url. apply not_elem_of_nil.
  - destruct (IH (host_step rand w inp)) as (l2 & Ht2 & Hn2 & Hs2).
    destruct (host_step_src rand w inp) as (l1 & Ht1 & Hn1 & Hs1).
    exists (l1 ++ l2). rewrite Ht2, Ht1, Hs2, Hs1, app_assoc. repeat split.
    intros el url H. apply elem_of_app in H as [H|H]; [now apply Hn1 in H | now apply Hn2 in H].
Qed.

(** C7. On a page with the particle container, start-up returns normally
    and runs the cache bust exactly once, as its last step.  The token is
    the part of the ISO rendering of the current time before the "T",
    which is the UTC calendar date of that time.  The two fixed URLs with
    the token appended after "?v=" are assigned to the [src] of the
    images "usaImage" and "dolomitesImage", each only if it is on the
    page; these are the last writes of start-up and its only assignments
    to a [src], no other [src] changes, and nothing the host delivers
    afterwards assigns a [src] again. *)
Theorem C7_cache_bust_at_load (rand : nat -> Q) (now_w now_u now_d now_b : Z)
        (w : World) (c : Elem) :
  ids (page w) !! "particles" = Some c ->
  exists w1 before today,
    init rand toISOString_utc now_w now_u now_d now_b w = Done tt w1 /\
    today = split_head "T" (toISOString_utc now_b) /\
    calendar_date now_b today /\
    trace (page w1) =
      trace (page w) ++ before ++
      img_write (page w) "usaImage" ("images/usa-honeymoon.png?v=" +:+ today) ++
      img_write (page w) "dolomitesImage" ("images/dolomites-minimoon.png?v=" +:+ today) /\
    (forall el url, SetSrc el url ∉ before) /\
    (forall el, ids (page w) !! "dolomitesImage" = Some el ->
       src (page w1) !! el = Some ("images/dolomites-minimoon.png?v=" +:+ today)) /\
    (forall el, ids (page w) !! "usaImage" = Some el ->
       ids (page w) !! "dolomitesImage" <> Some el ->
       src (page w1) !! el = Some ("images/usa-honeymoon.png?v=" +:+ today)) /\
    (forall el, ids (page w) !! "usaImage" <> Some el ->
       ids (page w) !! "dolomitesImage" <> Some el ->
       src (page w1) !! el = src (page w) !! el) /\
    (forall rand' inps, exists later,
       trace (page (host_run rand' inps w1)) = trace (page w1) ++ later /\
       (forall el url, SetSrc el url ∉ later) /\
       src (page (host_run rand' inps w1)) = src (page w1)).
Proof.
  intros Hc.
  destruct (init_present rand toISOString_utc now_w now_u now_d now_b w c Hc) as (q & Hrun & Hq).
  eexists _, (map (AppendChild c)
                 (particles_from rand (draws (page w)) (particle_count (innerWidth (page w)))) ++
               map text_event (first_round now_w now_u now_d (page w))), _.
  split; [exact Hrun|]. split; [reflexivity|].
  split; [apply today_is_calendar_date|].
  cbn [page set_page set_observers set_intervals].
  assert (Hsrc : forall el,
            src q !! el =
            if decide (found (page w) "dolomitesImage" = node el)
            then Some ("images/dolomites-minimoon.png?v=" +:+ split_head "T" (toISOString_utc now_b))
            else if decide (found (page w) "usaImage" = node el)
            then Some ("images/usa-honeymoon.png?v=" +:+ split_head "T" (toISOString_utc now_b))
            else src (page w) !! el).
  { intros el. subst q. rewrite !img_set_src.
    destruct (apply_writes_frame (first_round now_w now_u now_d (page w))
                (attach rand c (particle_count (innerWidth (page w))) (page w)))
      as (_ & _ & -> & _).
    destruct (attach_frame rand c (particle_count (innerWidth (page w))) (page w))
      as (_ & _ & _ & -> & _).
    reflexivity. }
  split; [|split; [|split; [|split; [|split]]]].
  - subst q. rewrite !img_set_trace, apply_writes_trace, attach_trace.
    now rewrite <- !app_assoc.
  - intros el url H. rewrite elem_of_app in H. destruct H as [H|H].
    + now apply no_src_in_children in H.
    + now apply no_src_in_texts in H.
  - intros el Hd. rewrite Hsrc. unfold found. rewrite Hd.
    destruct (decide (node el = node el)); [reflexivity | contradiction].
  - intros el Hu Hd. rewrite Hsrc. unfold found. rewrite Hu.
    destruct (ids (page w) !! "dolomitesImage") as [d|].
    + destruct (decide (node d = node el)) as [[= ->]|_]; [contradiction|].
      destruct (decide (node el = node el)); [reflexivity | contradiction].
    + destruct (decide (null = node el)) as [[=]|_].
      destruct (decide (node el = node el)); [reflexivity | contradiction].
  - intros el Hu Hd. rewrite Hsrc. unfold found.
    destruct (ids (page w) !! "dolomitesImage") as [d|];
      destruct (ids (page w) !! "usaImage") as [u|];
      repeat (destruct (decide _) as [[= ->]|_]; try congruence).
  - intros rand' inps. apply host_run_src.
Qed.

Lemma C7_cache_bust_at_load_witness :
  ids (page sample_world) !! "particles" = Some 9%nat /\
  exists w1 before today,
    init sample_rand toISOString_utc 0 0 0 1774537200000 sample_world = Done tt w1 /\
    today = split_head "T" (toISOString_utc 1774537200000) /\
    calendar_date 1774537200000 today /\
    trace (page w1) =
      trace (page sample_world) ++ before ++
      img_write (page sample_world) "usaImage" ("images/usa-honeymoon.png?v=" +:+ today) ++
      img_write (page sample_world) "dolomitesImage"
        ("images/dolomites-minimoon.png?v=" +:+ today) /\
    (forall el url, SetSrc el url ∉ before) /\
    (forall el, ids (page sample_world) !! "dolomitesImage" = Some el ->
       src (page w1) !! el = Some ("images/dolomites-minimoon.png?v=" +:+ today)) /\
    (forall el, ids (page sample_world) !! "usaImage" = Some el ->
       ids (page sample_world) !! "dolomitesImage" <> Some el ->
       src (page w1) !! el = Some ("images/usa-honeymoon.png?v=" +:+ today)) /\
    (forall el, ids (page sample_world) !! "usaImage" <> Some el ->
       ids (page sample_world) !! "dolomitesImage" <> Some el ->
       src (page w1) !! el = src (page sample_world) !! el) /\
    (forall rand' inps, exists later,
       trace (page (host_run rand' inps w1)) = trace (page w1) ++ later /\
       (forall el url, SetSrc el url ∉ later) /\
       src (page (host_run rand' inps w1)) = src (page w1)).
Proof.
  split; [reflexivity|].
  apply (C7_cache_bust_at_load sample_rand 0 0 0 1774537200000 sample_world 9%nat).
  reflexivity.
Defined.

(** Without the particle container the cache bust does not run at page
    load: start-up throws in its first step, and the two images, though
    on the page, never get a [src]. *)
Lemma C7_cache_bust_counterexample :
  ids images_only_page !! "usaImage" = Some 10%nat /\
  ids images_only_page !! "dolomitesImage" = Some 11%nat /\
  succeeded (init sample_rand toISOString_utc 0 0 0 1774537200000
               (initial_world images_only_page [] ∅)) = false /\
  trace (page (world_of (init sample_rand toISOString_utc 0 0 0 1774537200000
                           (initial_world images_only_page [] ∅)))) = [] /\
  src (page (world_of (init sample_rand toISOString_utc 0 0 0 1774537200000
                         (initial_world images_only_page [] ∅)))) !! 10%nat = None /\
  src (page (world_of (init sample_rand toISOString_utc 0 0 0 1774537200000
                         (initial_world images_only_page [] ∅)))) !! 11%nat = None /\
  (forall rand inps,
     host_run rand inps
       (world_of (init sample_rand toISOString_utc 0 0 0 1774537200000
                    (initial_world images_only_page [] ∅))) =
     world_of (init sample_rand toISOString_utc 0 0 0 1774537200000
                 (initial_world images_only_page [] ∅))).
Proof.
  rewrite init_absent by reflexivity. cbn [succeeded world_of].
  repeat split. intros rand inps. now apply quiet_run.
Qed.
